(** * AssureDependence: the dependency scanner, embedded and verified

    A shallow embedding of [src/AssureDependence.py] (class
    [DependencyScanner]).  Python text is a [string] whose characters are
    the code points below 256; dictionaries are [gmap]s; the host the
    scanner inspects (registry, services, file system, processes) is a
    record of probe results; exceptions are values of [exn] carried by
    [outcome]; the scanner object is a record threaded through a
    state-and-exception monad whose state survives a raise, as a mutated
    Python object does. *)

From Stdlib Require Import ZArith NArith Ascii String List Bool Lia.
From stdpp Require Import base option list gmap strings fin_maps.

Local Open Scope Z_scope.

(* ===================================================================== *)
(** * Definitions                                                        *)
(* ===================================================================== *)

(** ** Exceptions *)

(** The subclasses of [Exception] the scanner can meet.  [OSError_] is
    an [OSError] that is none of its two named subclasses;
    [OtherException] is any other subclass of [Exception]. *)
Inductive exn : Type :=
  | FileNotFoundError | PermissionError | OSError_
  | AccessDenied | NoSuchProcess
  | TimeoutExpired
  | ValueError | IndexError | AttributeError
  | OtherException.

Inductive outcome (A : Type) : Type :=
  | Ok (a : A)
  | Raise (e : exn).
Arguments Ok {A} a.
Arguments Raise {A} e.

(** What each [except] clause of the source catches. *)
Definition except_Exception (e : exn) : bool := true.
Definition except_FileNotFoundError (e : exn) : bool :=
  match e with FileNotFoundError => true | _ => false end.
(** [except (PermissionError, OSError)]: [OSError] and its subclasses. *)
Definition except_OSError (e : exn) : bool :=
  match e with FileNotFoundError | PermissionError | OSError_ => true | _ => false end.
(** [except (psutil.AccessDenied, FileNotFoundError)] *)
Definition except_AccessDenied_FileNotFound (e : exn) : bool :=
  match e with AccessDenied | FileNotFoundError => true | _ => false end.
(** [except (psutil.NoSuchProcess, psutil.AccessDenied)] *)
Definition except_NoSuchProcess_AccessDenied (e : exn) : bool :=
  match e with NoSuchProcess | AccessDenied => true | _ => false end.
Definition except_IndexError (e : exn) : bool :=
  match e with IndexError => true | _ => false end.

#[global] Instance outcome_ret : MRet outcome := fun A a => Ok a.
#[global] Instance outcome_bind : MBind outcome := fun A B f x =>
  match x with Ok a => f a | Raise e => Raise e end.

(** ** Python text *)

Module Py.

Definition ord (c : ascii) : N := N_of_ascii c.

(** [str.lower] on one character below 256: A-Z and the upper-case
    letters of Latin-1 (0xC0-0xDE but the multiplication sign 0xD7). *)
Definition chr_lower (c : ascii) : ascii :=
  let n := ord c in
  if ((65 <=? n) && (n <=? 90) || (192 <=? n) && (n <=? 222) && negb (n =? 215))%N
  then ascii_of_N (n + 32) else c.

Fixpoint lower (s : string) : string :=
  match s with
  | EmptyString => EmptyString
  | String c r => String (chr_lower c) (lower r)
  end.

(** [str.isspace] of one character, which is also the regex class [\s]. *)
Definition isspace (c : ascii) : bool :=
  let n := ord c in
  ((9 <=? n) && (n <=? 13) || (28 <=? n) && (n <=? 32) || (n =? 133) || (n =? 160))%N.

(** The regex class [\d] below 256. *)
Definition isdigit (c : ascii) : bool :=
  let n := ord c in ((48 <=? n) && (n <=? 57))%N.

Definition digit_val (c : ascii) : Z := Z.of_N (ord c) - 48.

(** [s.startswith(p)] *)
Definition startswith (s p : string) : bool := String.prefix p s.

(** [sub in s] *)
Fixpoint contains (sub s : string) : bool :=
  String.prefix sub s ||
  match s with
  | EmptyString => false
  | String _ r => contains sub r
  end.

(** [s.split(sep)] for a one-character separator. *)
Fixpoint split (sep : ascii) (s : string) : list string :=
  match s with
  | EmptyString => [EmptyString]
  | String c r =>
      if Ascii.eqb c sep then EmptyString :: split sep r
      else match split sep r with
           | h :: t => String c h :: t
           | [] => [String c EmptyString]
           end
  end.

(** [l[i]] for a non-negative literal index. *)
Definition getitem {A} (l : list A) (i : nat) : outcome A :=
  match l !! i with Some x => Ok x | None => Raise IndexError end.

(** [l[-k]] counted from the end. *)
Definition getitem_neg {A} (l : list A) (k : nat) : outcome A :=
  if (k <=? length l)%nat then getitem l (length l - k) else Raise IndexError.

Fixpoint lstrip (s : string) : string :=
  match s with
  | String c r => if isspace c then lstrip r else s
  | EmptyString => EmptyString
  end.

Fixpoint rstrip (s : string) : string :=
  match s with
  | EmptyString => EmptyString
  | String c r =>
      match rstrip r with
      | EmptyString => if isspace c then EmptyString else String c EmptyString
      | r' => String c r'
      end
  end.

(** [s.strip()] *)
Definition strip (s : string) : string := rstrip (lstrip s).

(** The white space [int] lets stand around the number.  Below 127 it
    is the white space of C, 9 to 13 and 32; from 127 on it is that of
    Unicode, 0x85 and 0xA0.  The separators 0x1C to 0x1F, which
    [str.strip] takes, are refused. *)
Definition int_isspace (c : ascii) : bool :=
  let n := ord c in
  ((9 <=? n) && (n <=? 13) || (n =? 32) || (n =? 133) || (n =? 160))%N.

Fixpoint int_lstrip (s : string) : string :=
  match s with
  | String c r => if int_isspace c then int_lstrip r else s
  | EmptyString => EmptyString
  end.

Fixpoint int_rstrip (s : string) : string :=
  match s with
  | EmptyString => EmptyString
  | String c r =>
      match int_rstrip r with
      | EmptyString => if int_isspace c then EmptyString else String c EmptyString
      | r' => String c r'
      end
  end.

(** [sys.get_int_max_str_digits()], which the script leaves at the
    interpreter's default. *)
Definition int_max_str_digits : Z := 4300.

(** The digits of an [int] literal: one or more digits, single
    underscores allowed between two digits.  The value read so far and
    the number of digits read so far are carried along. *)
Fixpoint int_digits (s : string) (acc : Z) (after_digit : bool) (digits : Z)
    : option (Z * Z) :=
  match s with
  | EmptyString => if after_digit then Some (acc, digits) else None
  | String c r =>
      if isdigit c then int_digits r (10 * acc + digit_val c) true (digits + 1)
      else if Ascii.eqb c "_" then
        if after_digit then int_digits r acc false digits else None
      else None
  end.

(** [int(s)]: white space around, one optional sign, decimal digits; a
    literal of more than [int_max_str_digits] digits is refused. *)
Definition int (s : string) : outcome Z :=
  let t := int_rstrip (int_lstrip s) in
  let parsed :=
    match t with
    | String c r =>
        if Ascii.eqb c "+" then int_digits r 0 false 0
        else if Ascii.eqb c "-" then
          (fun p : Z * Z => (- p.1, p.2)) <$> int_digits r 0 false 0
        else int_digits t 0 false 0
    | EmptyString => None
    end in
  match parsed with
  | Some (n, digits) =>
      if digits <=? int_max_str_digits then Ok n else Raise ValueError
  | None => Raise ValueError
  end.

(** The line boundaries of [str.splitlines] below 256. *)
Definition is_linebreak (c : ascii) : bool :=
  let n := ord c in
  ((10 <=? n) && (n <=? 13) || (28 <=? n) && (n <=? 30) || (n =? 133))%N.

(** [s.splitlines()]; a carriage return and the line feed behind it
    are one boundary. *)
Fixpoint splitlines (s : string) : list string :=
  match s with
  | EmptyString => []
  | String c r =>
      if is_linebreak c then
        match r with
        | String c' r' =>
            if Ascii.eqb c (ascii_of_nat 13) && Ascii.eqb c' (ascii_of_nat 10)
            then EmptyString :: splitlines r'
            else EmptyString :: splitlines r
        | EmptyString => [EmptyString]
        end
      else
        match splitlines r with
        | h :: t => String c h :: t
        | [] => [String c EmptyString]
        end
  end.

(** [s.rfind(c)], [None] for -1. *)
Fixpoint rfind (c : ascii) (s : string) : option nat :=
  match s with
  | EmptyString => None
  | String a r =>
      match rfind c r with
      | Some i => Some (S i)
      | None => if Ascii.eqb a c then Some 0%nat else None
      end
  end.

(** The truth value of a string, and of a string or [None]. *)
Definition truthy (s : string) : bool :=
  match s with EmptyString => false | String _ _ => true end.
Definition truthy_opt (o : option string) : bool :=
  match o with Some s => truthy s | None => false end.

End Py.

(** ** Paths *)

(** A [pathlib] path of Windows by its [parts]: the anchor first. *)
Module Path.

Definition t : Type := list string.

(** [Path(d) / name] *)
Definition joinpath (d : t) (name : string) : t := d ++ [name].

Definition name (p : t) : string :=
  match p with
  | _ :: _ :: _ => List.last p EmptyString
  | _ => EmptyString
  end.

(** Where the last dot of [name] splits it, if it has a suffix:
    [0 < i < len(name) - 1]. *)
Definition suffix_index (nm : string) : option nat :=
  match Py.rfind "." nm with
  | Some i => if ((0 <? i) && (i <? String.length nm - 1))%nat then Some i else None
  | None => None
  end.

Definition suffix (p : t) : string :=
  match suffix_index (name p) with
  | Some i => String.substring i (String.length (name p) - i) (name p)
  | None => EmptyString
  end.

Definition stem (p : t) : string :=
  match suffix_index (name p) with
  | Some i => String.substring 0 i (name p)
  | None => name p
  end.

(** [str(p)] *)
Definition str (p : t) : string :=
  match p with
  | [] => "."
  | anchor :: rest => anchor +:+ String.concat "\" rest
  end.

End Path.

(** ** End-of-life checks *)

Definition check_java_eol (v : string) : string :=
  match (c ← Py.getitem (Py.split "." v) 1 ;
         n ← Py.int c ;
         Ok (if n <? 11 then "EOL" else "Supported")) with
  | Ok r => r
  | Raise _ => "Unknown"
  end.

(** The last element of the list literal is written ['6.0' '7.0'] with no
    comma, which Python reads as one string. *)
Definition eol_versions : list string :=
  ["1.0"; "1.1"; "2.0"; "2.1"; "2.2"; "3.0"; "3.1"; "5.0"; "6.0" +:+ "7.0"].

Definition check_dotnet_core_eol (v : string) : string :=
  if existsb (fun p => Py.startswith v p) eol_versions then "EOL" else "Supported".

Definition check_mssql_eol (v : string) : string :=
  match (c ← Py.getitem (Py.split "." v) 0 ;
         major_version ← Py.int c ;
         Ok (if major_version <? 13 then "EOL" else "Supported")) with
  | Ok r => r
  | Raise _ => "Unknown"
  end.

Definition check_mysql_eol (v : string) : string :=
  match Ok (if Py.startswith v "5." then "EOL" else "Supported") with
  | Ok r => r
  | Raise _ => "Unknown"
  end.

Definition check_postgresql_eol (v : string) : string :=
  match (c ← Py.getitem (Py.split "." v) 0 ;
         major_version ← Py.int c ;
         Ok (if major_version <? 12 then "EOL" else "Supported")) with
  | Ok r => r
  | Raise _ => "Unknown"
  end.

(** ** The regular expressions of the source *)

Module Re.

(** The longest prefix made of characters of the class [f], and the rest:
    what a greedy [f*] consumes. *)
Fixpoint span (f : ascii -> bool) (s : string) : string * string :=
  match s with
  | String c r =>
      if f c then let p := span f r in (String c p.1, p.2) else (EmptyString, s)
  | EmptyString => (EmptyString, EmptyString)
  end.

(** A greedy [f+] that is followed by something [f] excludes. *)
Definition plus (f : ascii -> bool) (s : string) : option (string * string) :=
  match span f s with
  | (EmptyString, _) => None
  | r => Some r
  end.

(** A literal at the start of [s]; the rest of [s] behind it. *)
Fixpoint literal (p s : string) : option string :=
  match p, s with
  | EmptyString, _ => Some s
  | String a p', String b s' => if Ascii.eqb a b then literal p' s' else None
  | String _ _, EmptyString => None
  end.

(** [re.search]: the match at the leftmost position that has one. *)
Fixpoint search {A} (match_at : string -> option A) (s : string) : option A :=
  match match_at s with
  | Some r => Some r
  | None =>
      match s with
      | EmptyString => None
      | String _ r => search match_at r
      end
  end.

(** What a greedy dot-star group followed by the literal character [c]
    captures at the start of [s]: all before the last [c]. *)
Fixpoint up_to_last (c : ascii) (s : string) : option string :=
  match s with
  | EmptyString => None
  | String a r =>
      match up_to_last c r with
      | Some p => Some (String a p)
      | None => if Ascii.eqb a c then Some EmptyString else None
      end
  end.

Definition not_space (c : ascii) : bool := negb (Py.isspace c).
Definition not_newline (c : ascii) : bool := negb (Ascii.eqb c (ascii_of_nat 10)).
Definition not_backslash (c : ascii) : bool := negb (Ascii.eqb c "\").
Definition not_dquote (c : ascii) : bool := negb (Ascii.eqb c (ascii_of_nat 34)).

(** The pattern of [detect_dotnet_core], matched with [re.match]: a run
    of non-space characters (group 1), white space, a second such run
    (group 2), white space, an opening bracket, any characters but a
    newline (group 3, greedy) and a closing bracket. *)
Definition runtime_line (line : string) : option (string * string * string) :=
  '(runtime, r) ← plus not_space line ;
  '(_, r) ← plus Py.isspace r ;
  '(version, r) ← plus not_space r ;
  '(_, r) ← plus Py.isspace r ;
  r ← literal "[" r ;
  path ← up_to_last "]" (span not_newline r).1 ;
  Some (runtime, version, path).

(** The pattern of [detect_mysql_instances] at the start of [s]: three
    runs of digits separated by dots. *)
Definition mysql_version_at (s : string) : option string :=
  '(a, r) ← plus Py.isdigit s ;
  r ← literal "." r ;
  '(b, r) ← plus Py.isdigit r ;
  r ← literal "." r ;
  '(c, _) ← plus Py.isdigit r ;
  Some (a +:+ "." +:+ b +:+ "." +:+ c).

(** The pattern of [detect_postgresql_instances] at the start of [s]:
    a run of digits, and a dot with a second run when they follow. *)
Definition postgresql_version_at (s : string) : option string :=
  '(a, r) ← plus Py.isdigit s ;
  match ('(b, _) ← (r' ← literal "." r ; plus Py.isdigit r') ; Some b) with
  | Some b => Some (a +:+ "." +:+ b)
  | None => Some a
  end.

(** The pattern of [get_dotnet_core_version_from_process] at the start
    of [s]: the literal \dotnet\shared\, then microsoft.netcore.app or
    microsoft.aspnetcore.app (group 1), a backslash, a non-empty run of
    characters other than the backslash (group 2), and the literal
    \coreclr.dll. *)
Definition coreclr_at (s : string) : option (string * string) :=
  r ← literal "\dotnet\shared\" s ;
  '(g1, r) ← match literal "microsoft.netcore.app" r with
             | Some r' => Some ("microsoft.netcore.app", r')
             | None => r' ← literal "microsoft.aspnetcore.app" r ;
                       Some ("microsoft.aspnetcore.app", r')
             end ;
  r ← literal "\" r ;
  '(g2, r) ← plus not_backslash r ;
  _ ← literal "\coreclr.dll" r ;
  Some (g1, g2).

(** The pattern of [detect_java_version_from_process] at the start of
    [s]: the word version, a space, and between two double quotes a
    non-empty run of other characters (group 1). *)
Definition java_version_at (s : string) : option string :=
  r ← literal ("version " +:+ String (ascii_of_nat 34) EmptyString) s ;
  '(v, r) ← plus not_dquote r ;
  _ ← literal (String (ascii_of_nat 34) EmptyString) r ;
  Some v.

End Re.

(** ** Values, records and the scanner object *)

(** The values the scanner stores in its records. *)
Inductive pyval : Type :=
  | PStr (s : string)
  | PInt (z : Z)
  | PNone.

#[global] Instance pyval_eq_dec : EqDecision pyval.
Proof. solve_decision. Defined.

(** A dict literal with string keys. *)
Abbreviation record := (gmap string pyval).

Definition dict_literal (items : list (string * pyval)) : record :=
  foldl (fun d kv => <[kv.1 := kv.2]> d) ∅ items.

(** [d.update(other)]: every item of [other] is written into [d]. *)
Definition dict_update {V} (d other : gmap string V) : gmap string V :=
  map_fold (fun k v acc => <[k := v]> acc) d other.

(** The lines the script prints, one constructor per [print] call. *)
Inductive line : Type :=
  | Starting_scan                    (* "Starting comprehensive dependency scan..." *)
  | Found_frameworks (n : nat)       (* "Found {n} framework installations ..." *)
  | Info_java (e : exn)              (* "- Info: Could not scan for installed Java versions: {e}" *)
  | Info_dotnet_cli_not_found        (* "- Info: dotnet CLI not found. ..." *)
  | Scanning_sql                     (* "Scanning for SQL database installations..." *)
  | Info_mssql (e : exn)             (* "- Info: Could not scan for MS SQL Server: {e}" *)
  | Info_mysql (e : exn)             (* "- Info: Could not scan for MySQL services: {e}" *)
  | Info_postgresql (e : exn)        (* "- Info: Could not scan for PostgreSQL services: {e}" *)
  | Scanning_applications            (* "Scanning installed applications for .NET Core and Java..." *)
  | Scanning_processes.              (* "Scanning running processes..." *)

(** The [DependencyScanner] object, with the standard output beside it. *)
Record scanner : Type := Scanner {
  dependencies : gmap string (list record);
  running_processes : gmap string pyval;
  installed_frameworks : gmap string record;
  stdout : list line
}.

(** [DependencyScanner.__init__] *)
Definition init : scanner :=
  {| dependencies := ∅; running_processes := ∅; installed_frameworks := ∅; stdout := [] |}.

(** ** State and exceptions *)

(** A computation over a mutable [S] that returns or raises; the state
    it leaves is kept in both cases. *)
Definition ST (S A : Type) : Type := S -> outcome A * S.

#[global] Instance ST_ret {S} : MRet (ST S) := fun A a s => (Ok a, s).
#[global] Instance ST_bind {S} : MBind (ST S) := fun A B f m s =>
  match m s with
  | (Ok a, s') => f a s'
  | (Raise e, s') => (Raise e, s')
  end.

Definition lift {S A} (o : outcome A) : ST S A := fun s => (o, s).
Definition modify {S} (f : S -> S) : ST S unit := fun s => (Ok tt, f s).

(** [try: body / except <catches> as e: handler e] *)
Definition try_except {S A} (body : ST S A) (catches : exn -> bool)
    (handler : exn -> ST S A) : ST S A := fun s =>
  match body s with
  | (Ok a, s') => (Ok a, s')
  | (Raise e, s') => if catches e then handler e s' else (Raise e, s')
  end.

(** [for x in items: body x] *)
Fixpoint for_each {S X} (items : list X) (body : X -> ST S unit) : ST S unit :=
  match items with
  | [] => mret tt
  | x :: rest => _ ← body x ; for_each rest body
  end.

(** [for x in it: body x] over an iterator that may raise instead of
    yielding its next item. *)
Definition for_each_yield {S X} (it : list (outcome X)) (body : X -> ST S unit) : ST S unit :=
  for_each it (fun o => x ← lift o ; body x).

Abbreviation M := (ST scanner).

(** The three ways the script changes its state: a line printed, the
    frameworks map assigned, a record appended to a category of the
    [defaultdict(list)]. *)
Definition printed (l : line) (s : scanner) : scanner :=
  {| dependencies := dependencies s;
     running_processes := running_processes s;
     installed_frameworks := installed_frameworks s;
     stdout := stdout s ++ [l] |}.

Definition with_installed_frameworks (frameworks : gmap string record) (s : scanner) : scanner :=
  {| dependencies := dependencies s;
     running_processes := running_processes s;
     installed_frameworks := frameworks;
     stdout := stdout s |}.

Definition appended (category : string) (r : record) (s : scanner) : scanner :=
  {| dependencies :=
       <[category := default [] (dependencies s !! category) ++ [r]]> (dependencies s);
     running_processes := running_processes s;
     installed_frameworks := installed_frameworks s;
     stdout := stdout s |}.

Definition print (l : line) : M unit := modify (printed l).

(** A detector's shape: a local dict filled inside a [try], a message
    printed when the [except] clause catches, the dict returned after:
    [d = {}; try: body / except <catches> as e: print(msg e); return d]. *)
Definition try_filling {D} (body : ST D unit) (init_d : D) (catches : exn -> bool)
    (msg : exn -> line) : M D := fun s =>
  match body init_d with
  | (Ok _, d) => (Ok d, s)
  | (Raise e, d) => if catches e then (_ ← print (msg e) ; mret d) s else (Raise e, s)
  end.

(** ** The host *)

(** One subkey of JavaSoft's [Java Runtime Environment] key: its name
    (from [EnumKey]) and what reading its [JavaHome] value gives. *)
Record java_subkey : Type := {
  jk_version : string;
  jk_JavaHome : outcome pyval
}.

(** One value of SQL Server's [Instance Names\SQL] key (from
    [EnumValue]) and what the two lookups under the instance's own key
    give, in the order the detector makes them. *)
Record mssql_instance : Type := {
  ms_name : string;
  ms_inst_id : pyval;
  ms_CurrentVersion : outcome pyval;
  ms_SQLDataRoot : outcome pyval
}.

(** A Windows service as [psutil] shows it. *)
Record service : Type := {
  svc_name : string;
  svc_display_name : outcome string;
  svc_binpath : outcome string
}.

(** A process as [psutil.process_iter(['pid','name','exe','cmdline'])]
    yields it, with what [memory_maps()] gives (the modules' paths) and
    what running its executable with [-version] would give. *)
Record process : Type := {
  proc_pid : Z;
  proc_name : option string;
  proc_exe : option string;
  proc_memory_maps : outcome (list string);
  proc_run_version : outcome (Z * string)
}.

(** Everything the scanner reads from the machine.  An iterator is the
    list of what it yields, an item being [Raise e] where it raises
    instead; a call that may fail is an [outcome]. *)
Record host : Type := {
  reg_java_runtime_environment : outcome (list (outcome java_subkey));
  run_dotnet_list_runtimes : outcome (Z * string);
  reg_mssql_instance_names : outcome (list (outcome mssql_instance));
  win_service_iter : outcome (list (outcome service));
  (** [str(Path(binpath).parent.parent)] *)
  parent_parent : string -> string;
  path_exists : Path.t -> outcome bool;
  path_iterdir : Path.t -> outcome (list string);
  path_is_file : Path.t -> outcome bool;
  path_is_dir : Path.t -> outcome bool;
  process_iter : list process;
  (** [str(psutil.boot_time())] *)
  boot_time : string
}.

(** [subprocess.run(..., capture_output=..., stderr=...)]: the two
    arguments together are refused before anything is run. *)
Definition subprocess_run (capture_output stderr_given : bool)
    (spawned : outcome (Z * string)) : outcome (Z * string) :=
  if capture_output && stderr_given then Raise ValueError else spawned.

(** [v.split(...)] and the like on a value that may not be a string. *)
Definition as_str (v : pyval) : outcome string :=
  match v with PStr s => Ok s | _ => Raise AttributeError end.

Definition opt_pyval (o : option string) : pyval :=
  match o with Some s => PStr s | None => PNone end.

(** How an f-string shows a string or [None]. *)
Definition format_opt (o : option string) : string :=
  match o with Some s => s | None => "None" end.

(** ** Framework detection *)

Section Scanner.

Variable h : host.

Definition detect_java_installations : M (gmap string record) :=
  try_filling
    (key ← lift (reg_java_runtime_environment h) ;
     for_each_yield key (fun sub =>
       let version := jk_version sub in
       try_except
         (java_home ← lift (jk_JavaHome sub) ;
          modify (insert ("Java " +:+ version)
            (dict_literal [("version", PStr version); ("path", java_home);
                           ("type", PStr "java");
                           ("eol_status", PStr (check_java_eol version))])))
         except_FileNotFoundError (fun _ => mret tt)))
    ∅ except_Exception Info_java.

Definition detect_dotnet_core : M (gmap string record) :=
  try_filling
    (result ← lift (subprocess_run true false (run_dotnet_list_runtimes h)) ;
     if result.1 =? 0 then
       for_each (Py.splitlines result.2) (fun line =>
         if Py.truthy (Py.strip line) then
           match Re.runtime_line line with
           | Some (runtime, version, path) =>
               modify (insert (runtime +:+ " " +:+ version)
                 (dict_literal [("version", PStr version); ("runtime", PStr runtime);
                                ("path", PStr path); ("type", PStr "dotnet_core");
                                ("eol_status", PStr (check_dotnet_core_eol version))]))
           | None => mret tt
           end
         else mret tt)
     else mret tt)
    ∅ except_FileNotFoundError (fun _ => Info_dotnet_cli_not_found).

Definition detect_sql_server_instances : M (gmap string record) :=
  try_filling
    (key ← lift (reg_mssql_instance_names h) ;
     for_each_yield key (fun inst =>
       try_except
         (version ← lift (ms_CurrentVersion inst) ;
          path ← lift (ms_SQLDataRoot inst) ;
          version_str ← lift (as_str version) ;
          major ← lift (Py.getitem (Py.split "." version_str) 0) ;
          let display_name :=
            "Microsoft SQL Server " +:+ major +:+ " (Instance: " +:+ ms_name inst +:+ ")" in
          modify (insert display_name
            (dict_literal [("version", version); ("path", path);
                           ("type", PStr "mssql");
                           ("eol_status", PStr (check_mssql_eol version_str))])))
         except_FileNotFoundError (fun _ => mret tt)))
    ∅ except_Exception Info_mssql.

Definition detect_mysql_instances : M (gmap string record) :=
  try_filling
    (services ← lift (win_service_iter h) ;
     for_each_yield services (fun service =>
       if Py.startswith (Py.lower (svc_name service)) "mysql" then
         try_except
           (display_name ← lift (svc_display_name service) ;
            binpath ← lift (svc_binpath service) ;
            let version :=
              match Re.search Re.mysql_version_at (display_name +:+ binpath) with
              | Some v => v
              | None => "Unknown"
              end in
            binpath' ← lift (svc_binpath service) ;
            let path := parent_parent h binpath' in
            modify (insert ("MySQL Server " +:+ version)
              (dict_literal [("version", PStr version); ("path", PStr path);
                             ("type", PStr "mysql");
                             ("eol_status", PStr (check_mysql_eol version))])))
           except_AccessDenied_FileNotFound (fun _ => mret tt)
       else mret tt))
    ∅ except_Exception Info_mysql.

Definition detect_postgresql_instances : M (gmap string record) :=
  try_filling
    (services ← lift (win_service_iter h) ;
     for_each_yield services (fun service =>
       if Py.startswith (Py.lower (svc_name service)) "postgresql" then
         try_except
           (display_name ← lift (svc_display_name service) ;
            let version :=
              match Re.search Re.postgresql_version_at (svc_name service +:+ display_name) with
              | Some v => v
              | None => "Unknown"
              end in
            binpath ← lift (svc_binpath service) ;
            let path := parent_parent h binpath in
            modify (insert ("PostgreSQL " +:+ version)
              (dict_literal [("version", PStr version); ("path", PStr path);
                             ("type", PStr "postgresql");
                             ("eol_status", PStr (check_postgresql_eol version))])))
           except_AccessDenied_FileNotFound (fun _ => mret tt)
       else mret tt))
    ∅ except_Exception Info_postgresql.

Definition detect_sql_databases : M (gmap string record) :=
  _ ← print Scanning_sql ;
  let sql_installs : gmap string record := ∅ in
  mssql ← detect_sql_server_instances ;
  let sql_installs := dict_update sql_installs mssql in
  mysql ← detect_mysql_instances ;
  let sql_installs := dict_update sql_installs mysql in
  postgres ← detect_postgresql_instances ;
  let sql_installs := dict_update sql_installs postgres in
  mret sql_installs.

Definition detect_frameworks : M unit :=
  let frameworks : gmap string record := ∅ in
  java_versions ← detect_java_installations ;
  let frameworks := dict_update frameworks java_versions in
  dotnet_versions ← detect_dotnet_core ;
  let frameworks := dict_update frameworks dotnet_versions in
  sql_versions ← detect_sql_databases ;
  let frameworks := dict_update frameworks sql_versions in
  _ ← modify (with_installed_frameworks frameworks) ;
  print (Found_frameworks (size frameworks)).

(** ** The static scan of installed applications *)

(** [self.dependencies[category].append(r)] *)
Definition append_dependency (category : string) (r : record) : M unit :=
  modify (appended category r).

Definition get_application_name (file_path : Path.t) : outcome string :=
  let returned : outcome (option string) :=
    part1 ← Py.getitem file_path 1 ;
    if Py.contains "program files" (Py.lower part1) then
      part2 ← Py.getitem file_path 2 ; Ok (Some part2)
    else
      part1 ← Py.getitem file_path 1 ;
      if Py.contains "windowsapps" (Py.lower part1) then
        part2 ← Py.getitem file_path 2 ;
        first ← Py.getitem (Py.split "_" part2) 0 ;
        Ok (Some first)
      else Ok None in
  match returned with
  | Ok (Some app) => Ok app
  | Ok None => Ok (Path.stem file_path)
  | Raise e => if except_IndexError e then Ok (Path.stem file_path) else Raise e
  end.

Definition static_record (app_name : string) (file_path : Path.t) : record :=
  dict_literal [("app", PStr app_name); ("file", PStr (Path.str file_path));
                ("framework", PStr "Java Runtime");
                ("detection_method", PStr "static_analysis");
                ("confidence", PStr "high")].

Definition analyze_file_dependencies (file_path : Path.t) : M unit :=
  try_except
    (app_name ← lift (get_application_name file_path) ;
     append_dependency "java" (static_record app_name file_path))
    except_Exception (fun _ => mret tt).

(** What the loop of [scan_directory_for_dependencies] does with one
    item, [recurse] being the recursive call. *)
Definition scan_item (recurse : Path.t -> M unit) (item : Path.t) : M unit :=
  is_file ← lift (path_is_file h item) ;
  if is_file && String.eqb (Py.lower (Path.suffix item)) ".jar" then
    analyze_file_dependencies item
  else
    is_dir ← lift (path_is_dir h item) ;
    if is_dir && negb (Py.startswith (Path.name item) ".") then recurse item
    else mret tt.

(** The body of [scan_directory_for_dependencies], by recursion on the
    number of levels left. *)
Fixpoint scan_levels (levels : nat) (directory : Path.t) : M unit :=
  match levels with
  | O => mret tt
  | S levels' =>
      try_except
        (items ← lift (path_iterdir h directory) ;
         for_each items (fun entry =>
           scan_item (scan_levels levels') (Path.joinpath directory entry)))
        except_OSError (fun _ => mret tt)
  end.

(** [scan_directory_for_dependencies(directory, max_depth)]: it returns
    at once when [max_depth <= 0], and each recursive call passes
    [max_depth - 1]. *)
Definition scan_directory_for_dependencies (directory : Path.t) (max_depth : Z) : M unit :=
  scan_levels (Z.to_nat max_depth) directory.

Definition program_dirs : list Path.t :=
  [["C:\"; "Program Files"]; ["C:\"; "Program Files (x86)"]; ["C:\"; "ProgramData"]].

(** What the loop of [scan_installed_applications] does with one
    program directory. *)
Definition scan_program_dir (prog_dir : Path.t) : M unit :=
  found ← lift (path_exists h prog_dir) ;
  if (found : bool) then scan_directory_for_dependencies prog_dir 3 else mret tt.

Definition scan_installed_applications : M unit :=
  _ ← print Scanning_applications ;
  for_each program_dirs scan_program_dir.

(** ** The scan of running processes *)

(** What one loaded module tells [get_dotnet_core_version_from_process]:
    the version string, if the module decides it. *)
Definition dotnet_version_of_module (proc : process) (dll_path : string)
    : outcome (option string) :=
  let path_lower := Py.lower dll_path in
  match Re.search Re.coreclr_at path_lower with
  | Some (group1, group2) =>
      kind ← Py.getitem_neg (Py.split "." group1) 2 ;
      Ok (Some (group2 +:+ " (" +:+ kind +:+ ")"))
  | None =>
      if Py.contains "coreclr.dll" path_lower && negb (Py.contains "microsoft.net" path_lower)
      then Ok (Some ("Self-Contained (" +:+ format_opt (proc_name proc) +:+ ")"))
      else Ok None
  end.

(** The loop over the modules: the first one that decides returns. *)
Fixpoint first_dotnet_module (proc : process) (dlls : list string)
    : outcome (option string * option string) :=
  match dlls with
  | [] => Ok (None, None)
  | dll :: rest =>
      decided ← dotnet_version_of_module proc dll ;
      match decided with
      | Some version => Ok (Some version, Some dll)
      | None => first_dotnet_module proc rest
      end
  end.

Definition get_dotnet_core_version_from_process (proc : process)
    : outcome (option string * option string) :=
  match (dlls ← proc_memory_maps proc ; first_dotnet_module proc dlls) with
  | Ok r => Ok r
  | Raise e => if except_NoSuchProcess_AccessDenied e then Ok (None, None) else Raise e
  end.

Definition is_java_process (proc : process) : bool :=
  match (name ← match proc_name proc with
                 | Some n => Ok n
                 | None => Raise AttributeError
                 end ;
         Ok (bool_decide (Py.lower name ∈ ["java.exe"; "javaw.exe"]))) with
  | Ok b => b
  | Raise _ => false
  end.

Definition detect_java_version_from_process (proc : process) : string * option string :=
  let returned : outcome (option (string * option string)) :=
    match proc_exe proc with
    | Some exe_path =>
        if Py.truthy exe_path then
          result ← subprocess_run true true (proc_run_version proc) ;
          if result.1 =? 0 then
            match Re.search Re.java_version_at result.2 with
            | Some version => Ok (Some (version, Some exe_path))
            | None => Ok None
            end
          else Ok None
        else Ok None
    | None => Ok None
    end in
  match returned with
  | Ok (Some r) => r
  | _ => ("Unknown", proc_exe proc)
  end.

Definition runtime_record (proc : process) (exe_path framework : string)
    (dependency_path : option string) : record :=
  dict_literal [("app", opt_pyval (proc_name proc)); ("pid", PInt (proc_pid proc));
                ("file", PStr exe_path); ("framework", PStr framework);
                ("dependency_path", opt_pyval dependency_path);
                ("detection_method", PStr "runtime_analysis");
                ("confidence", PStr "high"); ("status", PStr "running")].

Definition analyze_running_process (proc : process) : M unit :=
  try_except
    (if Py.truthy_opt (proc_exe proc) then
       let exe_path := default EmptyString (proc_exe proc) in
       '(dotnet_version, dotnet_path) ← lift (get_dotnet_core_version_from_process proc) ;
       _ ← (if Py.truthy_opt dotnet_version then
              append_dependency "dotnet_runtime"
                (runtime_record proc exe_path
                   (".NET Core Runtime " +:+ default EmptyString dotnet_version) dotnet_path)
            else mret tt) ;
       if is_java_process proc then
         let '(java_version, java_path) := detect_java_version_from_process proc in
         append_dependency "java_runtime"
           (runtime_record proc exe_path ("Java Runtime " +:+ java_version) java_path)
       else mret tt
     else mret tt)
    except_Exception (fun _ => mret tt).

(** What the loop of [scan_running_processes] does with one process. *)
Definition scan_process (proc : process) : M unit :=
  try_except
    (if Py.truthy_opt (proc_exe proc) then analyze_running_process proc else mret tt)
    except_NoSuchProcess_AccessDenied (fun _ => mret tt).

Definition scan_running_processes : M unit :=
  _ ← print Scanning_processes ;
  for_each (process_iter h) scan_process.

(** ** The report *)

Record scan_summary : Type := {
  frameworks_found : nat;
  dependencies_found : nat;
  scan_timestamp : string
}.

Record report : Type := {
  report_scan_summary : scan_summary;
  report_installed_frameworks : gmap string record;
  report_dependencies : gmap string (list record)
}.

(** [sum(len(deps) for deps in self.dependencies.values())] *)
Definition sum_of_lengths (deps : gmap string (list record)) : nat :=
  map_fold (fun _ deps total => (total + length deps)%nat) 0%nat deps.

Definition generate_report : M report := fun s =>
  (Ok {| report_scan_summary :=
           {| frameworks_found := size (installed_frameworks s);
              dependencies_found := sum_of_lengths (dependencies s);
              scan_timestamp := boot_time h |};
         report_installed_frameworks := installed_frameworks s;
         report_dependencies := dependencies s |}, s).

Definition scan_all : M report :=
  _ ← print Starting_scan ;
  _ ← detect_frameworks ;
  _ ← scan_installed_applications ;
  _ ← scan_running_processes ;
  generate_report.

End Scanner.

(** ** What the theorems speak of *)

(** The text holds the character. *)
Fixpoint has_char (c : ascii) (s : string) : Prop :=
  match s with
  | EmptyString => False
  | String a r => a = c \/ has_char c r
  end.

(** One of the three end-of-life classifications. *)
Definition classification (status : string) : Prop :=
  status ∈ ["EOL"; "Supported"; "Unknown"].

(** The record has an ['eol_status'] field, and it holds one of them. *)
Definition has_eol_status (r : record) : Prop :=
  exists status, r !! "eol_status" = Some (PStr status) /\ classification status.

(** The records of a category, as the [defaultdict] reads it. *)
Definition records_of (s : scanner) (category : string) : list record :=
  default [] (dependencies s !! category).

(** [yields m a]: from every state, [m] returns [a]. *)
Definition yields {A} (m : M A) (a : A) : Prop :=
  forall s, exists s', m s = (Ok a, s').

(** The [dotnet] command line either runs or is not found. *)
Definition cli_runs_or_is_missing (h : host) : Prop :=
  forall e, run_dotnet_list_runtimes h = Raise e -> e = FileNotFoundError.

(** *** Loaded modules *)

(** The text holds the pattern of a shared .NET Core runtime: somewhere
    in it \dotnet\shared\microsoft.KIND.app\VERSION\coreclr.dll, with
    KIND netcore or aspnetcore and VERSION a non-empty run of characters
    other than the backslash. *)
Definition matches_coreclr (s kind version : string) : Prop :=
  (kind = "netcore" \/ kind = "aspnetcore")
  /\ version <> EmptyString
  /\ ~ has_char "\" version
  /\ exists pre post,
       s = pre +:+ "\dotnet\shared\microsoft." +:+ kind +:+ ".app\" +:+ version
           +:+ "\coreclr.dll" +:+ post.

(** The second test [get_dotnet_core_version_from_process] makes on a
    module: its lower-cased path holds coreclr.dll and does not hold
    microsoft.net. *)
Definition self_contained_module (dll_path : string) : bool :=
  Py.contains "coreclr.dll" (Py.lower dll_path)
  && negb (Py.contains "microsoft.net" (Py.lower dll_path)).

(** *** The walk *)

(** A name with the extension jar in any mix of cases: it ends in a dot
    and the letters j, a, r, and has something before that dot. *)
Definition jar_name (name : string) : Prop :=
  exists stem j a r,
    name = stem +:+ "." +:+ String j (String a (String r EmptyString))
    /\ stem <> EmptyString
    /\ (j = "j" \/ j = "J")%char /\ (a = "a" \/ a = "A")%char
    /\ (r = "r" \/ r = "R")%char.

(** The entry is one the walk records: a regular file, below the
    anchor, whose last part is such a name. *)
Definition jar_file (h : host) (item : Path.t) : Prop :=
  path_is_file h item = Ok true
  /\ exists parent name, item = parent ++ [name] /\ parent <> [] /\ jar_name name.

(** The entry is one the walk goes down into: not recorded, a
    directory, its name not starting with a dot. *)
Definition entered (h : host) (item : Path.t) : Prop :=
  ~ jar_file h item
  /\ path_is_dir h item = Ok true
  /\ Py.startswith (Path.name item) "." = false.


(** The probes of the entry's kind answer, as far as the loop asks
    them: [is_file], and [is_dir] too unless the entry is recorded. *)
Definition probes_answer (h : host) (item : Path.t) : Prop :=
  jar_file h item
  \/ ((exists is_file, path_is_file h item = Ok is_file)
      /\ exists is_dir, path_is_dir h item = Ok is_dir).

(** [visited h n directory item]: the walk gets to [item].  It is
    [reached], and on the way down the probes answer for every entry
    listed before it in the same directory, and for each directory
    gone down into: the loop over a listing ends at the first entry
    whose probe fails. *)
Inductive visited (h : host) : nat -> Path.t -> Path.t -> Prop :=
  | visited_listed n directory before entry after :
      path_iterdir h directory = Ok (before ++ entry :: after) ->
      Forall (fun e => probes_answer h (Path.joinpath directory e)) before ->
      visited h (S n) directory (Path.joinpath directory entry)
  | visited_below n directory before entry after item :
      path_iterdir h directory = Ok (before ++ entry :: after) ->
      Forall (fun e => probes_answer h (Path.joinpath directory e)) before ->
      probes_answer h (Path.joinpath directory entry) ->
      entered h (Path.joinpath directory entry) ->
      visited h n (Path.joinpath directory entry) item ->
      visited h (S n) directory item.

(** What the file system may do to the walk. *)
Definition roots_answer (h : host) : Prop :=
  forall root, root ∈ program_dirs -> exists found, path_exists h root = Ok found.

Definition walk_raises_only_OSError (h : host) : Prop :=
  forall p e,
    path_iterdir h p = Raise e \/ path_is_file h p = Raise e \/ path_is_dir h p = Raise e ->
    except_OSError e = true.


(** *** Steps of the scanner *)

(** [grows_by Q s s']: from [s] to [s'] nothing is printed, the
    frameworks stay, every record stays, and a record that is new in a
    category satisfies [Q]. *)
Definition grows_by (Q : string -> record -> Prop) : relation scanner := fun s s' =>
  installed_frameworks s' = installed_frameworks s
  /\ running_processes s' = running_processes s
  /\ stdout s' = stdout s
  /\ (forall c r, r ∈ records_of s c -> r ∈ records_of s' c)
  /\ (forall c r, r ∈ records_of s' c -> r ∈ records_of s c \/ Q c r).

(** The lines framework detection prints before its count. *)
Definition detection_line (l : line) : Prop :=
  match l with
  | Info_java _ | Info_dotnet_cli_not_found | Scanning_sql
  | Info_mssql _ | Info_mysql _ | Info_postgresql _ => True
  | _ => False
  end.

(** [prints P s s']: from [s] to [s'] lines that satisfy [P] are
    printed and nothing else changes. *)
Definition prints (P : line -> Prop) : relation scanner := fun s s' =>
  dependencies s' = dependencies s
  /\ running_processes s' = running_processes s
  /\ installed_frameworks s' = installed_frameworks s
  /\ exists out, stdout s' = stdout s ++ out /\ Forall P out.

(** ** Hosts to run the scanner on *)

(** A machine with nothing on it: no Java or SQL Server key in the
    registry, no [dotnet] command, no service, no program directory, no
    process. *)
Definition bare_host : host :=
  {| reg_java_runtime_environment := Raise FileNotFoundError;
     run_dotnet_list_runtimes := Raise FileNotFoundError;
     reg_mssql_instance_names := Raise FileNotFoundError;
     win_service_iter := Ok [];
     parent_parent := fun binpath => binpath;
     path_exists := fun _ => Ok false;
     path_iterdir := fun _ => Raise FileNotFoundError;
     path_is_file := fun _ => Ok false;
     path_is_dir := fun _ => Ok false;
     process_iter := [];
     boot_time := "1700000000.0" |}.

Definition with_dotnet_cli (cli : outcome (Z * string)) (h : host) : host :=
  {| reg_java_runtime_environment := reg_java_runtime_environment h;
     run_dotnet_list_runtimes := cli;
     reg_mssql_instance_names := reg_mssql_instance_names h;
     win_service_iter := win_service_iter h;
     parent_parent := parent_parent h;
     path_exists := path_exists h;
     path_iterdir := path_iterdir h;
     path_is_file := path_is_file h;
     path_is_dir := path_is_dir h;
     process_iter := process_iter h;
     boot_time := boot_time h |}.

Definition with_java_registry (key : outcome (list (outcome java_subkey))) (h : host) : host :=
  {| reg_java_runtime_environment := key;
     run_dotnet_list_runtimes := run_dotnet_list_runtimes h;
     reg_mssql_instance_names := reg_mssql_instance_names h;
     win_service_iter := win_service_iter h;
     parent_parent := parent_parent h;
     path_exists := path_exists h;
     path_iterdir := path_iterdir h;
     path_is_file := path_is_file h;
     path_is_dir := path_is_dir h;
     process_iter := process_iter h;
     boot_time := boot_time h |}.

Definition with_processes (procs : list process) (h : host) : host :=
  {| reg_java_runtime_environment := reg_java_runtime_environment h;
     run_dotnet_list_runtimes := run_dotnet_list_runtimes h;
     reg_mssql_instance_names := reg_mssql_instance_names h;
     win_service_iter := win_service_iter h;
     parent_parent := parent_parent h;
     path_exists := path_exists h;
     path_iterdir := path_iterdir h;
     path_is_file := path_is_file h;
     path_is_dir := path_is_dir h;
     process_iter := procs;
     boot_time := boot_time h |}.

(** A file system given by its directories (each with the names it
    lists) and its files. *)
Definition with_files (dirs : list (Path.t * list string)) (files : list Path.t) (h : host) : host :=
  {| reg_java_runtime_environment := reg_java_runtime_environment h;
     run_dotnet_list_runtimes := run_dotnet_list_runtimes h;
     reg_mssql_instance_names := reg_mssql_instance_names h;
     win_service_iter := win_service_iter h;
     parent_parent := parent_parent h;
     path_exists := fun p => Ok (bool_decide (p ∈ dirs.*1) || bool_decide (p ∈ files));
     path_iterdir := fun p =>
       match list_find (fun d => d.1 = p) dirs with
       | Some (_, d) => Ok d.2
       | None => Raise FileNotFoundError
       end;
     path_is_file := fun p => Ok (bool_decide (p ∈ files));
     path_is_dir := fun p => Ok (bool_decide (p ∈ dirs.*1));
     process_iter := process_iter h;
     boot_time := boot_time h |}.


(** Directories nested without end: every path is a directory that
    lists a subdirectory [a] and a file [x.jar]. *)
Definition endless_tree : host :=
  {| reg_java_runtime_environment := Raise FileNotFoundError;
     run_dotnet_list_runtimes := Raise FileNotFoundError;
     reg_mssql_instance_names := Raise FileNotFoundError;
     win_service_iter := Ok [];
     parent_parent := fun binpath => binpath;
     path_exists := fun _ => Ok true;
     path_iterdir := fun _ => Ok ["a"; "x.jar"];
     path_is_file := fun p => Ok (String.eqb (Path.name p) "x.jar");
     path_is_dir := fun p => Ok (String.eqb (Path.name p) "a");
     process_iter := [];
     boot_time := "1700000000.0" |}.

(** A program that has loaded the shared .NET Core runtime. *)
Definition shop_process : process :=
  {| proc_pid := 5236; proc_name := Some "shop.exe";
     proc_exe := Some "C:\Shop\shop.exe";
     proc_memory_maps :=
       Ok ["C:\Windows\System32\ntdll.dll";
           "C:\Program Files\dotnet\shared\Microsoft.NETCore.App\6.0.25\coreclr.dll"];
     proc_run_version := Raise PermissionError |}.

(** A program published with its own copy of the runtime: coreclr.dll
    lies next to the executable. *)
Definition self_contained_process : process :=
  {| proc_pid := 6012; proc_name := Some "kiosk.exe";
     proc_exe := Some "C:\Kiosk\kiosk.exe";
     proc_memory_maps := Ok ["C:\Windows\System32\ntdll.dll"; "C:\Kiosk\coreclr.dll"];
     proc_run_version := Raise PermissionError |}.

(** One application under Program Files with one jar in it, and two
    running processes: a Java virtual machine whose modules cannot be
    read, and a program that has loaded the .NET Core runtime. *)
Definition host_one_jar : host :=
  with_processes
    [{| proc_pid := 4120; proc_name := Some "java.exe";
        proc_exe := Some "C:\Java\bin\java.exe";
        proc_memory_maps := Raise AccessDenied;
        proc_run_version := Ok (0, "openjdk version 17") |};
     shop_process]
    (with_files
       [(["C:\"; "Program Files"], ["App"]);
        (["C:\"; "Program Files"; "App"], ["lib.jar"; "readme.txt"])]
       [["C:\"; "Program Files"; "App"; "lib.jar"];
        ["C:\"; "Program Files"; "App"; "readme.txt"]]
       bare_host).


(** The [dotnet] command is there but does not answer within the ten
    seconds [detect_dotnet_core] allows it. *)
Definition host_cli_timeout : host := with_dotnet_cli (Raise TimeoutExpired) bare_host.

(** The Java registry has a subkey [X]; the [dotnet] command lists a
    runtime called [Java] in version [X]: both detectors write the key
    [Java X]. *)
Definition host_shared_key : host :=
  with_java_registry
    (Ok [Ok {| jk_version := "X"; jk_JavaHome := Ok (PStr "C:\Java\X") |};
         Ok {| jk_version := "1.8"; jk_JavaHome := Ok (PStr "C:\Java\jre8") |}])
    (with_dotnet_cli (Ok (0, "Java X [C:\dotnet\shared\Java]")) bare_host).

(** ** The vocabulary of the proofs *)

(** [always R m]: whatever [m] does, returning or raising, it takes a
    state to one related to it by [R]. *)
Definition always {S} (R : relation S) {A} (m : ST S A) : Prop :=
  forall s, R s (m s).2.

(** [returns m]: [m] never raises. *)
Definition returns {S A} (m : ST S A) : Prop :=
  forall s, exists a, (m s).1 = Ok a.

(** [post m Q]: what [m] returns satisfies [Q]. *)
Definition post {S A} (m : ST S A) (Q : A -> Prop) : Prop :=
  forall s a s', m s = (Ok a, s') -> Q a.

(** [raises_only C m]: an exception that leaves [m] is one of [C]. *)
Definition raises_only {S A} (C : exn -> bool) (m : ST S A) : Prop :=
  forall s e, (m s).1 = Raise e -> C e = true.

Definition no_exception (e : exn) : bool := false.

(** [keeps P]: a step under which the property [P] of the state stays. *)
Definition keeps {S} (P : S -> Prop) : relation S := fun s s' => P s -> P s'.




(** The records the walk from [directory] appends, [n] listings deep. *)
Definition walk_record (h : host) (n : nat) (directory : Path.t) : string -> record -> Prop :=
  fun c r =>
    c = "java"
    /\ exists item app,
         visited h n directory item /\ jar_file h item
         /\ get_application_name item = Ok app /\ r = static_record app item.

(** The records the static scan appends. *)
Definition static_scan_record (h : host) : string -> record -> Prop := fun c r =>
  c = "java"
  /\ exists root item app,
       root ∈ program_dirs /\ path_exists h root = Ok true
       /\ visited h 3 root item /\ jar_file h item
       /\ get_application_name item = Ok app /\ r = static_record app item.

(** The records the scan of running processes appends. *)
Definition runtime_scan_record : string -> record -> Prop := fun c r =>
  (c = "dotnet_runtime" \/ c = "java_runtime")
  /\ r !! "confidence" = Some (PStr "high")
  /\ r !! "status" = Some (PStr "running")
  /\ r !! "detection_method" = Some (PStr "runtime_analysis").

(** The annotations a dependency record has, by the scan that made it. *)
Definition annotated (c : string) (r : record) : Prop :=
  r !! "confidence" = Some (PStr "high")
  /\ ((c = "java"
       /\ r !! "detection_method" = Some (PStr "static_analysis")
       /\ r !! "status" = None)
      \/ ((c = "dotnet_runtime" \/ c = "java_runtime")
          /\ r !! "detection_method" = Some (PStr "runtime_analysis")
          /\ r !! "status" = Some (PStr "running"))).

(** Every character of the text is of the class. *)
Fixpoint all_chars (f : ascii -> bool) (s : string) : Prop :=
  match s with
  | EmptyString => True
  | String c r => f c = true /\ all_chars f r
  end.

(** The text does not start with a character of the class. *)
Definition stops (f : ascii -> bool) (s : string) : Prop :=
  match s with
  | EmptyString => True
  | String c _ => f c = false
  end.

(** *** What [int] reads, in the words of the language reference *)

(** The characters that may stand around the number. *)
Definition int_space (c : ascii) : Prop :=
  c ∈ ["009"; "010"; "011"; "012"; "013"; " "; "133"; "160"]%char.

(** The number a run of decimal digits denotes, most significant digit
    first; [acc] is the value of the digits to their left. *)
Fixpoint decimal_from (acc : Z) (digits : string) : Z :=
  match digits with
  | EmptyString => acc
  | String c r => decimal_from (10 * acc + Py.digit_val c) r
  end.

Definition decimal_value (digits : string) : Z := decimal_from 0 digits.

(** One or more decimal digits. *)
Definition digit_group (g : string) : Prop :=
  g <> EmptyString /\ all_chars Py.isdigit g.

(** [int_reads text n]: [text] is a decimal integer literal and [n] its
    value.  The literal is one or more groups of digits with a single
    underscore between two groups, at most 4300 digits in all, with one
    optional sign right before them and white space allowed around. *)
Definition int_reads (text : string) (n : Z) : Prop :=
  exists before sign groups after,
    text = before +:+ sign +:+ String.concat "_" groups +:+ after
    /\ Forall int_space (list_ascii_of_string before)
    /\ Forall int_space (list_ascii_of_string after)
    /\ groups <> [] /\ Forall digit_group groups
    /\ Z.of_nat (String.length (String.concat "" groups)) <= 4300
    /\ ((sign = "" \/ sign = "+") /\ n = decimal_value (String.concat "" groups)
        \/ sign = "-" /\ n = - decimal_value (String.concat "" groups)).

(** The dot-separated components of a version text: the text before its
    first dot, and the text between its first dot and its second, or the
    end. *)
Definition first_component (v c : string) : Prop :=
  ~ has_char "." c
  /\ (v = c \/ exists rest, v = c +:+ "." +:+ rest).

Definition second_component (v c : string) : Prop :=
  exists first,
    ~ has_char "." first /\ ~ has_char "." c
    /\ (v = first +:+ "." +:+ c \/ exists rest, v = first +:+ "." +:+ c +:+ "." +:+ rest).

(** The text holds [sub] somewhere. *)
Definition holds (sub s : string) : Prop := exists a b, s = a +:+ sub +:+ b.

(** [c] is the text of [v] before its first [sep], all of [v] when it
    has none. *)
Definition before_first (sep : ascii) (v c : string) : Prop :=
  ~ has_char sep c /\ (v = c \/ exists rest, v = c +:+ String sep rest).

(** [n] zeros. *)
Definition zeros (n : nat) : string := string_of_list_ascii (replicate n "0"%char).

(** A module that neither holds the pattern nor is a self-contained
    runtime decides nothing. *)
Definition undecided (dll : string) : Prop :=
  (forall kind version, ~ matches_coreclr (Py.lower dll) kind version)
  /\ self_contained_module dll = false.

(** [extends_in cats s s']: from [s] to [s'] the never-written
    [running_processes] stays, the records of every category stay in
    place with new ones put behind them, and a category outside [cats]
    keeps its entry of the dict, or its absence. *)
Definition extends_in (cats : list string) : relation scanner := fun s s' =>
  running_processes s' = running_processes s
  /\ (forall c, records_of s c `prefix_of` records_of s' c)
  /\ (forall c, c ∉ cats -> dependencies s' !! c = dependencies s !! c).

(** A Java virtual machine whose modules cannot be read: the first
    process of [host_one_jar]. *)
Definition java_vm_process : process :=
  {| proc_pid := 4120; proc_name := Some "java.exe";
     proc_exe := Some "C:\Java\bin\java.exe";
     proc_memory_maps := Raise AccessDenied;
     proc_run_version := Ok (0, "openjdk version 17") |}.

(** The records the scan of running processes appends, told by the
    process they come from: one of the listed processes, with a
    non-empty executable path; in dotnet_runtime with the version its
    modules gave, in java_runtime when its name is that of a Java
    virtual machine. *)
Definition process_record (h : host) (c : string) (r : record) : Prop :=
  exists proc exe,
    proc ∈ process_iter h /\ proc_exe proc = Some exe /\ exe <> EmptyString
    /\ ((c = "dotnet_runtime"
         /\ exists version dll,
              get_dotnet_core_version_from_process proc = Ok (Some version, dll)
              /\ r = runtime_record proc exe (".NET Core Runtime " +:+ version) dll)
        \/ (c = "java_runtime"
            /\ is_java_process proc = true
            /\ r = runtime_record proc exe "Java Runtime Unknown" (Some exe))).

(** A machine with PostgreSQL 14 installed as a service, under the
    name its installer gives it. *)
Definition host_postgresql_14 : host :=
  {| reg_java_runtime_environment := Raise FileNotFoundError;
     run_dotnet_list_runtimes := Raise FileNotFoundError;
     reg_mssql_instance_names := Raise FileNotFoundError;
     win_service_iter :=
       Ok [Ok {| svc_name := "postgresql-x64-" +:+ "14";
                 svc_display_name := Ok "postgresql-x64-14 - PostgreSQL Server 14";
                 svc_binpath := Ok "C:\Program Files\PostgreSQL\14\bin\pg_ctl.exe" |}];
     parent_parent := fun _ => "C:\Program Files\PostgreSQL\14";
     path_exists := fun _ => Ok false;
     path_iterdir := fun _ => Raise FileNotFoundError;
     path_is_file := fun _ => Ok false;
     path_is_dir := fun _ => Ok false;
     process_iter := [];
     boot_time := "1700000000.0" |}.

(** The record [detect_dotnet_core] makes of the groups of a line. *)
Definition dotnet_record (runtime version path : string) : record :=
  dict_literal [("version", PStr version); ("runtime", PStr runtime);
                ("path", PStr path); ("type", PStr "dotnet_core");
                ("eol_status", PStr (check_dotnet_core_eol version))].

(** What the loop of [detect_dotnet_core] does with one line. *)
Definition dotnet_line_step (line : string) : ST (gmap string record) unit :=
  if Py.truthy (Py.strip line) then
    match Re.runtime_line line with
    | Some (runtime, version, path) =>
        modify (insert (runtime +:+ " " +:+ version) (dotnet_record runtime version path))
    | None => mret tt
    end
  else mret tt.

(** A step of a dict under which the keys it has stay. *)
Definition keeps_keys : relation (gmap string record) := fun d d' =>
  forall k, is_Some (d !! k) -> is_Some (d' !! k).

(** What the loop of [detect_java_installations] does with one subkey. *)
Definition java_subkey_step (sub : java_subkey) : ST (gmap string record) unit :=
  let version := jk_version sub in
  try_except
    (java_home ← lift (jk_JavaHome sub) ;
     modify (insert ("Java " +:+ version)
       (dict_literal [("version", PStr version); ("path", java_home);
                      ("type", PStr "java");
                      ("eol_status", PStr (check_java_eol version))])))
    except_FileNotFoundError (fun _ => mret tt).

(** Every key of [d] begins with [prefix] and every record of [d] has
    the ['type'] [ty]. *)
Definition keyed (prefix ty : string) (d : gmap string record) : Prop :=
  map_Forall (fun k r => Py.startswith k prefix = true
                         /\ r !! "type" = Some (PStr ty)) d.

(* ===================================================================== *)
(** * Theorems                                                           *)
(* ===================================================================== *)

Example check_java_eol_1_8 : check_java_eol "1.8" = "EOL".
Proof. reflexivity. Qed.
Example check_java_eol_17_0_2 : check_java_eol "17.0.2" = "EOL".
Proof. reflexivity. Qed.
Example check_java_eol_17 : check_java_eol "17" = "Unknown".
Proof. reflexivity. Qed.
Example check_java_eol_1_11 : check_java_eol "1.11" = "Supported".
Proof. reflexivity. Qed.
Example check_dotnet_6 : check_dotnet_core_eol "6.0.25" = "Supported".
Proof. reflexivity. Qed.
Example check_dotnet_607 : check_dotnet_core_eol "6.07.0.1" = "EOL".
Proof. reflexivity. Qed.

(** ** Text *)

Lemma append_cons (a : ascii) (p r : string) :
  String a p +:+ r = String a (p +:+ r).
Proof. reflexivity. Qed.

Lemma append_nil (r : string) : EmptyString +:+ r = r.
Proof. reflexivity. Qed.

Ltac str_simpl := rewrite ?append_cons, ?append_nil in *.

Lemma append_assoc (a b c : string) : (a +:+ b) +:+ c = a +:+ (b +:+ c).
Proof. induction a as [|x a IH]; [done|]. rewrite !append_cons. by rewrite IH. Qed.

Lemma all_chars_app (f : ascii -> bool) (a b : string) :
  all_chars f a -> all_chars f b -> all_chars f (a +:+ b).
Proof.
  intros Ha Hb. induction a as [|c a IH]; [by rewrite append_nil|].
  rewrite append_cons. destruct Ha as [Hc Ha]. split; [done | by apply IH].
Qed.

Lemma startswith_spec (s p : string) :
  Py.startswith s p = true <-> exists rest, s = p +:+ rest.
Proof.
  unfold Py.startswith. revert s.
  induction p as [|a p IH]; intros s; simpl.
  - destruct s; simpl; split; eauto.
  - destruct s as [|b s]; simpl.
    + split; [discriminate | intros [rest H]; discriminate].
    + destruct (ascii_dec a b) as [->|Hne].
      * rewrite IH. split; intros [rest H]; exists rest; str_simpl; congruence.
      * split; [discriminate | intros [rest H]; str_simpl; congruence].
Qed.

Lemma startswith_false (s p : string) :
  Py.startswith s p = false <-> ~ exists rest, s = p +:+ rest.
Proof.
  rewrite <- startswith_spec. destruct (Py.startswith s p); split; congruence.
Qed.

(** The components [split] returns, joined by the separator, give the
    text back, and none of them holds the separator. *)
Lemma split_nonempty (sep : ascii) (s : string) : Py.split sep s <> [].
Proof.
  destruct s as [|c r]; simpl; [discriminate|].
  destruct (Ascii.eqb c sep); [discriminate|].
  destruct (Py.split sep r); discriminate.
Qed.

Lemma split_concat (sep : ascii) (s : string) :
  String.concat (String sep EmptyString) (Py.split sep s) = s.
Proof.
  induction s as [|c r IH]; simpl; [reflexivity|].
  destruct (Ascii.eqb_spec c sep) as [->|Hne].
  - pose proof (split_nonempty sep r) as Hn.
    destruct (Py.split sep r) as [|h t]; [congruence|].
    cbn [String.concat] in *. str_simpl. congruence.
  - pose proof (split_nonempty sep r) as Hn.
    destruct (Py.split sep r) as [|h t]; [congruence|].
    cbn [String.concat] in *. destruct t; str_simpl; congruence.
Qed.

Lemma split_components_free (sep : ascii) (s : string) :
  Forall (fun part => ~ has_char sep part) (Py.split sep s).
Proof.
  induction s as [|c r IH]; simpl.
  - repeat constructor. simpl. tauto.
  - destruct (Ascii.eqb_spec c sep) as [->|Hne].
    + constructor; [simpl; tauto | exact IH].
    + destruct (Py.split sep r) as [|h t].
      * repeat constructor. simpl. tauto.
      * inversion IH; subst. constructor; [|assumption].
        simpl. tauto.
Qed.

(** A text has a second component exactly when it holds the separator. *)
Lemma split_second (sep : ascii) (s : string) :
  is_Some (Py.split sep s !! 1%nat) <-> has_char sep s.
Proof.
  induction s as [|c r IH]; simpl.
  - split; [intros [x H]; discriminate | tauto].
  - pose proof (split_nonempty sep r) as Hn.
    destruct (Ascii.eqb_spec c sep) as [->|Hne].
    + destruct (Py.split sep r) as [|h t]; [congruence|].
      simpl. split; eauto.
    + destruct (Py.split sep r) as [|h t]; [congruence|].
      simpl in *. rewrite IH. tauto.
Qed.

(** ** What [int] accepts *)

Lemma append_nil_r (a : string) : a +:+ EmptyString = a.
Proof. induction a as [|x a IH]; [done|]. rewrite append_cons. by rewrite IH. Qed.

Lemma length_append (a b : string) :
  String.length (a +:+ b) = (String.length a + String.length b)%nat.
Proof. induction a as [|x a IH]; [done|]. rewrite append_cons. simpl. by rewrite IH. Qed.

Lemma int_isspace_spec (c : ascii) : Py.int_isspace c = true <-> int_space c.
Proof.
  unfold int_space.
  destruct c as [[] [] [] [] [] [] [] []]; vm_compute; split; intros H;
    try discriminate; try reflexivity;
    try (repeat (first [ by apply list_elem_of_here | apply list_elem_of_further ]));
    exfalso;
    repeat (apply elem_of_cons in H as [H|H]; [discriminate H|]);
    by apply elem_of_nil in H.
Qed.

Lemma all_int_space (s : string) :
  Forall int_space (list_ascii_of_string s) <-> all_chars Py.int_isspace s.
Proof.
  induction s as [|c r IH]; simpl.
  - split; [done | constructor].
  - rewrite Forall_cons, IH, int_isspace_spec. tauto.
Qed.

Lemma int_lstrip_split (s : string) :
  exists before, s = before +:+ Py.int_lstrip s /\ all_chars Py.int_isspace before.
Proof.
  induction s as [|c r (before & E & Hb)]; [by exists EmptyString|]. simpl.
  destruct (Py.int_isspace c) eqn:Hc.
  - exists (String c before). rewrite append_cons, <- E. done.
  - by exists EmptyString.
Qed.

Lemma int_rstrip_split (s : string) :
  exists after, s = Py.int_rstrip s +:+ after /\ all_chars Py.int_isspace after.
Proof.
  induction s as [|c r (after & E & Ha)]; [by exists EmptyString|]. simpl.
  destruct (Py.int_rstrip r) as [|x r'] eqn:Er.
  - rewrite append_nil in E. subst after.
    destruct (Py.int_isspace c) eqn:Hc.
    + by exists (String c r).
    + exists r. by rewrite append_cons, append_nil.
  - exists after. rewrite append_cons. by rewrite <- E.
Qed.

Lemma int_lstrip_app (before x : string) :
  all_chars Py.int_isspace before -> stops Py.int_isspace x ->
  Py.int_lstrip (before +:+ x) = x.
Proof.
  intros Hb Hx. induction before as [|c r IH].
  - rewrite append_nil. destruct x as [|a x]; [done|]. simpl in *. by rewrite Hx.
  - rewrite append_cons. destruct Hb as [Hc Hr]. simpl. rewrite Hc. by apply IH.
Qed.

Lemma int_rstrip_space (after : string) :
  all_chars Py.int_isspace after -> Py.int_rstrip after = EmptyString.
Proof.
  induction after as [|c r IH]; [done|]. intros [Hc Hr]. simpl.
  by rewrite (IH Hr), Hc.
Qed.

Lemma int_rstrip_app (x after : string) :
  all_chars Py.int_isspace after -> Py.int_rstrip (x +:+ after) = Py.int_rstrip x.
Proof.
  intros Ha. induction x as [|c r IH].
  - rewrite append_nil. by apply int_rstrip_space.
  - rewrite append_cons. simpl. by rewrite IH.
Qed.

Lemma int_rstrip_fixed (x : string) :
  all_chars (fun c => negb (Py.int_isspace c)) x -> Py.int_rstrip x = x.
Proof.
  induction x as [|c r IH]; [done|]. intros [Hc Hr]. simpl. rewrite (IH Hr).
  apply negb_true_iff in Hc. rewrite Hc. by destruct r.
Qed.

Lemma concat_cons (sep g : string) (groups : list string) :
  String.concat sep (g :: groups) =
  match groups with [] => g | _ :: _ => g +:+ sep +:+ String.concat sep groups end.
Proof. reflexivity. Qed.

Lemma concat_empty_cons (g : string) (groups : list string) :
  String.concat "" (g :: groups) = g +:+ String.concat "" groups.
Proof.
  rewrite concat_cons. destruct groups; [|by rewrite append_nil].
  simpl. by rewrite append_nil_r.
Qed.

Lemma isdigit_not_space (c : ascii) : Py.isdigit c = true -> Py.int_isspace c = false.
Proof. destruct c as [[] [] [] [] [] [] [] []]; vm_compute; congruence. Qed.

Lemma isdigit_not_mark (c : ascii) :
  Py.isdigit c = true -> c <> "_"%char /\ c <> "+"%char /\ c <> "-"%char.
Proof. intros H. repeat split; intros ->; discriminate H. Qed.

(** What [int_digits] accepts: the rest of the group it is in, which may
    be empty once a digit was read, and further groups, each behind one
    underscore. *)
Lemma int_digits_spec (s : string) (acc : Z) (b : bool) (k n k' : Z) :
  Py.int_digits s acc b k = Some (n, k') <->
  exists g groups,
    s = String.concat "_" (g :: groups)
    /\ all_chars Py.isdigit g /\ (b = false -> g <> EmptyString)
    /\ Forall digit_group groups
    /\ n = decimal_from acc (String.concat "" (g :: groups))
    /\ k' = k + Z.of_nat (String.length (String.concat "" (g :: groups))).
Proof.
  revert acc b k. induction s as [|c r IH]; intros acc b k.
  - cbn [Py.int_digits]. split.
    + destruct b; [|discriminate]. intros [= <- <-].
      exists EmptyString, []. repeat split; try done. simpl. lia.
    + intros (g & groups & E & Hg & Hb & Hgs & -> & ->).
      rewrite concat_cons in E.
      assert (g = EmptyString /\ groups = []) as [-> ->].
      { destruct groups; [by subst|]. destruct g; discriminate E. }
      destruct b; [|by destruct Hb]. simpl. do 2 f_equal. lia.
  - cbn [Py.int_digits]. destruct (Py.isdigit c) eqn:Hd.
    + rewrite IH. split.
      * intros (g & groups & E & Hg & _ & Hgs & -> & ->).
        exists (String c g), groups. repeat split; try done.
        -- rewrite !concat_cons in *. destruct groups; [by subst|].
           rewrite append_cons. by rewrite E.
        -- rewrite !concat_empty_cons, append_cons. reflexivity.
        -- rewrite !concat_empty_cons, append_cons. simpl. lia.
      * intros (g & groups & E & Hg & Hb & Hgs & -> & ->).
        destruct g as [|c' g].
        { rewrite concat_cons in E. destruct groups; [discriminate E|].
          rewrite append_nil, append_cons in E. injection E as -> _.
          discriminate Hd. }
        assert (c' = c /\ r = String.concat "_" (g :: groups)) as [-> ->].
        { rewrite !concat_cons in *. destruct groups.
          - by injection E as -> ->.
          - rewrite append_cons in E. by injection E as -> ->. }
        exists g, groups. destruct Hg as [_ Hg]. repeat split; try done.
        all: rewrite !concat_empty_cons, append_cons; simpl; try done; lia.
    + destruct (Ascii.eqb_spec c "_") as [->|Hne].
      * destruct b.
        -- rewrite IH. split.
           ++ intros (g & groups & E & Hg & Hb & Hgs & -> & ->).
              exists EmptyString, (g :: groups). repeat split; try done.
              ** rewrite concat_cons, append_nil, append_cons, append_nil. by rewrite E.
              ** constructor; [|done]. split; [by apply Hb | done].
           ++ intros (g & groups & E & Hg & Hb & Hgs & -> & ->).
              destruct g as [|c' g].
              2:{ rewrite concat_cons in E. destruct Hg as [Hc' _].
                  destruct groups; [|rewrite append_cons in E];
                    injection E as <- _; discriminate Hc'. }
              destruct groups as [|g1 groups]; [discriminate E|].
              rewrite concat_cons, append_nil, append_cons, append_nil in E.
              injection E as ->.
              inversion Hgs as [|? ? [Hg1 Hd1] Hrest]; subst.
              exists g1, groups. repeat split; try done.
        -- split; [discriminate|].
           intros (g & groups & E & Hg & Hb & Hgs & -> & ->).
           destruct g as [|c' g]; [by destruct Hb|].
           rewrite concat_cons in E. destruct Hg as [Hc' _].
           destruct groups; [|rewrite append_cons in E];
             injection E as <- _; discriminate Hc'.
      * split; [discriminate|].
        intros (g & groups & E & Hg & Hb & Hgs & -> & ->).
        rewrite concat_cons in E. destruct g as [|c' g].
        -- destruct groups; [discriminate E|].
           rewrite append_nil, append_cons in E. by injection E as -> _.
        -- destruct Hg as [Hc' _].
           destruct groups; [|rewrite append_cons in E];
             injection E as <- _; congruence.
Qed.

Lemma int_body_spec (body : string) (n k : Z) :
  Py.int_digits body 0 false 0 = Some (n, k) <->
  exists groups,
    body = String.concat "_" groups /\ groups <> [] /\ Forall digit_group groups
    /\ n = decimal_value (String.concat "" groups)
    /\ k = Z.of_nat (String.length (String.concat "" groups)).
Proof.
  rewrite int_digits_spec. split.
  - intros (g & groups & E & Hg & Hb & Hgs & -> & ->).
    exists (g :: groups). repeat split; try done.
    constructor; [|done]. split; [by apply Hb | done].
  - intros (groups & E & Hne & Hgs & -> & ->).
    destruct groups as [|g groups]; [done|].
    inversion Hgs as [|? ? [Hg Hd] Hrest]; subst.
    exists g, groups. repeat split; try done.
Qed.

(** The digits and underscores of a literal: it starts with a digit and
    holds no white space. *)
Lemma int_body_chars (groups : list string) :
  groups <> [] -> Forall digit_group groups ->
  (exists c rest, String.concat "_" groups = String c rest /\ Py.isdigit c = true)
  /\ all_chars (fun c => negb (Py.int_isspace c)) (String.concat "_" groups).
Proof.
  intros Hne Hgs. split.
  - destruct groups as [|g groups]; [done|].
    inversion Hgs as [|? ? [Hg Hd] Hrest]; subst.
    destruct g as [|c g]; [done|]. destruct Hd as [Hc _].
    rewrite concat_cons. destruct groups; [by eauto|].
    rewrite append_cons. by eauto.
  - clear Hne. induction Hgs as [|g groups [Hg Hd] Hgs IH]; [done|].
    assert (Hgc : all_chars (fun c => negb (Py.int_isspace c)) g).
    { clear Hg. induction g as [|c g IHg]; [done|]. destruct Hd as [Hc Hd].
      split; [by rewrite (isdigit_not_space c Hc) | by apply IHg]. }
    rewrite concat_cons. destruct groups as [|g' groups]; [done|].
    apply all_chars_app; [done|]. by apply (all_chars_app _ "_").
Qed.

(** [int] reads exactly the decimal integer literals, and gives their
    value. *)
Lemma int_spec (s : string) (n : Z) : Py.int s = Ok n <-> int_reads s n.
Proof.
  unfold Py.int, int_reads. split.
  - destruct (int_lstrip_split s) as (before & Es & Hb).
    destruct (int_rstrip_split (Py.int_lstrip s)) as (after & Et & Ha).
    assert (Ew : forall sign body,
               Py.int_rstrip (Py.int_lstrip s) = sign +:+ body ->
               s = before +:+ sign +:+ body +:+ after).
    { intros sign body E. rewrite E, append_assoc in Et. by rewrite <- Et. }
    apply all_int_space in Hb, Ha.
    destruct (Py.int_rstrip (Py.int_lstrip s)) as [|c r] eqn:E; [discriminate|].
    destruct (Ascii.eqb_spec c "+") as [->|Hplus];
      [|destruct (Ascii.eqb_spec c "-") as [->|Hminus]].
    + destruct (Py.int_digits r 0 false 0) as [[m k]|] eqn:Ed; [|discriminate].
      destruct (Z.leb_spec k Py.int_max_str_digits) as [Hk|]; [|discriminate].
      intros [= <-]. apply int_body_spec in Ed as (groups & -> & Hne & Hgs & -> & ->).
      exists before, "+", groups, after.
      split; [by apply (Ew "+")|]. repeat split; try done. left. by split; [right|].
    + destruct (Py.int_digits r 0 false 0) as [[m k]|] eqn:Ed; [|discriminate].
      simpl.
      destruct (Z.leb_spec k Py.int_max_str_digits) as [Hk|]; [|discriminate].
      intros [= <-]. apply int_body_spec in Ed as (groups & -> & Hne & Hgs & -> & ->).
      exists before, "-", groups, after.
      split; [by apply (Ew "-")|]. repeat split; try done. by right.
    + destruct (Py.int_digits (String c r) 0 false 0) as [[m k]|] eqn:Ed; [|discriminate].
      destruct (Z.leb_spec k Py.int_max_str_digits) as [Hk|]; [|discriminate].
      intros [= <-]. apply int_body_spec in Ed as (groups & Eb & Hne & Hgs & -> & ->).
      exists before, "", groups, after.
      split; [rewrite append_nil, <- Eb; exact (Ew "" (String c r) eq_refl)|].
      repeat split; try done. left. by split; [left|].
  - intros (before & sign & groups & after & -> & Hb & Ha & Hne & Hgs & Hk & Hn).
    apply all_int_space in Hb, Ha.
    destruct (int_body_chars groups Hne Hgs) as [(c & rest & Ec & Hc) Hns].
    destruct (isdigit_not_mark c Hc) as (_ & Hplus & Hminus).
    assert (Ed : Py.int_digits (String.concat "_" groups) 0 false 0
                 = Some (decimal_value (String.concat "" groups),
                         Z.of_nat (String.length (String.concat "" groups)))).
    { apply int_body_spec. by exists groups. }
    assert (Hcore : all_chars (fun c => negb (Py.int_isspace c))
                      (sign +:+ String.concat "_" groups)).
    { destruct Hn as [[[-> | ->] _] | [-> _]]; [done | | ];
        by apply (all_chars_app _ (String _ EmptyString)). }
    assert (Hstop : stops Py.int_isspace
                      ((sign +:+ String.concat "_" groups) +:+ after)).
    { destruct Hn as [[[-> | ->] _] | [-> _]]; [|done|done].
      rewrite append_nil, Ec. simpl. by apply isdigit_not_space. }
    rewrite <- (append_assoc sign), int_lstrip_app by done.
    rewrite int_rstrip_app, int_rstrip_fixed by done.
    assert (Hle : (Z.of_nat (String.length (String.concat "" groups))
                   <=? Py.int_max_str_digits) = true) by by apply Z.leb_le.
    destruct Hn as [[[-> | ->] ->] | [-> ->]].
    + rewrite append_nil, Ec.
      destruct (Ascii.eqb_spec c "+"); [done|]. destruct (Ascii.eqb_spec c "-"); [done|].
      rewrite <- Ec, Ed. by rewrite Hle.
    + rewrite append_cons, append_nil. cbn [Ascii.eqb Bool.eqb]. rewrite Ed. by rewrite Hle.
    + rewrite append_cons, append_nil. cbn [Ascii.eqb Bool.eqb]. rewrite Ed. simpl.
      by rewrite Hle.
Qed.

Lemma int_raises (s : string) (e : exn) : Py.int s = Raise e -> e = ValueError.
Proof.
  unfold Py.int.
  destruct (match Py.int_rstrip (Py.int_lstrip s) with
            | EmptyString => None | String c r => _ end) as [[m k]|]; [|congruence].
  destruct (k <=? Py.int_max_str_digits); [discriminate | congruence].
Qed.

(** [int] refuses exactly the texts that are no literal. *)
Lemma int_refuses (s : string) :
  (exists e, Py.int s = Raise e) <-> forall n, ~ int_reads s n.
Proof.
  split.
  - intros [e He] n Hn. apply int_spec in Hn. congruence.
  - intros Hno. destruct (Py.int s) as [n|e] eqn:E; [|by eauto].
    apply int_spec in E. by destruct (Hno n).
Qed.

(** ** The components [split] gives *)

Lemma split_free (sep : ascii) (c : string) :
  ~ has_char sep c -> Py.split sep c = [c].
Proof.
  induction c as [|a r IH]; [done|]. simpl. intros Hno.
  destruct (Ascii.eqb_spec a sep) as [->|Hne]; [tauto|].
  rewrite IH by tauto. done.
Qed.

Lemma split_app_sep (sep : ascii) (a r : string) :
  ~ has_char sep a -> Py.split sep (a +:+ String sep r) = a :: Py.split sep r.
Proof.
  induction a as [|x a IH]; intros Hno.
  - rewrite append_nil. simpl. by rewrite Ascii.eqb_refl.
  - rewrite append_cons. simpl in *.
    destruct (Ascii.eqb_spec x sep) as [->|Hne]; [tauto|].
    rewrite IH by tauto. done.
Qed.

Lemma split_app_dot (sep : ascii) (a r : string) :
  ~ has_char sep a ->
  Py.split sep (a +:+ String sep EmptyString +:+ r) = a :: Py.split sep r.
Proof. apply split_app_sep. Qed.

Lemma split_first_spec (v c : string) :
  Py.split "." v !! 0%nat = Some c <-> first_component v c.
Proof.
  unfold first_component. split.
  - intros H. pose proof (split_concat "." v) as Hv.
    pose proof (split_components_free "." v) as Hf.
    destruct (Py.split "." v) as [|a t]; [discriminate|].
    injection H as ->. apply Forall_cons in Hf as [Hc _]. split; [done|].
    rewrite concat_cons in Hv. destruct t; [by left|]. right. by eauto.
  - intros [Hc [-> | [rest ->]]].
    + by rewrite split_free.
    + by rewrite split_app_dot.
Qed.

Lemma split_second_spec (v c : string) :
  Py.split "." v !! 1%nat = Some c <-> second_component v c.
Proof.
  unfold second_component. split.
  - intros H. pose proof (split_concat "." v) as Hv.
    pose proof (split_components_free "." v) as Hf.
    destruct (Py.split "." v) as [|a [|b t]]; [discriminate..|].
    injection H as ->. apply Forall_cons in Hf as [Ha Hf].
    apply Forall_cons in Hf as [Hc _].
    exists a. split; [done|]. split; [done|].
    rewrite !concat_cons in Hv. destruct t; [by left|]. right. by eauto.
  - intros (first & Hf & Hc & [-> | [rest ->]]).
    + rewrite split_app_dot by done. by rewrite split_free.
    + rewrite split_app_dot by done. by rewrite split_app_dot.
Qed.

(** ** End-of-life checks *)

(** C9 -- [check_dotnet_core_eol] answers EOL exactly for the versions
    that start with one of 1.0, 1.1, 2.0, 2.1, 2.2, 3.0, 3.1, 5.0 or
    6.07.0 (the list's last literal, two strings run together), and
    Supported for all others; so a version that starts with 6.0 or 7.0
    but not with 6.07.0 is Supported. *)
Theorem check_dotnet_core_eol_prefixes (v : string) :
  (check_dotnet_core_eol v = "EOL" <->
     exists p, p ∈ ["1.0"; "1.1"; "2.0"; "2.1"; "2.2"; "3.0"; "3.1"; "5.0"; "6.07.0"]
               /\ exists rest, v = p +:+ rest)
  /\ (check_dotnet_core_eol v <> "EOL" -> check_dotnet_core_eol v = "Supported")
  /\ ((exists rest, v = "6.0" +:+ rest) \/ (exists rest, v = "7.0" +:+ rest) ->
      ~ (exists rest, v = "6.07.0" +:+ rest) ->
      check_dotnet_core_eol v = "Supported").
Proof.
  assert (Hiff : existsb (fun p => Py.startswith v p) eol_versions = true <->
                 exists p, p ∈ ["1.0"; "1.1"; "2.0"; "2.1"; "2.2"; "3.0"; "3.1"; "5.0"; "6.07.0"]
                           /\ exists rest, v = p +:+ rest).
  { rewrite existsb_exists. change eol_versions with
      ["1.0"; "1.1"; "2.0"; "2.1"; "2.2"; "3.0"; "3.1"; "5.0"; "6.07.0"].
    split; intros (p & Hin & Hp); exists p.
    - split; [by apply list_elem_of_In | by apply startswith_spec].
    - split; [by apply list_elem_of_In | by apply startswith_spec]. }
  unfold check_dotnet_core_eol.
  destruct (existsb _ eol_versions) eqn:E.
  - split; [|split].
    + split; [intros _; by apply Hiff | reflexivity].
    + congruence.
    + intros H67 Hno. exfalso.
      destruct (proj1 Hiff eq_refl) as (p & Hin & rest & ->).
      repeat (apply elem_of_cons in Hin as [-> | Hin]);
        try (by destruct H67 as [[r Hr] | [r Hr]]; simpl in Hr; discriminate).
      * apply Hno. by exists rest.
      * by apply elem_of_nil in Hin.
  - split; [|split].
    + split; [discriminate | intros H; apply Hiff in H; discriminate].
    + reflexivity.
    + reflexivity.
Qed.

(** C10 -- [check_java_eol] answers EOL exactly when the text has a
    second dot-separated component that is an integer literal with a
    value below 11, Supported exactly when it is one with a value of at
    least 11, and Unknown exactly when there is no second component
    (the text holds no dot) or that component is no integer literal.  An
    integer literal is what [int] reads: decimal digits, single
    underscores allowed between them, one optional sign before them,
    white space allowed around, at most 4300 digits. *)
Theorem check_java_eol_second_component (v : string) :
  (check_java_eol v = "EOL" <->
     exists c n, second_component v c /\ int_reads c n /\ n < 11)
  /\ (check_java_eol v = "Supported" <->
     exists c n, second_component v c /\ int_reads c n /\ 11 <= n)
  /\ (check_java_eol v = "Unknown" <->
     ~ has_char "." v
     \/ exists c, second_component v c /\ forall n, ~ int_reads c n)
  /\ check_java_eol "1.8" = "EOL" /\ check_java_eol "9.0.1" = "EOL"
  /\ check_java_eol "17.0.2" = "EOL" /\ check_java_eol "17" = "Unknown"
  /\ check_java_eol "1.10" = "EOL" /\ check_java_eol "1.11" = "Supported"
  /\ check_java_eol "1.8.0_292" = "EOL" /\ check_java_eol "1.8u" = "Unknown"
  /\ check_java_eol "1.x" = "Unknown" /\ check_java_eol "1." = "Unknown"
  /\ check_java_eol "1. 8 " = "EOL" /\ check_java_eol "1.-5" = "EOL"
  /\ check_java_eol "1.+11" = "Supported" /\ check_java_eol "1.1_1" = "Supported"
  /\ check_java_eol "1._8" = "Unknown" /\ check_java_eol "1.8_" = "Unknown"
  /\ check_java_eol ("1." +:+ String "028" "8") = "Unknown"
  /\ check_java_eol ("1." +:+ String "160" "8") = "EOL"
  /\ check_java_eol ("1." +:+ zeros 4300) = "EOL"
  /\ check_java_eol ("1." +:+ zeros 4301) = "Unknown".
Proof.
  do 3 (try (split; [|split; [|split; [|repeat split; by vm_compute]]])).
  all: setoid_rewrite <- split_second_spec.
  all: try setoid_rewrite <- int_refuses.
  all: try setoid_rewrite <- int_spec.
  all: pose proof (split_second "." v) as Hsec.
  all: unfold check_java_eol, Py.getitem.
  all: destruct (Py.split "." v !! 1%nat) as [c|] eqn:Ec; simpl.
  all: try (assert (Hdot : has_char "." v) by (apply Hsec; eauto)).
  all: try (assert (Hdot : ~ has_char "." v)
              by (intros H; apply Hsec in H as [x Hx]; discriminate)).
  all: try destruct (Py.int c) as [n|e] eqn:En; simpl.
  all: try destruct (Z.ltb_spec n 11) as [Hlt|Hge].
  all: split; try reflexivity; try discriminate.
  all: try (intros _; exists c, n; done).
  all: try (intros (c' & n' & Hc & Hn & Hle); simplify_eq;
            try (assert (n = n') by congruence); first [lia | congruence]).
  all: try (intros [Hno | (c' & Hc & e' & He)]; [tauto | congruence]).
  - intros _. right. exists c. split; [done|]. by exists e.
  - intros _. by left.
Qed.

(** ** State and exceptions *)

Section ST_laws.

Context {S : Type}.

Lemma run_bind {A B} (m : ST S A) (f : A -> ST S B) (s : S) :
  (m ≫= f) s =
  match m s with
  | (Ok a, s') => f a s'
  | (Raise e, s') => (Raise e, s')
  end.
Proof. reflexivity. Qed.

Context (R : relation S) `{!PreOrder R}.

Lemma always_ret {A} (a : A) : always R (mret a : ST S A).
Proof. intros s. simpl. reflexivity. Qed.

Lemma always_lift {A} (o : outcome A) : always R (lift o).
Proof. intros s. simpl. reflexivity. Qed.

Lemma always_modify (f : S -> S) : (forall s, R s (f s)) -> always R (modify f).
Proof. intros H s. apply H. Qed.

Lemma always_bind {A B} (m : ST S A) (f : A -> ST S B) :
  always R m -> (forall a, always R (f a)) -> always R (m ≫= f).
Proof.
  intros Hm Hf s. rewrite run_bind. specialize (Hm s).
  destruct (m s) as [[a|e] s']; simpl in *; [|assumption].
  etransitivity; [exact Hm | apply Hf].
Qed.

Lemma always_try_except {A} (body : ST S A) catches (handler : exn -> ST S A) :
  always R body -> (forall e, always R (handler e)) ->
  always R (try_except body catches handler).
Proof.
  intros Hb Hh s. unfold try_except. specialize (Hb s).
  destruct (body s) as [[a|e] s']; simpl in *; [assumption|].
  destruct (catches e); simpl; [|assumption].
  etransitivity; [exact Hb | apply Hh].
Qed.

Lemma always_for_each {X} (items : list X) (body : X -> ST S unit) :
  (forall x, x ∈ items -> always R (body x)) -> always R (for_each items body).
Proof.
  induction items as [|x items IH]; intros H; simpl.
  - apply always_ret.
  - apply always_bind.
    + apply H. by left.
    + intros _. apply IH. intros y Hy. apply H. by right.
Qed.

Lemma always_for_each_yield {X} (it : list (outcome X)) (body : X -> ST S unit) :
  (forall x, Ok x ∈ it -> always R (body x)) -> always R (for_each_yield it body).
Proof.
  intros H. apply always_for_each. intros [x|e] Hin.
  - intros s. exact (H x Hin s).
  - intros s. simpl. reflexivity.
Qed.

End ST_laws.

Lemma returns_ret {S A} (a : A) : returns (mret a : ST S A).
Proof. intros s. by exists a. Qed.

Lemma returns_modify {S} (f : S -> S) : returns (modify f).
Proof. intros s. by exists tt. Qed.

Lemma returns_bind {S A B} (m : ST S A) (f : A -> ST S B) :
  returns m -> (forall a, returns (f a)) -> returns (m ≫= f).
Proof.
  intros Hm Hf s. rewrite run_bind. destruct (Hm s) as [a Ha].
  destruct (m s) as [[a'|e] s']; simpl in *; [|discriminate].
  apply Hf.
Qed.

Lemma returns_try_except_all {S A} (body : ST S A) (handler : exn -> ST S A) :
  (forall e, returns (handler e)) -> returns (try_except body except_Exception handler).
Proof.
  intros Hh s. unfold try_except.
  destruct (body s) as [[a|e] s']; simpl; [by exists a | apply Hh].
Qed.

Lemma returns_for_each {S X} (items : list X) (body : X -> ST S unit) :
  (forall x, x ∈ items -> returns (body x)) -> returns (for_each items body).
Proof.
  induction items as [|x items IH]; intros H; simpl.
  - apply returns_ret.
  - apply returns_bind.
    + apply H. by left.
    + intros _. apply IH. intros y Hy. apply H. by right.
Qed.

(** ** Dictionaries *)

Lemma lookup_dict_update {V} (d other : gmap string V) (k : string) :
  dict_update d other !! k =
  match other !! k with
  | Some v => Some v
  | None => d !! k
  end.
Proof.
  unfold dict_update.
  apply (map_fold_weak_ind
           (fun r m => r !! k = match m !! k with Some v => Some v | None => d !! k end)).
  - by rewrite lookup_empty.
  - intros i x m r Hi IH.
    destruct (decide (i = k)) as [->|Hne].
    + by rewrite !lookup_insert_eq.
    + by rewrite !lookup_insert_ne.
Qed.

Lemma dict_update_empty {V} (other : gmap string V) : dict_update ∅ other = other.
Proof.
  apply map_eq. intros k. rewrite lookup_dict_update, lookup_empty.
  by destruct (other !! k).
Qed.

Lemma dict_update_Forall {V} (P : string -> V -> Prop) (d other : gmap string V) :
  map_Forall P d -> map_Forall P other -> map_Forall P (dict_update d other).
Proof.
  intros Hd Ho k v. rewrite lookup_dict_update.
  destruct (other !! k) as [w|] eqn:E.
  - intros [= <-]. by apply Ho.
  - apply Hd.
Qed.

(** ** The end-of-life checks answer one of three words *)

Lemma classification_EOL : classification "EOL".
Proof. unfold classification. set_solver. Qed.
Lemma classification_Supported : classification "Supported".
Proof. unfold classification. set_solver. Qed.
Lemma classification_Unknown : classification "Unknown".
Proof. unfold classification. set_solver. Qed.

Create HintDb eol.
#[local] Hint Resolve classification_EOL classification_Supported classification_Unknown : eol.

Lemma check_java_eol_range v : classification (check_java_eol v).
Proof.
  unfold check_java_eol.
  destruct (Py.getitem (Py.split "." v) 1) as [c|]; simpl; auto with eol.
  destruct (Py.int c) as [n|]; simpl; auto with eol.
  destruct (n <? 11); auto with eol.
Qed.

Lemma check_dotnet_core_eol_range v : classification (check_dotnet_core_eol v).
Proof. unfold check_dotnet_core_eol. destruct (existsb _ _); auto with eol. Qed.

Lemma check_mssql_eol_range v : classification (check_mssql_eol v).
Proof.
  unfold check_mssql_eol.
  destruct (Py.getitem (Py.split "." v) 0) as [c|]; simpl; auto with eol.
  destruct (Py.int c) as [n|]; simpl; auto with eol.
  destruct (n <? 13); auto with eol.
Qed.

Lemma check_mysql_eol_range v : classification (check_mysql_eol v).
Proof. unfold check_mysql_eol. destruct (Py.startswith v "5."); auto with eol. Qed.

Lemma check_postgresql_eol_range v : classification (check_postgresql_eol v).
Proof.
  unfold check_postgresql_eol.
  destruct (Py.getitem (Py.split "." v) 0) as [c|]; simpl; auto with eol.
  destruct (Py.int c) as [n|]; simpl; auto with eol.
  destruct (n <? 12); auto with eol.
Qed.

(** ** The detectors *)

Lemma try_filling_spec {D} (body : ST D unit) (d0 : D) catches msg (s : scanner) :
  try_filling body d0 catches msg s =
  match (body d0).1 with
  | Ok _ => (Ok (body d0).2, s)
  | Raise e =>
      if catches e then (Ok (body d0).2, printed (msg e) s) else (Raise e, s)
  end.
Proof.
  unfold try_filling. destruct (body d0) as [[[]|e] d]; simpl; [done|].
  by destruct (catches e).
Qed.

(** A detector whose clause is [except Exception] returns its dict
    whatever happens inside. *)
Lemma try_filling_all {D} (body : ST D unit) (d0 : D) msg (s : scanner) :
  exists s', try_filling body d0 except_Exception msg s = (Ok (body d0).2, s')
             /\ (s' = s \/ exists e, (body d0).1 = Raise e /\ s' = printed (msg e) s).
Proof.
  rewrite try_filling_spec. destruct (body d0).1 as [[]|e] eqn:E; simpl.
  - exists s. by split; [|left].
  - exists (printed (msg e) s). split; [done|]. right. by exists e.
Qed.

(** What a detector returns is what its body made of the empty dict. *)
Lemma try_filling_result {D} (R : relation D) (body : ST D unit) (d0 : D)
    catches msg (s s' : scanner) (d : D) :
  always R body ->
  try_filling body d0 catches msg s = (Ok d, s') -> R d0 d.
Proof.
  intros Hb. rewrite try_filling_spec. specialize (Hb d0).
  destruct (body d0).1 as [[]|e].
  - intros [= <- _]. exact Hb.
  - destruct (catches e); [|discriminate]. intros [= <- _]. exact Hb.
Qed.

#[local] Instance keeps_preorder {S} (P : S -> Prop) : PreOrder (keeps P).
Proof. split; [intros s H; exact H | intros s1 s2 s3 H12 H23 H; auto]. Qed.

Ltac always_step :=
  match goal with
  | |- PreOrder _ => apply _
  | |- always _ (mret _) => apply always_ret
  | |- always _ (lift _) => apply always_lift
  | |- always _ (_ ≫= _) => apply always_bind
  | |- always _ (try_except _ _ _) => apply always_try_except
  | |- always _ (for_each_yield _ _) => apply always_for_each_yield
  | |- always _ (for_each _ _) => apply always_for_each
  | |- always _ (let _ := _ in _) => cbv zeta
  | |- always _ (if ?b then _ else _) => destruct b
  | |- always _ (match ?x with _ => _ end) => destruct x
  | |- forall _, _ => intro
  end.

Ltac always_tac := repeat always_step.

Lemma always_insert_record (Q : record -> Prop) (k : string) (r : record) :
  Q r ->
  always (keeps (map_Forall (fun _ => Q))) (modify (insert k r) : ST (gmap string record) unit).
Proof.
  intros Hr. apply always_modify. intros d Hd.
  by apply map_Forall_insert_2.
Qed.

Lemma dict_literal_eol_status (fields : list (string * pyval)) (status : string) :
  classification status ->
  has_eol_status (dict_literal (fields ++ [("eol_status", PStr status)])).
Proof.
  intros Hc. exists status. split; [|done].
  unfold dict_literal. rewrite foldl_app. simpl. apply lookup_insert_eq.
Qed.

Section Detectors.

Variable h : host.

Let eol_kept : relation (gmap string record) :=
  keeps (map_Forall (fun _ : string => has_eol_status)).

Lemma detect_java_installations_eol s d s' :
  detect_java_installations h s = (Ok d, s') ->
  map_Forall (fun _ => has_eol_status) d.
Proof.
  intros H. eapply (try_filling_result eol_kept) in H.
  - apply H, map_Forall_empty.
  - subst eol_kept. always_tac. apply always_insert_record.
    apply (dict_literal_eol_status [_; _; _]), check_java_eol_range.
Qed.

Lemma detect_dotnet_core_eol s d s' :
  detect_dotnet_core h s = (Ok d, s') ->
  map_Forall (fun _ => has_eol_status) d.
Proof.
  intros H. eapply (try_filling_result eol_kept) in H.
  - apply H, map_Forall_empty.
  - subst eol_kept. always_tac. apply always_insert_record.
    apply (dict_literal_eol_status [_; _; _; _]), check_dotnet_core_eol_range.
Qed.

Lemma detect_sql_server_instances_eol s d s' :
  detect_sql_server_instances h s = (Ok d, s') ->
  map_Forall (fun _ => has_eol_status) d.
Proof.
  intros H. eapply (try_filling_result eol_kept) in H.
  - apply H, map_Forall_empty.
  - subst eol_kept. always_tac. apply always_insert_record.
    apply (dict_literal_eol_status [_; _; _]), check_mssql_eol_range.
Qed.

Lemma detect_mysql_instances_eol s d s' :
  detect_mysql_instances h s = (Ok d, s') ->
  map_Forall (fun _ => has_eol_status) d.
Proof.
  intros H. eapply (try_filling_result eol_kept) in H.
  - apply H, map_Forall_empty.
  - subst eol_kept. always_tac. apply always_insert_record.
    apply (dict_literal_eol_status [_; _; _]), check_mysql_eol_range.
Qed.

Lemma detect_postgresql_instances_eol s d s' :
  detect_postgresql_instances h s = (Ok d, s') ->
  map_Forall (fun _ => has_eol_status) d.
Proof.
  intros H. eapply (try_filling_result eol_kept) in H.
  - apply H, map_Forall_empty.
  - subst eol_kept. always_tac. apply always_insert_record.
    apply (dict_literal_eol_status [_; _; _]), check_postgresql_eol_range.
Qed.

End Detectors.

Ltac returns_step :=
  match goal with
  | |- returns (mret _) => apply returns_ret
  | |- returns (modify _) => apply returns_modify
  | |- returns (_ ≫= _) => apply returns_bind
  | |- returns (for_each _ _) => apply returns_for_each
  | |- returns (try_except _ except_Exception _) => apply returns_try_except_all
  | |- returns (let _ := _ in _) => cbv zeta
  | |- returns (if ?b then _ else _) => destruct b
  | |- returns (match ?x with _ => _ end) => destruct x
  | |- forall _, _ => intro
  end.

Ltac returns_tac := repeat returns_step.

Lemma yields_ret {A} (a : A) : yields (mret a) a.
Proof. intros s. by exists s. Qed.

Lemma yields_print (l : line) : yields (print l) tt.
Proof. intros s. by exists (printed l s). Qed.

Lemma yields_bind {A B} (m : M A) (f : A -> M B) (a : A) (b : B) :
  yields m a -> yields (f a) b -> yields (m ≫= f) b.
Proof.
  intros Hm Hf s. rewrite run_bind. destruct (Hm s) as [s1 ->]. apply Hf.
Qed.

Lemma yields_unique {A} (m : M A) (a b : A) : yields m a -> yields m b -> a = b.
Proof.
  intros Ha Hb. destruct (Ha init) as [s1 H1]. destruct (Hb init) as [s2 H2].
  congruence.
Qed.

Lemma try_filling_yields {D} (body : ST D unit) (d0 : D) catches msg :
  (forall e, (body d0).1 = Raise e -> catches e = true) ->
  yields (try_filling body d0 catches msg) (body d0).2.
Proof.
  intros Hc s. rewrite try_filling_spec.
  destruct (body d0).1 as [[]|e] eqn:E; [by eexists|].
  rewrite (Hc e eq_refl). by eexists.
Qed.

Section Detection.

Variable h : host.

(** The four detectors with an [except Exception] clause return from
    every state of the host. *)
Lemma detect_java_installations_yields :
  exists java, yields (detect_java_installations h) java.
Proof. eexists. by apply try_filling_yields. Qed.

Lemma detect_sql_server_instances_yields :
  exists mssql, yields (detect_sql_server_instances h) mssql.
Proof. eexists. by apply try_filling_yields. Qed.

Lemma detect_mysql_instances_yields :
  exists mysql, yields (detect_mysql_instances h) mysql.
Proof. eexists. by apply try_filling_yields. Qed.

Lemma detect_postgresql_instances_yields :
  exists postgres, yields (detect_postgresql_instances h) postgres.
Proof. eexists. by apply try_filling_yields. Qed.

(** [detect_dotnet_core] has an [except FileNotFoundError] clause only:
    what else the command line raises leaves the detector. *)
Lemma detect_dotnet_core_raises (e : exn) (s : scanner) :
  run_dotnet_list_runtimes h = Raise e -> e <> FileNotFoundError ->
  detect_dotnet_core h s = (Raise e, s).
Proof.
  intros Hrun Hne. unfold detect_dotnet_core. rewrite try_filling_spec.
  unfold subprocess_run. simpl. rewrite Hrun. simpl.
  by destruct e.
Qed.

Lemma detect_dotnet_core_yields :
  cli_runs_or_is_missing h -> exists dotnet, yields (detect_dotnet_core h) dotnet.
Proof.
  intros Hcli. eexists. apply try_filling_yields. intros e.
  unfold subprocess_run. simpl. rewrite run_bind. unfold lift.
  destruct (run_dotnet_list_runtimes h) as [[rc out]|e'] eqn:Hrun.
  - simpl. intros Hbody. exfalso.
    assert (Hret : returns (S := gmap string record)
              (if rc =? 0 then
                 for_each (Py.splitlines out) (fun line =>
                   if Py.truthy (Py.strip line) then
                     match Re.runtime_line line with
                     | Some (runtime, version, path) =>
                         modify (insert (runtime +:+ " " +:+ version)
                           (dict_literal [("version", PStr version); ("runtime", PStr runtime);
                                          ("path", PStr path); ("type", PStr "dotnet_core");
                                          ("eol_status", PStr (check_dotnet_core_eol version))]))
                     | None => mret tt
                     end
                   else mret tt)
               else mret tt)).
    { returns_tac. }
    destruct (Hret ∅) as [a Ha]. congruence.
  - intros [= <-]. by rewrite (Hcli e').
Qed.

Lemma detect_sql_databases_yields :
  exists mssql mysql postgres sql,
    yields (detect_sql_server_instances h) mssql
    /\ yields (detect_mysql_instances h) mysql
    /\ yields (detect_postgresql_instances h) postgres
    /\ yields (detect_sql_databases h) sql
    /\ sql = dict_update (dict_update (dict_update ∅ mssql) mysql) postgres.
Proof.
  destruct detect_sql_server_instances_yields as [mssql Hmssql].
  destruct detect_mysql_instances_yields as [mysql Hmysql].
  destruct detect_postgresql_instances_yields as [postgres Hpostgres].
  exists mssql, mysql, postgres. eexists. repeat split; try eassumption.
  unfold detect_sql_databases.
  eapply yields_bind; [apply yields_print|].
  eapply yields_bind; [exact Hmssql|].
  eapply yields_bind; [exact Hmysql|].
  eapply yields_bind; [exact Hpostgres|].
  apply yields_ret.
Qed.

End Detection.

(** ** Framework detection *)

Lemma post_ret {S A} (a : A) (Q : A -> Prop) : Q a -> post (mret a : ST S A) Q.
Proof. intros H s a' s' [= <- _]. exact H. Qed.

Lemma post_bind {S A B} (m : ST S A) (f : A -> ST S B) (Q1 : A -> Prop) (Q2 : B -> Prop) :
  post m Q1 -> (forall a, Q1 a -> post (f a) Q2) -> post (m ≫= f) Q2.
Proof.
  intros Hm Hf s b s'. rewrite run_bind.
  destruct (m s) as [[a|e] s1] eqn:E; [|discriminate].
  apply (Hf a); eauto.
Qed.

Lemma post_true {S A} (m : ST S A) : post m (fun _ => True).
Proof. by intros s a s' _. Qed.

Lemma always_bind_post {S A B} (R : relation S) `{!PreOrder R}
    (m : ST S A) (f : A -> ST S B) (Q : A -> Prop) :
  post m Q -> always R m -> (forall a, Q a -> always R (f a)) -> always R (m ≫= f).
Proof.
  intros Hq Hm Hf s. rewrite run_bind. specialize (Hm s).
  destruct (m s) as [[a|e] s'] eqn:E; simpl in *; [|assumption].
  etransitivity; [exact Hm | apply Hf; eauto].
Qed.

(** A detector changes the scanner by printing at most. *)
Lemma always_try_filling {D} (R : relation scanner) `{!PreOrder R}
    (body : ST D unit) (d0 : D) catches msg :
  (forall e s, R s (printed (msg e) s)) -> always R (try_filling body d0 catches msg).
Proof.
  intros Hp s. rewrite try_filling_spec.
  destruct (body d0).1 as [[]|e]; simpl; [reflexivity|].
  destruct (catches e); simpl; [apply Hp | reflexivity].
Qed.

Lemma always_print (R : relation scanner) (l : line) :
  (forall s, R s (printed l s)) -> always R (print l).
Proof. intros Hp s. apply Hp. Qed.

Lemma detect_sql_databases_eol (h : host) :
  post (detect_sql_databases h) (map_Forall (fun _ => has_eol_status)).
Proof.
  unfold detect_sql_databases.
  eapply post_bind; [apply post_true | intros _ _].
  eapply post_bind; [intros s d s'; apply detect_sql_server_instances_eol | intros mssql Hmssql].
  eapply post_bind; [intros s d s'; apply detect_mysql_instances_eol | intros mysql Hmysql].
  eapply post_bind; [intros s d s'; apply detect_postgresql_instances_eol | intros postgres Hpg].
  apply post_ret.
  simpl in *. repeat apply dict_update_Forall; try assumption.
  apply map_Forall_empty.
Qed.

(** C3 -- when the [dotnet] command runs or is not found,
    [detect_frameworks] returns, and the map it stores is the
    last-write-wins union of what the detectors returned, merged in the
    order Java, .NET Core, SQL: under a key the SQL map has, the SQL
    record; else, under a key the .NET Core map has, its record; else
    the Java map's.  The SQL map is made the same way of the SQL Server,
    MySQL and PostgreSQL maps, in that order. *)
Theorem detect_frameworks_last_write_wins (h : host) (s : scanner) :
  cli_runs_or_is_missing h ->
  exists java dotnet mssql mysql postgres sql s',
    yields (detect_java_installations h) java
    /\ yields (detect_dotnet_core h) dotnet
    /\ yields (detect_sql_server_instances h) mssql
    /\ yields (detect_mysql_instances h) mysql
    /\ yields (detect_postgresql_instances h) postgres
    /\ yields (detect_sql_databases h) sql
    /\ detect_frameworks h s = (Ok tt, s')
    /\ (forall k, sql !! k =
          match postgres !! k with
          | Some r => Some r
          | None => match mysql !! k with
                    | Some r => Some r
                    | None => mssql !! k
                    end
          end)
    /\ (forall k, installed_frameworks s' !! k =
          match sql !! k with
          | Some r => Some r
          | None => match dotnet !! k with
                    | Some r => Some r
                    | None => java !! k
                    end
          end).
Proof.
  intros Hcli.
  destruct (detect_java_installations_yields h) as [java Hjava].
  destruct (detect_dotnet_core_yields h Hcli) as [dotnet Hdotnet].
  destruct (detect_sql_databases_yields h)
    as (mssql & mysql & postgres & sql & Hmssql & Hmysql & Hpg & Hsql & Esql).
  exists java, dotnet, mssql, mysql, postgres, sql.
  unfold detect_frameworks. rewrite run_bind.
  destruct (Hjava s) as [s1 ->]. rewrite run_bind.
  destruct (Hdotnet s1) as [s2 ->]. rewrite run_bind.
  destruct (Hsql s2) as [s3 ->].
  eexists. repeat split; try eassumption.
  - intros k. rewrite Esql, !lookup_dict_update, lookup_empty.
    destruct (postgres !! k), (mysql !! k), (mssql !! k); reflexivity.
  - intros k. simpl. rewrite !lookup_dict_update, lookup_empty.
    destruct (sql !! k), (dotnet !! k), (java !! k); reflexivity.
Qed.

Lemma host_shared_key_cli : cli_runs_or_is_missing host_shared_key.
Proof. intros e H. discriminate H. Defined.

Lemma detect_frameworks_last_write_wins_witness :
  exists java dotnet mssql mysql postgres sql s',
    yields (detect_java_installations host_shared_key) java
    /\ yields (detect_dotnet_core host_shared_key) dotnet
    /\ yields (detect_sql_server_instances host_shared_key) mssql
    /\ yields (detect_mysql_instances host_shared_key) mysql
    /\ yields (detect_postgresql_instances host_shared_key) postgres
    /\ yields (detect_sql_databases host_shared_key) sql
    /\ detect_frameworks host_shared_key init = (Ok tt, s')
    /\ (forall k, sql !! k =
          match postgres !! k with
          | Some r => Some r
          | None => match mysql !! k with
                    | Some r => Some r
                    | None => mssql !! k
                    end
          end)
    /\ (forall k, installed_frameworks s' !! k =
          match sql !! k with
          | Some r => Some r
          | None => match dotnet !! k with
                    | Some r => Some r
                    | None => java !! k
                    end
          end).
Proof.
  apply (detect_frameworks_last_write_wins host_shared_key init).
  exact host_shared_key_cli.
Defined.

(** On the host where both detectors write [Java X], the record of the
    later one, .NET Core's, is the one stored; [Java 1.8] keeps the
    record the Java detector gave it. *)
Example shared_key_goes_to_dotnet :
  (installed_frameworks (detect_frameworks host_shared_key init).2 !! "Java X")
    ≫= (fun r => r !! "type") = Some (PStr "dotnet_core")
  /\ (installed_frameworks (detect_frameworks host_shared_key init).2 !! "Java 1.8")
    ≫= (fun r => r !! "type") = Some (PStr "java").
Proof. split; vm_compute; reflexivity. Qed.

(** ** Steps that only append records *)

#[local] Instance grows_by_preorder (Q : string -> record -> Prop) : PreOrder (grows_by Q).
Proof.
  split.
  - intros s. unfold grows_by. naive_solver.
  - intros s1 s2 s3 (F12 & P12 & O12 & K12 & N12) (F23 & P23 & O23 & K23 & N23).
    unfold grows_by. repeat split; try congruence; [auto|].
    intros c r Hr. destruct (N23 c r Hr) as [H2|HQ]; [|by right].
    apply N12, H2.
Qed.

Lemma records_of_appended (c : string) (r : record) (s : scanner) (c' : string) :
  records_of (appended c r s) c' =
  if decide (c' = c) then records_of s c ++ [r] else records_of s c'.
Proof.
  unfold records_of, appended. simpl.
  destruct (decide (c' = c)) as [->|Hne].
  - by rewrite lookup_insert_eq.
  - by rewrite lookup_insert_ne.
Qed.

Lemma grows_by_appended (Q : string -> record -> Prop) (c : string) (r : record) (s : scanner) :
  Q c r -> grows_by Q s (appended c r s).
Proof.
  intros HQ. unfold grows_by. repeat split; try reflexivity.
  - intros c' r' Hr'. rewrite records_of_appended.
    destruct (decide (c' = c)) as [->|]; [|done]. apply elem_of_app. by left.
  - intros c' r'. rewrite records_of_appended.
    destruct (decide (c' = c)) as [->|]; [|by left].
    intros [H| ->%list_elem_of_singleton]%elem_of_app; [by left | by right].
Qed.

Lemma grows_by_weaken (Q Q' : string -> record -> Prop) (s s' : scanner) :
  (forall c r, Q c r -> Q' c r) -> grows_by Q s s' -> grows_by Q' s s'.
Proof.
  intros HQ (F & P & O & K & N). unfold grows_by. repeat split; try done.
  intros c r Hr. destruct (N c r Hr); [by left | right; auto].
Qed.

Lemma always_grows_by_weaken {A} (Q Q' : string -> record -> Prop) (m : M A) :
  (forall c r, Q c r -> Q' c r) -> always (grows_by Q) m -> always (grows_by Q') m.
Proof. intros HQ Hm s. eapply grows_by_weaken; [exact HQ | apply Hm]. Qed.

Lemma always_append_dependency (Q : string -> record -> Prop) (c : string) (r : record) :
  Q c r -> always (grows_by Q) (append_dependency c r).
Proof. intros HQ s. by apply grows_by_appended. Qed.

Lemma post_lift {S A} (o : outcome A) : post (lift o : ST S A) (fun a => o = Ok a).
Proof. intros s a s'. unfold lift. by intros [= -> _]. Qed.

(** ** The static scan *)

Lemma getitem_raise {A} (l : list A) (i : nat) (e : exn) :
  Py.getitem l i = Raise e -> e = IndexError.
Proof. unfold Py.getitem. destruct (l !! i); [discriminate | by intros [= <-]]. Qed.

(** [get_application_name] always finds a name: its [except IndexError]
    clause covers all its body can raise. *)
Lemma get_application_name_total (file_path : Path.t) :
  exists app, get_application_name file_path = Ok app.
Proof.
  unfold get_application_name.
  destruct (Py.getitem file_path 1) as [part1|e] eqn:E1; simpl.
  2: { apply getitem_raise in E1 as ->. simpl. eauto. }
  destruct (Py.contains "program files" (Py.lower part1)).
  - destruct (Py.getitem file_path 2) as [part2|e] eqn:E2; simpl; [eauto|].
    apply getitem_raise in E2 as ->. simpl. eauto.
  - destruct (Py.contains "windowsapps" (Py.lower part1)); simpl; [|eauto].
    destruct (Py.getitem file_path 2) as [part2|e] eqn:E2; simpl.
    2: { apply getitem_raise in E2 as ->. simpl. eauto. }
    destruct (Py.getitem (Py.split "_" part2) 0) as [first|e] eqn:E3; simpl; [eauto|].
    apply getitem_raise in E3 as ->. simpl. eauto.
Qed.

Lemma analyze_file_dependencies_appends (file_path : Path.t) (s : scanner) :
  exists app, get_application_name file_path = Ok app
    /\ analyze_file_dependencies file_path s
       = (Ok tt, appended "java" (static_record app file_path) s).
Proof.
  destruct (get_application_name_total file_path) as [app Happ].
  exists app. split; [done|].
  unfold analyze_file_dependencies, try_except. rewrite run_bind.
  unfold lift. rewrite Happ. reflexivity.
Qed.

(** ** The suffix of a path *)

Lemma rfind_none (c : ascii) (s : string) : ~ has_char c s -> Py.rfind c s = None.
Proof.
  induction s as [|a r IH]; [done|]. simpl. intros Hno.
  rewrite IH by tauto. destruct (Ascii.eqb_spec a c); [tauto | done].
Qed.

Lemma rfind_last (c : ascii) (a b : string) :
  ~ has_char c b -> Py.rfind c (a +:+ String c b) = Some (String.length a).
Proof.
  intros Hno. induction a as [|x a IH].
  - rewrite append_nil. simpl. by rewrite rfind_none, Ascii.eqb_refl.
  - rewrite append_cons. simpl. by rewrite IH.
Qed.

Lemma rfind_some (c : ascii) (s : string) (i : nat) :
  Py.rfind c s = Some i ->
  exists a b, s = a +:+ String c b /\ String.length a = i /\ ~ has_char c b.
Proof.
  revert i. induction s as [|x r IH]; intros i; [discriminate|]. simpl.
  destruct (Py.rfind c r) as [j|] eqn:Er.
  - intros [= <-]. destruct (IH j eq_refl) as (a & b & -> & <- & Hno).
    by exists (String x a), b.
  - destruct (Ascii.eqb_spec x c) as [->|Hne]; [|discriminate].
    intros [= <-]. exists EmptyString, r. repeat split.
    clear IH. induction r as [|y r IHr]; [tauto|]. simpl in *.
    destruct (Py.rfind c r); [discriminate|].
    destruct (Ascii.eqb_spec y c); [discriminate|]. intros [?|?]; [done|]. by apply IHr.
Qed.

Lemma substring_all (b : string) : String.substring 0 (String.length b) b = b.
Proof. induction b as [|x b IH]; [done|]. simpl. by rewrite IH. Qed.

Lemma substring_app (a b : string) :
  String.substring (String.length a) (String.length b) (a +:+ b) = b.
Proof.
  induction a as [|x a IH]; [rewrite append_nil; apply substring_all|].
  rewrite append_cons. simpl. exact IH.
Qed.

(** The suffix of a name, as [Path.suffix] cuts it. *)
Lemma suffix_of_name (nm : string) :
  match Path.suffix_index nm with
  | Some i => exists a b, nm = a +:+ String "." b /\ String.length a = i
                          /\ a <> EmptyString /\ b <> EmptyString /\ ~ has_char "." b
                          /\ String.substring i (String.length nm - i) nm = String "." b
  | None => True
  end.
Proof.
  unfold Path.suffix_index. destruct (Py.rfind "." nm) as [i|] eqn:Er; [|done].
  destruct (_ && _) eqn:Ei; [|done].
  apply andb_prop in Ei as [H0 H1]. apply Nat.ltb_lt in H0, H1.
  destruct (rfind_some _ _ _ Er) as (a & b & -> & <- & Hno).
  rewrite length_append in *. simpl in *.
  exists a, b. repeat split; try done.
  - intros ->. simpl in H0. lia.
  - intros ->. simpl in H1. lia.
  - replace (String.length a + S (String.length b) - String.length a)%nat
      with (String.length (String "." b)) by (simpl; lia).
    apply substring_app.
Qed.

Lemma chr_lower_jar (c : ascii) :
  (Py.chr_lower c = "j"%char <-> c = "j"%char \/ c = "J"%char)
  /\ (Py.chr_lower c = "a"%char <-> c = "a"%char \/ c = "A"%char)
  /\ (Py.chr_lower c = "r"%char <-> c = "r"%char \/ c = "R"%char).
Proof.
  destruct c as [[] [] [] [] [] [] [] []]; vm_compute;
    repeat split; intros H; try discriminate; try tauto;
    destruct H; discriminate.
Qed.

(** The test of the loop, suffix lower-cased equal to [.jar], is the
    test for a jar name. *)
Lemma suffix_is_jar (nm : string) :
  Py.lower (match Path.suffix_index nm with
            | Some i => String.substring i (String.length nm - i) nm
            | None => EmptyString
            end) = ".jar"
  <-> jar_name nm.
Proof.
  pose proof (suffix_of_name nm) as Hs. split.
  - destruct (Path.suffix_index nm) as [i|]; [|discriminate].
    destruct Hs as (stem & b & -> & <- & Hstem & Hb & Hno & ->).
    simpl. intros [= Hl].
    destruct b as [|j [|a [|r [|? ?]]]]; try discriminate Hl.
    injection Hl as Hj Ha Hr.
    exists stem, j, a, r. split; [done|]. split; [done|].
    by rewrite <- !(proj1 (chr_lower_jar _)), <- !(proj1 (proj2 (chr_lower_jar _))),
         <- !(proj2 (proj2 (chr_lower_jar _))).
  - clear Hs. intros (stem & j & a & r & -> & Hstem & Hj & Ha & Hr).
    set (ext := String j (String a (String r EmptyString))) in *.
    assert (Hno : ~ has_char "." ext).
    { subst ext. simpl. intros [E|[E|[E|[]]]]; subst;
        [destruct Hj | destruct Ha | destruct Hr]; discriminate. }
    unfold Path.suffix_index in *.
    change (stem +:+ "." +:+ ext) with (stem +:+ String "." ext) in *.
    rewrite (rfind_last "." stem ext Hno) in *.
    rewrite length_append.
    assert (0 < String.length stem)%nat by (destruct stem; [done | simpl; lia]).
    destruct (Nat.ltb_spec 0 (String.length stem)); [|lia].
    destruct (Nat.ltb_spec (String.length stem)
                (String.length stem + String.length (String "." ext) - 1)); [|simpl in *; lia].
    simpl andb. cbv iota.
    replace (String.length stem + String.length (String "." ext) - String.length stem)%nat
      with (String.length (String "." ext)) by lia.
    rewrite substring_app. subst ext.
    destruct Hj as [-> | ->], Ha as [-> | ->], Hr as [-> | ->]; reflexivity.
Qed.

Lemma name_of_joined (parent : Path.t) (nm : string) :
  parent <> [] -> Path.name (parent ++ [nm]) = nm.
Proof.
  intros Hp. unfold Path.name.
  destruct parent as [|a parent]; [done|]. simpl.
  destruct (parent ++ [nm]) as [|b l] eqn:E; [by destruct parent|].
  rewrite <- E. clear. induction parent as [|x parent IH]; [done|].
  simpl. destruct (parent ++ [nm]) eqn:E; [by destruct parent | exact IH].
Qed.

Lemma name_is_last (item : Path.t) :
  Path.name item <> EmptyString ->
  exists parent, item = parent ++ [Path.name item] /\ parent <> [].
Proof.
  unfold Path.name. destruct item as [|a [|b l]]; [done..|]. intros _.
  exists (removelast (a :: b :: l)). split.
  - apply app_removelast_last. discriminate.
  - simpl. discriminate.
Qed.

(** The test for a recorded file that the loop makes is the test for a
    jar file. *)
Lemma jar_file_test (h : host) (item : Path.t) :
  jar_file h item <->
  path_is_file h item = Ok true /\ Py.lower (Path.suffix item) = ".jar".
Proof.
  unfold jar_file, Path.suffix. rewrite suffix_is_jar. split.
  - intros (Hf & parent & nm & -> & Hp & Hn). split; [done|].
    by rewrite name_of_joined.
  - intros (Hf & Hn). split; [done|].
    assert (Hne : Path.name item <> EmptyString).
    { intros E. rewrite E in Hn. destruct Hn as (stem & j & a & r & Hn & Hstem & _).
      by destruct stem. }
    destruct (name_is_last item Hne) as (parent & E & Hp).
    by exists parent, (Path.name item).
Qed.

Lemma scan_item_grows (h : host) (Q : string -> record -> Prop)
    (recurse : Path.t -> M unit) (item : Path.t) :
  (forall app, jar_file h item -> get_application_name item = Ok app ->
               Q "java" (static_record app item)) ->
  (entered h item -> probes_answer h item -> always (grows_by Q) (recurse item)) ->
  always (grows_by Q) (scan_item h recurse item).
Proof.
  intros Hrecord Hrecurse. unfold scan_item.
  eapply always_bind_post; [apply _ | apply post_lift | apply always_lift; apply _ |].
  intros is_file Hfile. cbv beta in Hfile.
  destruct (is_file && String.eqb _ ".jar") eqn:Ejar.
  - apply andb_prop in Ejar as [-> Esuf]. apply String.eqb_eq in Esuf.
    intros s.
    destruct (analyze_file_dependencies_appends item s) as (app & Happ & ->).
    apply grows_by_appended. apply Hrecord; [|done]. by apply jar_file_test.
  - eapply always_bind_post; [apply _ | apply post_lift | apply always_lift; apply _ |].
    intros is_dir Hdir. cbv beta in Hdir.
    destruct (is_dir && negb _) eqn:Edir; [|apply always_ret; apply _].
    apply andb_prop in Edir as [-> Edot]. apply negb_true_iff in Edot.
    assert (Hnot : ~ jar_file h item).
    { intros [Hf Hs]%jar_file_test. rewrite Hf in Hfile. injection Hfile as <-.
      rewrite Hs in Ejar. discriminate. }
    apply Hrecurse; [by split | right; by eauto].
Qed.

(** When the step of an entry returns, its probes have answered. *)
Lemma scan_item_probes (h : host) (recurse : Path.t -> M unit) (item : Path.t)
    (s : scanner) :
  (scan_item h recurse item s).1 = Ok tt -> probes_answer h item.
Proof.
  unfold scan_item. rewrite run_bind. unfold lift at 1.
  destruct (path_is_file h item) as [is_file|e] eqn:Hfile; [|discriminate].
  destruct (is_file && String.eqb _ ".jar") eqn:Ejar.
  - intros _. left. apply andb_prop in Ejar as [-> Esuf]. apply String.eqb_eq in Esuf.
    by apply jar_file_test.
  - rewrite run_bind. unfold lift at 1.
    destruct (path_is_dir h item) as [is_dir|e] eqn:Hdir; [|discriminate].
    intros _. right. by eauto.
Qed.

(** A loop ends at the first item whose step raises: the step of an
    item is only taken when the steps of all items before it have
    returned. *)
Lemma always_for_each_prefix {S X} (R : relation S) `{!PreOrder R} (P : X -> Prop)
    (items : list X) (body : X -> ST S unit) :
  (forall x s, (body x s).1 = Ok tt -> P x) ->
  (forall before x after,
     items = before ++ x :: after -> Forall P before -> always R (body x)) ->
  always R (for_each items body).
Proof.
  intros Hret Hstep.
  assert (H : forall rest before,
             items = before ++ rest -> Forall P before -> always R (for_each rest body)).
  { induction rest as [|x rest IH]; intros before E Hb s; [reflexivity|].
    simpl. rewrite run_bind.
    pose proof (Hstep before x rest E Hb s) as Hx.
    pose proof (Hret x s) as Hp.
    destruct (body x s) as [[[]|e] s1]; simpl in *; [|exact Hx].
    etransitivity; [exact Hx|].
    apply (IH (before ++ [x])).
    - by rewrite <- app_assoc.
    - apply Forall_app. split; [done|]. constructor; [by apply Hp | constructor]. }
  by apply (H items []).
Qed.

Lemma scan_levels_grows (h : host) (n : nat) (directory : Path.t) :
  always (grows_by (walk_record h n directory)) (scan_levels h n directory).
Proof.
  revert directory. induction n as [|n IH]; intros directory; simpl.
  - apply always_ret; apply _.
  - apply always_try_except; [apply _ | | intros _; apply always_ret; apply _].
    eapply always_bind_post; [apply _ | apply post_lift | apply always_lift; apply _ |].
    intros entries Hentries. cbv beta in Hentries.
    apply (always_for_each_prefix _
             (fun e => probes_answer h (Path.joinpath directory e))).
    { intros entry s. apply scan_item_probes. }
    intros before entry after -> Hbefore. apply scan_item_grows.
    + intros app Hjar Happ. split; [done|].
      exists (Path.joinpath directory entry), app. split; [|done].
      eapply visited_listed; eassumption.
    + intros Hentered Hprobes. eapply always_grows_by_weaken; [|apply IH].
      intros c r (-> & item & app & Hvisit & Hjar & Happ & ->).
      split; [done|]. exists item, app. split; [|done].
      eapply visited_below; eassumption.
Qed.

(** ** What may be raised *)

Lemma raises_only_ret {S A} C (a : A) : raises_only C (mret a : ST S A).
Proof. intros s e. discriminate. Qed.

Lemma raises_only_modify {S} C (f : S -> S) : raises_only C (modify f).
Proof. intros s e. discriminate. Qed.

Lemma raises_only_lift {S A} C (o : outcome A) :
  (forall e, o = Raise e -> C e = true) -> raises_only C (lift o : ST S A).
Proof. intros H s e He. apply H. exact He. Qed.

Lemma raises_only_bind {S A B} C (m : ST S A) (f : A -> ST S B) :
  raises_only C m -> (forall a, raises_only C (f a)) -> raises_only C (m ≫= f).
Proof.
  intros Hm Hf s e. rewrite run_bind. specialize (Hm s).
  destruct (m s) as [[a|e'] s']; simpl in *.
  - apply Hf.
  - intros [= <-]. by apply Hm.
Qed.

Lemma raises_only_try_except {S A} C C' (body : ST S A) catches (handler : exn -> ST S A) :
  raises_only C' body ->
  (forall e, C' e = true -> catches e = false -> C e = true) ->
  (forall e, raises_only C (handler e)) ->
  raises_only C (try_except body catches handler).
Proof.
  intros Hb Hc Hh s e. unfold try_except. specialize (Hb s).
  destruct (body s) as [[a|e'] s']; simpl in *; [discriminate|].
  destruct (catches e') eqn:E.
  - apply Hh.
  - intros [= <-]. apply Hc; [by apply Hb | done].
Qed.

Lemma raises_only_for_each {S X} C (items : list X) (body : X -> ST S unit) :
  (forall x, x ∈ items -> raises_only C (body x)) -> raises_only C (for_each items body).
Proof.
  induction items as [|x items IH]; intros H; simpl.
  - apply raises_only_ret.
  - apply raises_only_bind.
    + apply H. by left.
    + intros _. apply IH. intros y Hy. apply H. by right.
Qed.

Lemma raises_only_weaken {S A} (C C' : exn -> bool) (m : ST S A) :
  (forall e, C e = true -> C' e = true) -> raises_only C m -> raises_only C' m.
Proof. intros H Hm s e He. eauto. Qed.

Lemma no_exception_returns {S A} (m : ST S A) :
  raises_only no_exception m -> returns m.
Proof.
  intros H s. specialize (H s). destruct (m s) as [[a|e] s']; simpl in *.
  - by exists a.
  - by specialize (H e eq_refl).
Qed.

Lemma returns_unit {S} (m : ST S unit) (s : S) : returns m -> (m s).1 = Ok tt.
Proof. intros H. destruct (H s) as [[] ->]. reflexivity. Qed.

Lemma analyze_file_dependencies_raises_nothing (C : exn -> bool) (file_path : Path.t) :
  raises_only C (analyze_file_dependencies file_path).
Proof.
  intros s e. destruct (analyze_file_dependencies_appends file_path s) as (app & _ & ->).
  discriminate.
Qed.

Lemma scan_item_raises_only (h : host) (C : exn -> bool)
    (recurse : Path.t -> M unit) (item : Path.t) :
  (forall e, path_is_file h item = Raise e -> C e = true) ->
  (forall e, path_is_dir h item = Raise e -> C e = true) ->
  raises_only C (recurse item) ->
  raises_only C (scan_item h recurse item).
Proof.
  intros Hfile Hdir Hrec. unfold scan_item.
  apply raises_only_bind; [by apply raises_only_lift|]. intros is_file.
  destruct (is_file && _); [apply analyze_file_dependencies_raises_nothing|].
  apply raises_only_bind; [by apply raises_only_lift|]. intros is_dir.
  destruct (is_dir && _); [exact Hrec | apply raises_only_ret].
Qed.

(** The walk returns: the [OSError]s of a directory end the loop over
    that directory and no more. *)
Lemma scan_levels_returns (h : host) (n : nat) (directory : Path.t) :
  walk_raises_only_OSError h -> raises_only no_exception (scan_levels h n directory).
Proof.
  intros Hfs. revert directory. induction n as [|n IH]; intros directory; simpl.
  - apply raises_only_ret.
  - apply (raises_only_try_except _ except_OSError).
    + apply raises_only_bind.
      * apply raises_only_lift. intros e He. apply (Hfs directory). by left.
      * intros entries. apply raises_only_for_each. intros entry _.
        apply scan_item_raises_only.
        -- intros e He. apply (Hfs (Path.joinpath directory entry)). right. by left.
        -- intros e He. apply (Hfs (Path.joinpath directory entry)). right. by right.
        -- eapply raises_only_weaken; [|apply IH]. discriminate.
    + intros e He1 He2. congruence.
    + intros e. apply raises_only_ret.
Qed.

(** ** What the walk does not miss *)


(** In a loop whose body always returns, the step of each item is
    taken, and what it leaves lasts to the end of the loop. *)
Lemma for_each_covers {S X} (R : relation S) `{!PreOrder R}
    (items : list X) (body : X -> ST S unit) (x : X) (s : S) :
  (forall y, y ∈ items -> returns (body y)) ->
  (forall y, y ∈ items -> always R (body y)) ->
  x ∈ items ->
  exists s1, R s s1 /\ R (body x s1).2 (for_each items body s).2.
Proof.
  intros Hret Halw. revert s.
  induction items as [|y items IH]; intros s Hx; [by apply elem_of_nil in Hx|].
  assert (Hy : (body y s).1 = Ok tt) by (apply returns_unit, Hret; by left).
  assert (Hstep : for_each (y :: items) body s = for_each items body (body y s).2).
  { simpl. rewrite run_bind. destruct (body y s) as [[[]|e] s1]; simpl in *; [done|discriminate]. }
  rewrite Hstep.
  apply elem_of_cons in Hx as [->|Hx].
  - exists s. split; [reflexivity|].
    apply (always_for_each R items body). intros z Hz. apply Halw. by right.
  - destruct (IH (fun z Hz => Hret z (list_elem_of_further _ _ _ Hz))
                 (fun z Hz => Halw z (list_elem_of_further _ _ _ Hz))
                 (body y s).2 Hx) as (s1 & H1 & H2).
    exists s1. split; [|exact H2].
    etransitivity; [|exact H1]. apply Halw. by left.
Qed.



(** *** Every run that returns records what it visits *)











Lemma static_record_fields (app : string) (item : Path.t) :
  static_record app item !! "framework" = Some (PStr "Java Runtime")
  /\ static_record app item !! "detection_method" = Some (PStr "static_analysis")
  /\ static_record app item !! "confidence" = Some (PStr "high")
  /\ static_record app item !! "file" = Some (PStr (Path.str item))
  /\ static_record app item !! "app" = Some (PStr app)
  /\ static_record app item !! "status" = None.
Proof. unfold static_record, dict_literal. simpl. repeat split; by simplify_map_eq. Qed.

Lemma records_of_printed (l : line) (s : scanner) (c : string) :
  records_of (printed l s) c = records_of s c.
Proof. reflexivity. Qed.

Lemma scan_installed_applications_run (h : host) (s : scanner) :
  scan_installed_applications h s =
  for_each program_dirs (scan_program_dir h) (printed Scanning_applications s).
Proof. reflexivity. Qed.

Lemma scan_program_dir_grows (h : host) (root : Path.t) :
  root ∈ program_dirs ->
  always (grows_by (static_scan_record h)) (scan_program_dir h root).
Proof.
  intros Hroot. unfold scan_program_dir.
  eapply always_bind_post; [apply _ | apply post_lift | apply always_lift; apply _ |].
  intros found Hfound. cbv beta in Hfound.
  destruct found; [|apply always_ret; apply _].
  eapply always_grows_by_weaken; [|apply (scan_levels_grows h 3 root)].
  intros c r (-> & item & app & Hreach & Hjar & Happ & ->).
  split; [done|]. by exists root, item, app.
Qed.

Lemma scan_program_dir_returns (h : host) (root : Path.t) :
  roots_answer h -> walk_raises_only_OSError h -> root ∈ program_dirs ->
  raises_only no_exception (scan_program_dir h root).
Proof.
  intros Hroots Hfs Hroot. unfold scan_program_dir.
  apply raises_only_bind.
  - apply raises_only_lift. intros e He. destruct (Hroots root Hroot). congruence.
  - intros found. destruct found; [|apply raises_only_ret].
    by apply scan_levels_returns.
Qed.



(** On directories nested without end the scan ends all the same, with
    the three files of the first three levels of each program
    directory. *)
Example scan_of_an_endless_tree :
  (scan_installed_applications endless_tree init).1 = Ok tt
  /\ length (records_of (scan_installed_applications endless_tree init).2 "java") = 9%nat.
Proof. split; vm_compute; reflexivity. Qed.

(** ** The scan of running processes *)

Lemma runtime_record_fields (proc : process) (exe_path framework : string)
    (dependency_path : option string) :
  let r := runtime_record proc exe_path framework dependency_path in
  r !! "confidence" = Some (PStr "high")
  /\ r !! "status" = Some (PStr "running")
  /\ r !! "detection_method" = Some (PStr "runtime_analysis")
  /\ r !! "framework" = Some (PStr framework).
Proof. unfold runtime_record, dict_literal. simpl. repeat split; by simplify_map_eq. Qed.

Lemma runtime_scan_record_dotnet proc exe_path framework dependency_path :
  runtime_scan_record "dotnet_runtime" (runtime_record proc exe_path framework dependency_path).
Proof.
  pose proof (runtime_record_fields proc exe_path framework dependency_path) as H.
  unfold runtime_scan_record. simpl in H. intuition.
Qed.

Lemma runtime_scan_record_java proc exe_path framework dependency_path :
  runtime_scan_record "java_runtime" (runtime_record proc exe_path framework dependency_path).
Proof.
  pose proof (runtime_record_fields proc exe_path framework dependency_path) as H.
  unfold runtime_scan_record. simpl in H. intuition.
Qed.

Lemma analyze_running_process_grows (proc : process) :
  always (grows_by runtime_scan_record) (analyze_running_process proc).
Proof.
  unfold analyze_running_process. always_tac.
  - apply always_append_dependency, runtime_scan_record_dotnet.
  - apply always_append_dependency, runtime_scan_record_java.
Qed.

Lemma analyze_running_process_returns (C : exn -> bool) (proc : process) :
  raises_only C (analyze_running_process proc).
Proof.
  unfold analyze_running_process.
  eapply raises_only_try_except with (C' := except_Exception).
  - intros s e _. reflexivity.
  - intros e _ He. discriminate He.
  - intros e. apply raises_only_ret.
Qed.

Lemma scan_running_processes_run (h : host) (s : scanner) :
  scan_running_processes h s =
  for_each (process_iter h) scan_process (printed Scanning_processes s).
Proof. reflexivity. Qed.

Lemma scan_process_grows (proc : process) :
  always (grows_by runtime_scan_record) (scan_process proc).
Proof.
  unfold scan_process. apply always_try_except; [apply _ | | intros; apply always_ret; apply _].
  destruct (Py.truthy_opt _); [apply analyze_running_process_grows | apply always_ret; apply _].
Qed.

Lemma scan_process_returns (proc : process) :
  raises_only no_exception (scan_process proc).
Proof.
  unfold scan_process. eapply raises_only_try_except with (C' := no_exception).
  - destruct (Py.truthy_opt _); [apply analyze_running_process_returns | apply raises_only_ret].
  - intros e He. discriminate He.
  - intros e. apply raises_only_ret.
Qed.

Lemma scan_running_processes_ok (h : host) (s : scanner) :
  (scan_running_processes h s).1 = Ok tt.
Proof.
  rewrite scan_running_processes_run.
  apply returns_unit, no_exception_returns, raises_only_for_each.
  intros proc _. apply scan_process_returns.
Qed.

Lemma scan_running_processes_grows (h : host) (s : scanner) :
  grows_by runtime_scan_record (printed Scanning_processes s) (scan_running_processes h s).2.
Proof.
  rewrite scan_running_processes_run.
  apply (always_for_each (grows_by runtime_scan_record)).
  intros proc _. apply scan_process_grows.
Qed.

Lemma scan_installed_applications_grows (h : host) (s : scanner) :
  grows_by (static_scan_record h) (printed Scanning_applications s)
    (scan_installed_applications h s).2.
Proof.
  rewrite scan_installed_applications_run.
  apply (always_for_each (grows_by (static_scan_record h))).
  apply scan_program_dir_grows.
Qed.

(** ** What framework detection prints and stores *)

#[local] Instance prints_preorder (P : line -> Prop) : PreOrder (prints P).
Proof.
  split.
  - intros s. repeat split. exists []. by rewrite app_nil_r.
  - intros s1 s2 s3 (D12 & P12 & F12 & out1 & O12 & H1) (D23 & P23 & F23 & out2 & O23 & H2).
    repeat split; try congruence.
    exists (out1 ++ out2). split; [|by apply Forall_app].
    rewrite O23, O12. by rewrite app_assoc.
Qed.

Lemma prints_printed (P : line -> Prop) (l : line) (s : scanner) :
  P l -> prints P s (printed l s).
Proof. intros Hl. repeat split. exists [l]. split; [done|]. by constructor. Qed.

Section Frameworks.

Variable h : host.

Lemma detect_java_installations_prints :
  always (prints detection_line) (detect_java_installations h).
Proof. apply always_try_filling; [apply _|]. intros e s. by apply prints_printed. Qed.

Lemma detect_dotnet_core_prints :
  always (prints detection_line) (detect_dotnet_core h).
Proof. apply always_try_filling; [apply _|]. intros e s. by apply prints_printed. Qed.

Lemma detect_sql_server_instances_prints :
  always (prints detection_line) (detect_sql_server_instances h).
Proof. apply always_try_filling; [apply _|]. intros e s. by apply prints_printed. Qed.

Lemma detect_mysql_instances_prints :
  always (prints detection_line) (detect_mysql_instances h).
Proof. apply always_try_filling; [apply _|]. intros e s. by apply prints_printed. Qed.

Lemma detect_postgresql_instances_prints :
  always (prints detection_line) (detect_postgresql_instances h).
Proof. apply always_try_filling; [apply _|]. intros e s. by apply prints_printed. Qed.

Lemma detect_sql_databases_prints :
  always (prints detection_line) (detect_sql_databases h).
Proof.
  unfold detect_sql_databases.
  apply always_bind; [apply _ | apply always_print; intros s; by apply prints_printed |].
  intros _.
  apply always_bind; [apply _ | apply detect_sql_server_instances_prints | intros mssql].
  apply always_bind; [apply _ | apply detect_mysql_instances_prints | intros mysql].
  apply always_bind; [apply _ | apply detect_postgresql_instances_prints | intros postgres].
  apply always_ret; apply _.
Qed.

(** A run of [detect_frameworks]: either a detector raises, and only
    lines were printed; or it returns, having printed, stored a map
    whose records all carry an end-of-life classification, and printed
    the count of that map. *)
Lemma detect_frameworks_run (s : scanner) :
  match detect_frameworks h s with
  | (Ok _, s1) =>
      exists s0 frameworks,
        prints detection_line s s0
        /\ map_Forall (fun _ => has_eol_status) frameworks
        /\ s1 = printed (Found_frameworks (size frameworks))
                  (with_installed_frameworks frameworks s0)
  | (Raise e, s1) => prints detection_line s s1
  end.
Proof.
  unfold detect_frameworks. rewrite run_bind.
  pose proof (detect_java_installations_prints s) as Hj.
  destruct (detect_java_installations h s) as [[java|e] s1] eqn:Ej; simpl in Hj; [|exact Hj].
  apply detect_java_installations_eol in Ej.
  rewrite run_bind.
  pose proof (detect_dotnet_core_prints s1) as Hd.
  destruct (detect_dotnet_core h s1) as [[dotnet|e] s2] eqn:Ed; simpl in Hd;
    [|by etransitivity].
  apply detect_dotnet_core_eol in Ed.
  rewrite run_bind.
  pose proof (detect_sql_databases_prints s2) as Hs.
  destruct (detect_sql_databases h s2) as [[sql|e] s3] eqn:Es; simpl in Hs;
    [|by repeat (etransitivity; [eassumption|])].
  apply detect_sql_databases_eol in Es.
  simpl. eexists s3, _. split; [|split; [|reflexivity]].
  - by repeat (etransitivity; [eassumption|]).
  - repeat apply dict_update_Forall; try assumption. apply map_Forall_empty.
Qed.

End Frameworks.

(** ** The whole scan *)

Lemma scan_all_run (h : host) (s : scanner) :
  scan_all h s =
  match detect_frameworks h (printed Starting_scan s) with
  | (Raise e, s1) => (Raise e, s1)
  | (Ok _, s1) =>
      match scan_installed_applications h s1 with
      | (Raise e, s2) => (Raise e, s2)
      | (Ok _, s2) =>
          match scan_running_processes h s2 with
          | (Raise e, s3) => (Raise e, s3)
          | (Ok _, s3) => generate_report h s3
          end
      end
  end.
Proof. reflexivity. Qed.

Lemma detect_frameworks_ok (h : host) (s : scanner) :
  cli_runs_or_is_missing h -> exists s', detect_frameworks h s = (Ok tt, s').
Proof.
  intros Hcli.
  destruct (detect_java_installations_yields h) as [java Hjava].
  destruct (detect_dotnet_core_yields h Hcli) as [dotnet Hdotnet].
  destruct (detect_sql_databases_yields h) as (? & ? & ? & sql & _ & _ & _ & Hsql & _).
  unfold detect_frameworks. rewrite run_bind.
  destruct (Hjava s) as [s1 ->]. rewrite run_bind.
  destruct (Hdotnet s1) as [s2 ->]. rewrite run_bind.
  destruct (Hsql s2) as [s3 ->]. by eexists.
Qed.

(** C1 -- [scan_all] runs framework detection, then the static scan of
    installed applications, then the scan of running processes, each
    once and each from the state the one before left, and returns the
    report [generate_report] makes of the last state.  What it has
    printed shows the order: its opening line, the lines of framework
    detection closed by the count of frameworks, the opening line of
    the static scan, the opening line of the process scan.  It does
    return when the [dotnet] command runs or is not found, the program
    directories can be probed and the file system raises nothing but
    [OSError]s. *)
Theorem scan_all_phases (h : host) (s : scanner) :
  (forall r s', scan_all h s = (Ok r, s') ->
     exists s1 s2 s3 detection,
       detect_frameworks h (printed Starting_scan s) = (Ok tt, s1)
       /\ scan_installed_applications h s1 = (Ok tt, s2)
       /\ scan_running_processes h s2 = (Ok tt, s3)
       /\ generate_report h s3 = (Ok r, s')
       /\ Forall detection_line detection
       /\ stdout s' =
            stdout s ++ [Starting_scan] ++ detection
            ++ [Found_frameworks (size (installed_frameworks s1));
                Scanning_applications; Scanning_processes])
  /\ (cli_runs_or_is_missing h -> roots_answer h -> walk_raises_only_OSError h ->
      exists r s', scan_all h s = (Ok r, s')).
Proof.
  split.
  - intros r s'. rewrite scan_all_run.
    pose proof (detect_frameworks_run h (printed Starting_scan s)) as H1.
    destruct (detect_frameworks h (printed Starting_scan s)) as [[u1|e] s1] eqn:E1;
      [|discriminate].
    pose proof (scan_installed_applications_grows h s1) as H2.
    destruct (scan_installed_applications h s1) as [[u2|e] s2] eqn:E2; [|discriminate].
    pose proof (scan_running_processes_grows h s2) as H3.
    destruct (scan_running_processes h s2) as [[u3|e] s3] eqn:E3; [|discriminate].
    intros Hrep.
    destruct H1 as (s0 & frameworks & (_ & _ & _ & out & Hout & Hlines) & _ & ->).
    exists (printed (Found_frameworks (size frameworks))
              (with_installed_frameworks frameworks s0)), s2, s3, out.
    destruct u1, u2, u3.
    repeat split; try done.
    assert (s' = s3) as -> by (unfold generate_report in Hrep; congruence).
    destruct H2 as (_ & _ & O2 & _), H3 as (_ & _ & O3 & _).
    simpl in *. rewrite O3, O2, Hout. simpl. by rewrite <- !app_assoc.
  - intros Hcli Hroots Hfs. rewrite scan_all_run.
    destruct (detect_frameworks_ok h (printed Starting_scan s) Hcli) as [s1 ->].
    assert (H2 : (scan_installed_applications h s1).1 = Ok tt).
    { rewrite scan_installed_applications_run.
      apply returns_unit, no_exception_returns, raises_only_for_each.
      intros root Hroot. by apply scan_program_dir_returns. }
    destruct (scan_installed_applications h s1) as [[[]|e] s2]; [|discriminate].
    pose proof (scan_running_processes_ok h s2) as H3.
    destruct (scan_running_processes h s2) as [[[]|e] s3]; [|discriminate].
    unfold generate_report. by eexists _, _.
Qed.

(** C4 -- every record a detector returns, and so every record that is
    stored in [installed_frameworks], has an eol_status field holding
    EOL, Supported or Unknown; and each of the five checks answers one
    of these three for every version text. *)
Theorem framework_records_carry_eol_status (h : host) :
  post (detect_java_installations h) (map_Forall (fun _ => has_eol_status))
  /\ post (detect_dotnet_core h) (map_Forall (fun _ => has_eol_status))
  /\ post (detect_sql_server_instances h) (map_Forall (fun _ => has_eol_status))
  /\ post (detect_mysql_instances h) (map_Forall (fun _ => has_eol_status))
  /\ post (detect_postgresql_instances h) (map_Forall (fun _ => has_eol_status))
  /\ (forall s, map_Forall (fun _ => has_eol_status) (installed_frameworks s) ->
                map_Forall (fun _ => has_eol_status) (installed_frameworks (scan_all h s).2))
  /\ map_Forall (fun _ => has_eol_status) (installed_frameworks (scan_all h init).2)
  /\ (forall v, classification (check_java_eol v)
                /\ classification (check_dotnet_core_eol v)
                /\ classification (check_mssql_eol v)
                /\ classification (check_mysql_eol v)
                /\ classification (check_postgresql_eol v)).
Proof.
  assert (Hall : forall s, map_Forall (fun _ => has_eol_status) (installed_frameworks s) ->
            map_Forall (fun _ => has_eol_status) (installed_frameworks (scan_all h s).2)).
  { intros s Hs. rewrite scan_all_run.
    pose proof (detect_frameworks_run h (printed Starting_scan s)) as H1.
    destruct (detect_frameworks h (printed Starting_scan s)) as [[u1|e] s1] eqn:E1.
    2: { destruct H1 as (_ & _ & F & _). simpl. by rewrite F. }
    destruct H1 as (s0 & frameworks & _ & Heol & ->).
    match goal with |- context [scan_installed_applications h ?s1] => set (s1' := s1) end.
    assert (H1 : map_Forall (fun _ => has_eol_status) (installed_frameworks s1')) by done.
    clearbody s1'.
    pose proof (scan_installed_applications_grows h s1') as (F2 & _).
    destruct (scan_installed_applications h s1') as [[u2|e] s2] eqn:E2; simpl in *.
    2: { by rewrite F2. }
    pose proof (scan_running_processes_grows h s2) as (F3 & _).
    destruct (scan_running_processes h s2) as [[u3|e] s3] eqn:E3; simpl in *.
    all: by rewrite F3, F2. }
  repeat split.
  - intros s d s'. apply detect_java_installations_eol.
  - intros s d s'. apply detect_dotnet_core_eol.
  - intros s d s'. apply detect_sql_server_instances_eol.
  - intros s d s'. apply detect_mysql_instances_eol.
  - intros s d s'. apply detect_postgresql_instances_eol.
  - exact Hall.
  - apply Hall. apply map_Forall_empty.
  - apply check_java_eol_range.
  - apply check_dotnet_core_eol_range.
  - apply check_mssql_eol_range.
  - apply check_mysql_eol_range.
  - apply check_postgresql_eol_range.
Qed.

(** ** Dependency records *)

Lemma static_scan_record_annotated (h : host) (c : string) (r : record) :
  static_scan_record h c r -> annotated c r.
Proof.
  intros (-> & root & item & app & _ & _ & _ & _ & _ & ->).
  pose proof (static_record_fields app item). unfold annotated. intuition.
Qed.

Lemma runtime_scan_record_annotated (c : string) (r : record) :
  runtime_scan_record c r -> annotated c r.
Proof. unfold runtime_scan_record, annotated. intuition. Qed.

Lemma scan_all_records (h : host) (s : scanner) (c : string) (r : record) :
  r ∈ records_of (scan_all h s).2 c -> r ∈ records_of s c \/ annotated c r.
Proof.
  rewrite scan_all_run.
  pose proof (detect_frameworks_run h (printed Starting_scan s)) as H1.
  destruct (detect_frameworks h (printed Starting_scan s)) as [[u1|e] s1] eqn:E1.
  2: { destruct H1 as (D & _). unfold records_of. simpl. rewrite D. by left. }
  assert (D1 : dependencies s1 = dependencies s).
  { destruct H1 as (s0 & frameworks & (D & _) & _ & ->). exact D. }
  clear H1.
  pose proof (scan_installed_applications_grows h s1) as (_ & _ & _ & _ & N2).
  assert (H2 : forall r, r ∈ records_of (scan_installed_applications h s1).2 c ->
                         r ∈ records_of s c \/ annotated c r).
  { intros r' Hr'. destruct (N2 c r' Hr') as [Hold|Hnew].
    - left. unfold records_of in *. simpl in Hold. by rewrite <- D1.
    - right. by eapply static_scan_record_annotated. }
  destruct (scan_installed_applications h s1) as [[u2|e] s2] eqn:E2; simpl in *;
    [|apply H2].
  pose proof (scan_running_processes_grows h s2) as (_ & _ & _ & _ & N3).
  assert (H3 : forall r, r ∈ records_of (scan_running_processes h s2).2 c ->
                         r ∈ records_of s c \/ annotated c r).
  { intros r' Hr'. destruct (N3 c r' Hr') as [Hold|Hnew].
    - apply H2. exact Hold.
    - right. by apply runtime_scan_record_annotated. }
  destruct (scan_running_processes h s2) as [[u3|e] s3] eqn:E3; simpl in *; apply H3.
Qed.

(** C6 (as amended) -- every dependency record the scan appends carries
    confidence high; the records of the scan of running processes (in the
    categories dotnet_runtime and java_runtime) carry status running as
    well, and the records of the static scan (category java) have no
    status field. *)
Theorem dependency_records_annotations (h : host) (s : scanner) (c : string) (r : record) :
  r ∈ records_of (scan_all h s).2 c ->
  r ∈ records_of s c
  \/ (r !! "confidence" = Some (PStr "high")
      /\ ((c = "java"
           /\ r !! "detection_method" = Some (PStr "static_analysis")
           /\ r !! "status" = None)
          \/ ((c = "dotnet_runtime" \/ c = "java_runtime")
              /\ r !! "detection_method" = Some (PStr "runtime_analysis")
              /\ r !! "status" = Some (PStr "running")))).
Proof. apply scan_all_records. Qed.

Lemma host_one_jar_record :
  static_record "App" ["C:\"; "Program Files"; "App"; "lib.jar"]
    ∈ records_of (scan_all host_one_jar init).2 "java".
Proof. apply (bool_decide_unpack _). vm_compute. exact I. Defined.

Lemma dependency_records_annotations_witness :
  let r := static_record "App" ["C:\"; "Program Files"; "App"; "lib.jar"] in
  r ∈ records_of init "java"
  \/ (r !! "confidence" = Some (PStr "high")
      /\ (("java" = "java"
           /\ r !! "detection_method" = Some (PStr "static_analysis")
           /\ r !! "status" = None)
          \/ (("java" = "dotnet_runtime" \/ "java" = "java_runtime")
              /\ r !! "detection_method" = Some (PStr "runtime_analysis")
              /\ r !! "status" = Some (PStr "running")))).
Proof.
  exact (dependency_records_annotations host_one_jar init "java" _ host_one_jar_record).
Defined.

(** C6 (as stated) fails: on a host with one jar under Program Files
    the static scan appends a record that has no status field. *)
Lemma static_record_has_no_status :
  ~ (forall c r, r ∈ records_of (scan_all host_one_jar init).2 c ->
                 is_Some (r !! "confidence") /\ is_Some (r !! "status")).
Proof.
  intros H. destruct (H _ _ host_one_jar_record) as [_ [v Hv]].
  pose proof (static_record_fields "App" ["C:\"; "Program Files"; "App"; "lib.jar"]) as F.
  destruct F as (_ & _ & _ & _ & _ & F). congruence.
Qed.

(** ** The report *)

Lemma sum_of_lengths_concat (deps : gmap string (list record)) :
  sum_of_lengths deps = length (concat (map_to_list deps).*2).
Proof.
  unfold sum_of_lengths. rewrite map_fold_foldr.
  induction (map_to_list deps) as [|[k d] l IH]; simpl; [done|].
  rewrite length_app, IH. apply Nat.add_comm.
Qed.

(** C7 -- [generate_report] returns, leaves the scanner as it is, and
    puts the two aggregates into the report unchanged; its summary
    counts the keys of the frameworks map and the dependency records of
    all categories together. *)
Theorem generate_report_serializes (h : host) (s : scanner) :
  exists r,
    generate_report h s = (Ok r, s)
    /\ report_installed_frameworks r = installed_frameworks s
    /\ report_dependencies r = dependencies s
    /\ frameworks_found (report_scan_summary r) = size (dom (installed_frameworks s))
    /\ dependencies_found (report_scan_summary r)
       = length (concat (map_to_list (dependencies s)).*2)
    /\ (forall c, report_dependencies r !! c = dependencies s !! c).
Proof.
  eexists. split; [reflexivity|]. simpl. repeat split.
  - by rewrite size_dom.
  - apply sum_of_lengths_concat.
Qed.

(** ** A detector that lets an exception out *)

(** C5 (where the code departs from it) -- when the [dotnet] command
    does not answer in time, [subprocess.run] raises [TimeoutExpired],
    which the [except FileNotFoundError] clause of [detect_dotnet_core]
    does not catch: the exception leaves the detector, leaves
    [detect_frameworks] and [scan_all], and the two later phases never
    start.  The four other detectors, whose clause is
    [except Exception], return on every host. *)
Theorem detect_dotnet_core_timeout_escapes :
  detect_dotnet_core host_cli_timeout init = (Raise TimeoutExpired, init)
  /\ (detect_frameworks host_cli_timeout init).1 = Raise TimeoutExpired
  /\ (scan_all host_cli_timeout init).1 = Raise TimeoutExpired
  /\ stdout (scan_all host_cli_timeout init).2 = [Starting_scan; Info_java FileNotFoundError]
  /\ (forall h, (exists java, yields (detect_java_installations h) java)
                /\ (exists mssql, yields (detect_sql_server_instances h) mssql)
                /\ (exists mysql, yields (detect_mysql_instances h) mysql)
                /\ (exists postgres, yields (detect_postgresql_instances h) postgres))
  /\ (forall h s e, run_dotnet_list_runtimes h = Raise e -> e <> FileNotFoundError ->
                    detect_dotnet_core h s = (Raise e, s)).
Proof.
  split; [by vm_compute|]. split; [by vm_compute|].
  split; [by vm_compute|]. split; [by vm_compute|].
  split.
  - intros h. auto using detect_java_installations_yields,
      detect_sql_server_instances_yields, detect_mysql_instances_yields,
      detect_postgresql_instances_yields.
  - intros h s e. apply detect_dotnet_core_raises.
Qed.

(** ** The pattern of the shared runtime *)

Lemma literal_spec (p s r : string) : Re.literal p s = Some r <-> s = p +:+ r.
Proof.
  revert s. induction p as [|a p IH]; intros s; simpl.
  - rewrite append_nil. split; congruence.
  - destruct s as [|b s]; rewrite append_cons.
    + split; discriminate.
    + destruct (Ascii.eqb_spec a b) as [->|Hne].
      * rewrite IH. split; congruence.
      * split; [discriminate | congruence].
Qed.

Lemma literal_app (p r : string) : Re.literal p (p +:+ r) = Some r.
Proof. by apply literal_spec. Qed.

Lemma span_spec (f : ascii -> bool) (s : string) :
  s = (Re.span f s).1 +:+ (Re.span f s).2
  /\ all_chars f (Re.span f s).1
  /\ stops f (Re.span f s).2.
Proof.
  induction s as [|c r (IH1 & IH2 & IH3)]; simpl; [done|].
  destruct (f c) eqn:E; simpl.
  - rewrite append_cons, <- IH1. done.
  - rewrite append_nil. simpl. done.
Qed.

Lemma span_app (f : ascii -> bool) (a r : string) :
  all_chars f a -> stops f r -> Re.span f (a +:+ r) = (a, r).
Proof.
  intros Ha Hr. induction a as [|c a IH].
  - rewrite append_nil. destruct r as [|c r]; simpl in *; [done|]. by rewrite Hr.
  - destruct Ha as [Hc Ha]. rewrite append_cons. simpl. rewrite Hc, (IH Ha). done.
Qed.

Lemma plus_spec (f : ascii -> bool) (s a r : string) :
  Re.plus f s = Some (a, r) ->
  s = a +:+ r /\ a <> EmptyString /\ all_chars f a /\ stops f r.
Proof.
  unfold Re.plus. destruct (span_spec f s) as (H1 & H2 & H3).
  destruct (Re.span f s) as [a' r']. simpl in *.
  destruct a' as [|c a']; [discriminate|].
  intros [= <- <-]. done.
Qed.

Lemma plus_app (f : ascii -> bool) (a r : string) :
  a <> EmptyString -> all_chars f a -> stops f r -> Re.plus f (a +:+ r) = Some (a, r).
Proof.
  intros Hne Ha Hr. unfold Re.plus. rewrite (span_app f a r Ha Hr).
  by destruct a.
Qed.

Lemma search_sound {A} (match_at : string -> option A) (s : string) (x : A) :
  Re.search match_at s = Some x ->
  exists pre rest, s = pre +:+ rest /\ match_at rest = Some x.
Proof.
  induction s as [|c s IH]; simpl.
  - destruct (match_at EmptyString) eqn:E; [|discriminate].
    intros [= <-]. by exists EmptyString, EmptyString.
  - destruct (match_at (String c s)) eqn:E.
    + intros [= <-]. by exists EmptyString, (String c s).
    + intros H. destruct (IH H) as (pre & rest & -> & Hm).
      by exists (String c pre), rest.
Qed.

Lemma search_complete {A} (match_at : string -> option A) (pre rest : string) :
  is_Some (match_at rest) -> is_Some (Re.search match_at (pre +:+ rest)).
Proof.
  intros [x Hx]. induction pre as [|c pre IH].
  - rewrite ?append_nil. destruct rest; simpl; rewrite Hx; done.
  - rewrite ?append_cons. simpl.
    destruct (match_at (String c (pre +:+ rest))); [by eexists | exact IH].
Qed.

Lemma not_backslash_chars (s : string) :
  all_chars Re.not_backslash s <-> ~ has_char "\" s.
Proof.
  induction s as [|c s IH]; simpl; [tauto|].
  unfold Re.not_backslash at 1. rewrite negb_true_iff.
  destruct (Ascii.eqb_spec c "\"); split; intros H; try tauto.
  destruct H; discriminate.
Qed.

#[local] Arguments Re.literal : simpl never.
#[local] Arguments Re.plus : simpl never.

(** What the pattern matches at the start of a text. *)
Lemma coreclr_at_sound (s g1 g2 : string) :
  Re.coreclr_at s = Some (g1, g2) ->
  exists kind post,
    (kind = "netcore" \/ kind = "aspnetcore")
    /\ g1 = "microsoft." +:+ kind +:+ ".app"
    /\ g2 <> EmptyString /\ ~ has_char "\" g2
    /\ s = "\dotnet\shared\microsoft." +:+ kind +:+ ".app\" +:+ g2 +:+ "\coreclr.dll" +:+ post.
Proof.
  unfold Re.coreclr_at.
  destruct (Re.literal "\dotnet\shared\" s) as [r1|] eqn:E1; [|discriminate].
  apply literal_spec in E1 as ->. simpl.
  assert (Hkind : forall kind r2,
    Re.literal ("microsoft." +:+ kind +:+ ".app") r1 = Some r2 ->
    (kind = "netcore" \/ kind = "aspnetcore") ->
    (r3 ← Re.literal "\" r2 ; '(g2', r4) ← Re.plus Re.not_backslash r3 ;
     _ ← Re.literal "\coreclr.dll" r4 ; Some ("microsoft." +:+ kind +:+ ".app", g2'))
      = Some (g1, g2) ->
    exists kind post,
      (kind = "netcore" \/ kind = "aspnetcore")
      /\ g1 = "microsoft." +:+ kind +:+ ".app"
      /\ g2 <> EmptyString /\ ~ has_char "\" g2
      /\ "\dotnet\shared\" +:+ r1
         = "\dotnet\shared\microsoft." +:+ kind +:+ ".app\" +:+ g2 +:+ "\coreclr.dll" +:+ post).
  { intros kind r2 E2 Hk. apply literal_spec in E2 as ->.
    destruct (Re.literal "\" r2) as [r3|] eqn:E3; [|discriminate].
    apply literal_spec in E3 as ->. simpl.
    destruct (Re.plus Re.not_backslash r3) as [[g2' r4]|] eqn:E4; [|discriminate].
    apply plus_spec in E4 as (-> & Hne & Hall & _). simpl.
    destruct (Re.literal "\coreclr.dll" r4) as [post|] eqn:E5; [|discriminate].
    apply literal_spec in E5 as ->. simpl. intros [= <- <-].
    exists kind, post. split; [done|]. split; [done|]. split; [done|].
    split; [by apply not_backslash_chars|].
    destruct Hk as [-> | ->]; reflexivity. }
  destruct (Re.literal "microsoft.netcore.app" r1) as [r2|] eqn:E2.
  - simpl. apply (Hkind "netcore" r2); [exact E2 | by left].
  - destruct (Re.literal "microsoft.aspnetcore.app" r1) as [r2|] eqn:E2'; [|discriminate].
    simpl. apply (Hkind "aspnetcore" r2); [exact E2' | by right].
Qed.

(** Where the pattern is, the matcher finds it. *)
Lemma coreclr_at_complete (kind version post : string) :
  (kind = "netcore" \/ kind = "aspnetcore") ->
  version <> EmptyString -> ~ has_char "\" version ->
  Re.coreclr_at ("\dotnet\shared\microsoft." +:+ kind +:+ ".app\" +:+ version
                 +:+ "\coreclr.dll" +:+ post)
  = Some ("microsoft." +:+ kind +:+ ".app", version).
Proof.
  intros Hk Hne Hfree. apply not_backslash_chars in Hfree.
  assert (Hplus : Re.plus Re.not_backslash (version +:+ "\coreclr.dll" +:+ post)
                  = Some (version, "\coreclr.dll" +:+ post)).
  { apply plus_app; try done. }
  unfold Re.coreclr_at.
  destruct Hk as [-> | ->].
  - change ("\dotnet\shared\microsoft." +:+ "netcore" +:+ ".app\" +:+ version
            +:+ "\coreclr.dll" +:+ post)
      with ("\dotnet\shared\" +:+ "microsoft.netcore.app" +:+ "\" +:+ version
            +:+ "\coreclr.dll" +:+ post).
    repeat (rewrite ?literal_app, ?append_nil, ?Hplus; simpl). reflexivity.
  - change ("\dotnet\shared\microsoft." +:+ "aspnetcore" +:+ ".app\" +:+ version
            +:+ "\coreclr.dll" +:+ post)
      with ("\dotnet\shared\" +:+ "microsoft.aspnetcore.app" +:+ "\" +:+ version
            +:+ "\coreclr.dll" +:+ post).
    rewrite literal_app. simpl.
    replace (Re.literal "microsoft.netcore.app"
               ("microsoft.aspnetcore.app" +:+ "\" +:+ version +:+ "\coreclr.dll" +:+ post))
      with (@None string) by reflexivity.
    repeat (rewrite ?literal_app, ?append_nil, ?Hplus; simpl). reflexivity.
Qed.

(** [re.search] with the pattern finds a match exactly in the texts that
    hold the pattern, and what it finds is an occurrence of it. *)
Lemma search_coreclr_sound (s g1 g2 : string) :
  Re.search Re.coreclr_at s = Some (g1, g2) ->
  exists kind, g1 = "microsoft." +:+ kind +:+ ".app" /\ matches_coreclr s kind g2.
Proof.
  intros H. apply search_sound in H as (pre & rest & -> & H).
  apply coreclr_at_sound in H as (kind & post & Hk & -> & Hne & Hfree & ->).
  exists kind. split; [done|]. unfold matches_coreclr.
  split; [done|]. split; [done|]. split; [done|]. by exists pre, post.
Qed.

Lemma search_coreclr_complete (s kind version : string) :
  matches_coreclr s kind version -> is_Some (Re.search Re.coreclr_at s).
Proof.
  intros (Hk & Hne & Hfree & pre & post & ->).
  apply search_complete. rewrite coreclr_at_complete; done.
Qed.

Lemma search_coreclr_none (s : string) :
  Re.search Re.coreclr_at s = None <-> forall kind version, ~ matches_coreclr s kind version.
Proof.
  split.
  - intros H kind version Hm. apply search_coreclr_complete in Hm as [x Hx]. congruence.
  - intros H. destruct (Re.search Re.coreclr_at s) as [[g1 g2]|] eqn:E; [|done].
    apply search_coreclr_sound in E as (kind & _ & Hm). by destruct (H kind g2).
Qed.

(** ** The version inferred from the loaded modules *)

(** What a module decides: a match of the pattern gives the version and
    the kind; failing that, a self-contained runtime gives the name of
    the process; else the module decides nothing. *)
Lemma dotnet_version_of_module_spec (proc : process) (dll : string) :
  ((exists kind version, matches_coreclr (Py.lower dll) kind version) ->
   exists kind version,
     matches_coreclr (Py.lower dll) kind version
     /\ dotnet_version_of_module proc dll = Ok (Some (version +:+ " (" +:+ kind +:+ ")")))
  /\ ((forall kind version, ~ matches_coreclr (Py.lower dll) kind version) ->
      dotnet_version_of_module proc dll =
      Ok (if self_contained_module dll
          then Some ("Self-Contained (" +:+ format_opt (proc_name proc) +:+ ")")
          else None)).
Proof.
  unfold dotnet_version_of_module, self_contained_module. split.
  - intros (kind & version & Hm). apply search_coreclr_complete in Hm as [[g1 g2] Hs].
    rewrite Hs. apply search_coreclr_sound in Hs as (kind' & -> & Hm').
    exists kind', g2. split; [done|].
    destruct Hm' as ([-> | ->] & _); reflexivity.
  - intros Hno. apply search_coreclr_none in Hno. rewrite Hno.
    by destruct (_ && _).
Qed.

Lemma first_dotnet_module_skips (proc : process) (before rest : list string) :
  (forall d, d ∈ before -> dotnet_version_of_module proc d = Ok None) ->
  first_dotnet_module proc (before ++ rest) = first_dotnet_module proc rest.
Proof.
  induction before as [|d before IH]; intros H; simpl; [done|].
  rewrite (H d) by (by left). simpl. apply IH. intros d' Hd'. apply H. by right.
Qed.

Lemma undecided_module (proc : process) (dll : string) :
  undecided dll -> dotnet_version_of_module proc dll = Ok None.
Proof.
  intros [Hno Hself].
  rewrite (proj2 (dotnet_version_of_module_spec proc dll) Hno). by rewrite Hself.
Qed.

(** C2 (as amended) -- the loop of
    [get_dotnet_core_version_from_process] stops at the first module
    that decides, and a module decides in one of two ways.  If its
    lower-cased path holds the pattern
    \dotnet\shared\microsoft.(netcore|aspnetcore).app\VERSION\coreclr.dll,
    the result is the text VERSION (netcore) or VERSION (aspnetcore) of
    an occurrence of the pattern, with the module's path.  If it does
    not, but holds coreclr.dll and does not hold microsoft.net, the
    result is Self-Contained (NAME), NAME the process's, with the
    module's path.  When no module decides the result is (None, None). *)
Theorem get_dotnet_core_version_first_deciding_module (proc : process) (dlls : list string) :
  proc_memory_maps proc = Ok dlls ->
  ((forall dll, dll ∈ dlls -> undecided dll) ->
   get_dotnet_core_version_from_process proc = Ok (None, None))
  /\ (forall before dll after,
        dlls = before ++ dll :: after ->
        (forall d, d ∈ before -> undecided d) ->
        ((exists kind version, matches_coreclr (Py.lower dll) kind version) ->
         exists kind version,
           matches_coreclr (Py.lower dll) kind version
           /\ get_dotnet_core_version_from_process proc
              = Ok (Some (version +:+ " (" +:+ kind +:+ ")"), Some dll))
        /\ ((forall kind version, ~ matches_coreclr (Py.lower dll) kind version) ->
            self_contained_module dll = true ->
            get_dotnet_core_version_from_process proc
            = Ok (Some ("Self-Contained (" +:+ format_opt (proc_name proc) +:+ ")"),
                  Some dll))).
Proof.
  intros Hmaps. unfold get_dotnet_core_version_from_process. rewrite Hmaps. simpl.
  split.
  - intros Hall.
    rewrite <- (app_nil_r dlls), first_dotnet_module_skips; [done|].
    intros d Hd. by apply undecided_module, Hall.
  - intros before dll after -> Hbefore.
    rewrite first_dotnet_module_skips
      by (intros d Hd; by apply undecided_module, Hbefore).
    simpl. split.
    + intros Hm.
      destruct (proj1 (dotnet_version_of_module_spec proc dll) Hm)
        as (kind & version & Hm' & ->).
      by exists kind, version.
    + intros Hno Hself.
      rewrite (proj2 (dotnet_version_of_module_spec proc dll) Hno), Hself. done.
Qed.

Lemma get_dotnet_core_version_first_deciding_module_witness :
  let dlls := ["C:\Windows\System32\ntdll.dll";
               "C:\Program Files\dotnet\shared\Microsoft.NETCore.App\6.0.25\coreclr.dll"] in
  ((forall dll, dll ∈ dlls -> undecided dll) ->
   get_dotnet_core_version_from_process shop_process = Ok (None, None))
  /\ (forall before dll after,
        dlls = before ++ dll :: after ->
        (forall d, d ∈ before -> undecided d) ->
        ((exists kind version, matches_coreclr (Py.lower dll) kind version) ->
         exists kind version,
           matches_coreclr (Py.lower dll) kind version
           /\ get_dotnet_core_version_from_process shop_process
              = Ok (Some (version +:+ " (" +:+ kind +:+ ")"), Some dll))
        /\ ((forall kind version, ~ matches_coreclr (Py.lower dll) kind version) ->
            self_contained_module dll = true ->
            get_dotnet_core_version_from_process shop_process
            = Ok (Some ("Self-Contained (" +:+ format_opt (proc_name shop_process) +:+ ")"),
                  Some dll))).
Proof.
  exact (get_dotnet_core_version_first_deciding_module shop_process _ eq_refl).
Defined.

Example shop_process_version :
  get_dotnet_core_version_from_process shop_process
  = Ok (Some "6.0.25 (netcore)",
        Some "C:\Program Files\dotnet\shared\Microsoft.NETCore.App\6.0.25\coreclr.dll").
Proof. reflexivity. Qed.

(** C2 (as stated) fails: no module of the self-contained program holds
    the pattern, and yet the result is not (None, None). *)
Lemma self_contained_is_not_none :
  proc_memory_maps self_contained_process
  = Ok ["C:\Windows\System32\ntdll.dll"; "C:\Kiosk\coreclr.dll"]
  /\ (forall dll, dll ∈ ["C:\Windows\System32\ntdll.dll"; "C:\Kiosk\coreclr.dll"] ->
        forall kind version, ~ matches_coreclr (Py.lower dll) kind version)
  /\ get_dotnet_core_version_from_process self_contained_process
     = Ok (Some "Self-Contained (kiosk.exe)", Some "C:\Kiosk\coreclr.dll")
  /\ get_dotnet_core_version_from_process self_contained_process <> Ok (None, None).
Proof.
  split; [reflexivity|]. split; [|split; [reflexivity | discriminate]].
  intros dll H. apply search_coreclr_none.
  repeat (apply elem_of_cons in H as [-> | H]); [reflexivity | reflexivity |].
  by apply elem_of_nil in H.
Qed.

(** A self-contained module that comes first also hides a shared
    runtime loaded after it. *)
Example self_contained_module_comes_first :
  first_dotnet_module self_contained_process
    ["C:\Kiosk\coreclr.dll";
     "C:\Program Files\dotnet\shared\Microsoft.NETCore.App\6.0.25\coreclr.dll"]
  = Ok (Some "Self-Contained (kiosk.exe)", Some "C:\Kiosk\coreclr.dll").
Proof. reflexivity. Qed.

(* ===================================================================== *)
(** * Further properties of the code                                     *)
(* ===================================================================== *)

(** ** The scan only appends *)

#[local] Instance extends_in_preorder (cats : list string) : PreOrder (extends_in cats).
Proof.
  split.
  - intros s. by repeat split.
  - intros s1 s2 s3 (P12 & K12 & F12) (P23 & K23 & F23). repeat split.
    + congruence.
    + intros c. etransitivity; [apply K12 | apply K23].
    + intros c Hc. rewrite F23, F12; done.
Qed.

Lemma extends_in_appended (cats : list string) (c : string) (r : record) (s : scanner) :
  c ∈ cats -> extends_in cats s (appended c r s).
Proof.
  intros Hc. repeat split.
  - intros c'. rewrite records_of_appended.
    destruct (decide (c' = c)) as [->|]; [|done]. by apply prefix_app_r.
  - intros c' Hc'. simpl. apply lookup_insert_ne. intros ->. by apply Hc'.
Qed.

Lemma extends_in_printed (cats : list string) (l : line) (s : scanner) :
  extends_in cats s (printed l s).
Proof. by repeat split. Qed.

Lemma extends_in_weaken (cats cats' : list string) (s s' : scanner) :
  cats ⊆ cats' -> extends_in cats s s' -> extends_in cats' s s'.
Proof.
  intros Hsub (P & K & F). repeat split; try done.
  intros c Hc. apply F. intros Hin. by apply Hc, Hsub.
Qed.

Lemma scan_item_always (h : host) (R : relation scanner) `{!PreOrder R}
    (recurse : Path.t -> M unit) (item : Path.t) :
  (forall app s, R s (appended "java" (static_record app item) s)) ->
  always R (recurse item) ->
  always R (scan_item h recurse item).
Proof.
  intros Happ Hrec. unfold scan_item. always_tac; try exact Hrec.
  intros s. destruct (analyze_file_dependencies_appends item s) as (app & _ & ->).
  apply Happ.
Qed.

Lemma scan_levels_always (h : host) (R : relation scanner) `{!PreOrder R}
    (n : nat) (directory : Path.t) :
  (forall app item s, R s (appended "java" (static_record app item) s)) ->
  always R (scan_levels h n directory).
Proof.
  intros Happ. revert directory. induction n as [|n IH]; intros directory; simpl.
  - apply always_ret; apply _.
  - always_tac. apply scan_item_always; [apply _ | intros app s; apply Happ | apply IH].
Qed.

Lemma scan_installed_applications_extends (h : host) :
  always (extends_in ["java"]) (scan_installed_applications h).
Proof.
  unfold scan_installed_applications.
  apply always_bind; [apply _ | intros s; apply extends_in_printed | intros _].
  apply always_for_each; [apply _|]. intros root _. unfold scan_program_dir.
  always_tac. apply scan_levels_always; [apply _|].
  intros app item st. apply extends_in_appended. set_solver.
Qed.

Lemma analyze_running_process_extends (proc : process) :
  always (extends_in ["dotnet_runtime"; "java_runtime"]) (analyze_running_process proc).
Proof.
  unfold analyze_running_process. always_tac.
  all: intros st; apply extends_in_appended; set_solver.
Qed.

Lemma scan_running_processes_extends (h : host) :
  always (extends_in ["dotnet_runtime"; "java_runtime"]) (scan_running_processes h).
Proof.
  unfold scan_running_processes.
  apply always_bind; [apply _ | intros s; apply extends_in_printed | intros _].
  apply always_for_each; [apply _|]. intros proc _. unfold scan_process.
  always_tac. apply analyze_running_process_extends.
Qed.

Lemma detect_frameworks_extends (h : host) :
  always (extends_in []) (detect_frameworks h).
Proof.
  intros s. pose proof (detect_frameworks_run h s) as H.
  destruct (detect_frameworks h s) as [[u|e] s1]; simpl.
  - destruct H as (s0 & frameworks & (D & P & _) & _ & ->).
    repeat split; simpl; try done.
    intros c. unfold records_of. simpl. by rewrite D.
    intros c _. by rewrite D.
  - destruct H as (D & P & _). repeat split; try done.
    intros c. unfold records_of. by rewrite D.
    intros c _. by rewrite D.
Qed.

(** X1 -- the scan only ever appends.  Through the whole of [scan_all],
    returning or raising, every record that was in a category stays
    where it was, new records come behind it, and [running_processes]
    is never written.  The static scan touches the category java alone,
    the process scan dotnet_runtime and java_runtime alone; a category
    outside these three is not even created. *)
Theorem scan_only_appends (h : host) (s : scanner) :
  let s' := (scan_all h s).2 in
  running_processes s' = running_processes s
  /\ (forall c, records_of s c `prefix_of` records_of s' c)
  /\ (forall c, c ∉ ["java"; "dotnet_runtime"; "java_runtime"] ->
                dependencies s' !! c = dependencies s !! c)
  /\ (forall s0 c, c <> "java" ->
        dependencies (scan_installed_applications h s0).2 !! c = dependencies s0 !! c)
  /\ (forall s0 c, c <> "dotnet_runtime" -> c <> "java_runtime" ->
        dependencies (scan_running_processes h s0).2 !! c = dependencies s0 !! c).
Proof.
  assert (Hall : always (extends_in ["java"; "dotnet_runtime"; "java_runtime"]) (scan_all h)).
  { unfold scan_all.
    apply always_bind; [apply _ | intros s0; apply extends_in_printed | intros _].
    apply always_bind; [apply _ | | intros _].
    { intros s0. eapply extends_in_weaken; [|apply detect_frameworks_extends].
      intros c Hc. by apply elem_of_nil in Hc. }
    apply always_bind; [apply _ | | intros _].
    { intros s0. eapply extends_in_weaken; [|apply scan_installed_applications_extends].
      intros c ->%list_elem_of_singleton. by left. }
    apply always_bind; [apply _ | | intros _].
    { intros s0. eapply extends_in_weaken; [|apply scan_running_processes_extends].
      intros c Hc. by right. }
    intros s0. reflexivity. }
  destruct (Hall s) as (P & K & F). simpl.
  split; [exact P|]. split; [exact K|]. split; [exact F|]. split.
  - intros s0 c Hc. destruct (scan_installed_applications_extends h s0) as (_ & _ & F').
    apply F'. by intros ->%list_elem_of_singleton.
  - intros s0 c Hc1 Hc2. destruct (scan_running_processes_extends h s0) as (_ & _ & F').
    apply F'. intros Hin. apply elem_of_cons in Hin as [->|Hin]; [done|].
    by apply list_elem_of_singleton in Hin.
Qed.

(** ** Framework detection starts afresh *)

Lemma bare_host_cli : cli_runs_or_is_missing bare_host.
Proof. intros e H. by injection H as <-. Defined.

(** X2 -- [detect_frameworks] does not accumulate.  When the [dotnet]
    command runs or is not found, the map it stores is the same from
    whatever state it is called: what [installed_frameworks] held
    before is dropped, not merged.  The dependency records and
    [running_processes] are left alone, and the last line printed is
    the count of the stored map. *)
Theorem detect_frameworks_overwrites (h : host) :
  cli_runs_or_is_missing h ->
  exists frameworks, forall s, exists s',
    detect_frameworks h s = (Ok tt, s')
    /\ installed_frameworks s' = frameworks
    /\ dependencies s' = dependencies s
    /\ running_processes s' = running_processes s
    /\ last (stdout s') = Some (Found_frameworks (size frameworks)).
Proof.
  intros Hcli.
  destruct (detect_java_installations_yields h) as [java Hjava].
  destruct (detect_dotnet_core_yields h Hcli) as [dotnet Hdotnet].
  destruct (detect_sql_databases_yields h) as (? & ? & ? & sql & _ & _ & _ & Hsql & _).
  exists (dict_update (dict_update (dict_update ∅ java) dotnet) sql). intros s.
  pose proof (detect_java_installations_prints h s) as (D1 & P1 & _).
  unfold detect_frameworks. rewrite run_bind.
  destruct (Hjava s) as [s1 E1]. rewrite E1 in *. simpl in D1, P1. rewrite run_bind.
  pose proof (detect_dotnet_core_prints h s1) as (D2 & P2 & _).
  destruct (Hdotnet s1) as [s2 E2]. rewrite E2 in *. simpl in D2, P2. rewrite run_bind.
  pose proof (detect_sql_databases_prints h s2) as (D3 & P3 & _).
  destruct (Hsql s2) as [s3 E3]. rewrite E3 in *. simpl in D3, P3.
  eexists. split; [reflexivity|]. simpl.
  split; [done|]. split; [congruence|]. split; [congruence|].
  by rewrite last_snoc.
Qed.

Lemma detect_frameworks_overwrites_witness :
  exists frameworks, forall s, exists s',
    detect_frameworks bare_host s = (Ok tt, s')
    /\ installed_frameworks s' = frameworks
    /\ dependencies s' = dependencies s
    /\ running_processes s' = running_processes s
    /\ last (stdout s') = Some (Found_frameworks (size frameworks)).
Proof. exact (detect_frameworks_overwrites bare_host bare_host_cli). Defined.

(** ** Running processes *)

(** [subprocess.run] is called with [capture_output=True] and with
    [stderr=] at once, which it refuses with a [ValueError] before it
    starts anything; the [except Exception] clause swallows it. *)
Lemma detect_java_version_unknown (proc : process) :
  detect_java_version_from_process proc = ("Unknown", proc_exe proc).
Proof.
  unfold detect_java_version_from_process.
  destruct (proc_exe proc) as [exe|]; [|done].
  by destruct (Py.truthy exe).
Qed.

Lemma dotnet_version_of_module_ok (proc : process) (dll : string) :
  exists decided, dotnet_version_of_module proc dll = Ok decided.
Proof.
  destruct (Re.search Re.coreclr_at (Py.lower dll)) as [[g1 g2]|] eqn:E.
  - destruct (proj1 (dotnet_version_of_module_spec proc dll)) as (kind & version & _ & ->).
    + apply search_coreclr_sound in E as (kind & _ & Hm). eauto.
    + eauto.
  - pose proof (proj1 (search_coreclr_none _) E) as Hno.
    rewrite (proj2 (dotnet_version_of_module_spec proc dll) Hno). eauto.
Qed.

Lemma first_dotnet_module_ok (proc : process) (dlls : list string) :
  exists r, first_dotnet_module proc dlls = Ok r.
Proof.
  induction dlls as [|dll dlls IH]; simpl; [eauto|].
  destruct (dotnet_version_of_module_ok proc dll) as [[v|] ->]; simpl; eauto.
Qed.

(** The version lookup raises exactly what [memory_maps()] raises and
    its clause does not catch. *)
Lemma get_dotnet_core_version_raises (proc : process) (e : exn) :
  get_dotnet_core_version_from_process proc = Raise e <->
  proc_memory_maps proc = Raise e /\ except_NoSuchProcess_AccessDenied e = false.
Proof.
  unfold get_dotnet_core_version_from_process.
  destruct (proc_memory_maps proc) as [dlls|e'] eqn:E; simpl.
  - destruct (first_dotnet_module_ok proc dlls) as [r ->].
    split; [discriminate | intros [? _]; discriminate].
  - destruct (except_NoSuchProcess_AccessDenied e') eqn:Ec.
    + split; [discriminate | intros [[= ->] ?]; congruence].
    + split; [intros [= ->]; done | intros [[= ->] _]; done].
Qed.

Lemma truthy_spec (s : string) : Py.truthy s = true <-> s <> EmptyString.
Proof. destruct s; simpl; split; congruence. Qed.

(** X4 -- what [analyze_running_process] does with one process.  It
    never raises.  A process without an executable path adds nothing.
    When [memory_maps()] raises anything but [AccessDenied] or
    [NoSuchProcess], the whole analysis is given up: nothing is added,
    not even the Java record of a Java virtual machine.  When it raises
    one of those two, the .NET lookup answers (None, None) and the
    analysis goes on: a process named java.exe or javaw.exe (in any
    case of letters) gets its java_runtime record, whose version is
    always Unknown. *)
Theorem analyze_running_process_outcomes (proc : process) (s : scanner) :
  (analyze_running_process proc s).1 = Ok tt
  /\ (Py.truthy_opt (proc_exe proc) = false ->
      analyze_running_process proc s = (Ok tt, s))
  /\ (forall e, proc_memory_maps proc = Raise e ->
        except_NoSuchProcess_AccessDenied e = false ->
        analyze_running_process proc s = (Ok tt, s))
  /\ (forall e, proc_memory_maps proc = Raise e ->
        except_NoSuchProcess_AccessDenied e = true ->
        get_dotnet_core_version_from_process proc = Ok (None, None))
  /\ (forall exe, proc_exe proc = Some exe -> exe <> EmptyString ->
        get_dotnet_core_version_from_process proc = Ok (None, None) ->
        analyze_running_process proc s =
        (Ok tt,
         if is_java_process proc
         then appended "java_runtime"
                (runtime_record proc exe "Java Runtime Unknown" (Some exe)) s
         else s))
  /\ (is_java_process proc = true <->
      exists name, proc_name proc = Some name
                   /\ (Py.lower name = "java.exe" \/ Py.lower name = "javaw.exe")).
Proof.
  split; [|split; [|split; [|split; [|split]]]].
  - apply returns_unit, no_exception_returns, analyze_running_process_returns.
  - intros Hexe. unfold analyze_running_process, try_except. by rewrite Hexe.
  - intros e Hmaps Hc. unfold analyze_running_process, try_except.
    destruct (Py.truthy_opt (proc_exe proc)); [|done].
    rewrite run_bind. unfold lift.
    rewrite (proj2 (get_dotnet_core_version_raises proc e) (conj Hmaps Hc)). done.
  - intros e Hmaps Hc. unfold get_dotnet_core_version_from_process.
    rewrite Hmaps. simpl. by rewrite Hc.
  - intros exe Hexe Hne Hget. unfold analyze_running_process, try_except.
    rewrite Hexe. simpl. rewrite (proj2 (truthy_spec exe) Hne).
    rewrite run_bind. unfold lift. rewrite Hget. simpl.
    rewrite detect_java_version_unknown, Hexe.
    by destruct (is_java_process proc).
  - unfold is_java_process. destruct (proc_name proc) as [name|]; simpl.
    + rewrite bool_decide_eq_true. split.
      * intros Hin. exists name. split; [done|].
        apply elem_of_cons in Hin as [->|Hin]; [by left|].
        apply list_elem_of_singleton in Hin. by right.
      * intros (name' & [= <-] & [-> | ->]); [by left | right; by left].
    + split; [discriminate | intros (name & ? & _); discriminate].
Qed.

Lemma analyze_running_process_records (h : host) (proc : process) :
  proc ∈ process_iter h ->
  always (grows_by (process_record h)) (analyze_running_process proc).
Proof.
  intros Hproc. unfold analyze_running_process.
  apply always_try_except; [apply _ | | intros _; apply always_ret; apply _].
  destruct (proc_exe proc) as [exe|] eqn:Hexe; simpl; [|apply always_ret; apply _].
  destruct (Py.truthy exe) eqn:Htruthy; [|apply always_ret; apply _].
  apply truthy_spec in Htruthy.
  eapply always_bind_post; [apply _ | apply post_lift | apply always_lift; apply _ |].
  intros [version dll] Hget. cbv beta in Hget.
  apply always_bind; [apply _ | | intros _].
  - destruct version as [version|]; simpl; [|apply always_ret; apply _].
    destruct (Py.truthy version); [|apply always_ret; apply _].
    apply always_append_dependency. exists proc, exe.
    split; [done|]. split; [done|]. split; [done|]. left. split; [done|].
    by exists version, dll.
  - destruct (is_java_process proc) eqn:Hjava; [|apply always_ret; apply _].
    rewrite detect_java_version_unknown, Hexe.
    apply always_append_dependency. exists proc, exe.
    split; [done|]. split; [done|]. split; [done|]. right. done.
Qed.

(** Records of the processes of [h]. *)
Lemma scan_running_processes_records (h : host) (s : scanner) :
  grows_by (process_record h) (printed Scanning_processes s) (scan_running_processes h s).2.
Proof.
  rewrite scan_running_processes_run.
  apply (always_for_each (grows_by (process_record h))).
  intros proc Hproc. unfold scan_process.
  apply always_try_except; [apply _ | | intros _; apply always_ret; apply _].
  destruct (Py.truthy_opt _); [|apply always_ret; apply _].
  by apply analyze_running_process_records.
Qed.

(** X3 -- what the scan of running processes records.  Every record it
    appends comes from one of the listed processes that has a non-empty
    executable path.  A dotnet_runtime record carries the version
    [get_dotnet_core_version_from_process] found in the process's
    modules.  A java_runtime record comes from a process that
    [is_java_process] accepts, and its framework is always
    Java Runtime Unknown: the version is never read. *)
Theorem scan_running_processes_sound (h : host) (s : scanner) (c : string) (r : record) :
  r ∈ records_of (scan_running_processes h s).2 c ->
  r ∈ records_of s c
  \/ exists proc exe,
       proc ∈ process_iter h /\ proc_exe proc = Some exe /\ exe <> EmptyString
       /\ ((c = "dotnet_runtime"
            /\ exists version dll,
                 get_dotnet_core_version_from_process proc = Ok (Some version, dll)
                 /\ r = runtime_record proc exe (".NET Core Runtime " +:+ version) dll
                 /\ r !! "framework" = Some (PStr (".NET Core Runtime " +:+ version)))
           \/ (c = "java_runtime"
               /\ is_java_process proc = true
               /\ r = runtime_record proc exe "Java Runtime Unknown" (Some exe)
               /\ r !! "framework" = Some (PStr "Java Runtime Unknown"))).
Proof.
  intros Hr.
  destruct (scan_running_processes_records h s) as (_ & _ & _ & _ & Hnew).
  destruct (Hnew c r Hr) as [Hold|(proc & exe & Hproc & Hexe & Hne & Hrec)]; [by left|].
  right. exists proc, exe. split; [done|]. split; [done|]. split; [done|].
  destruct Hrec as [(-> & version & dll & Hget & ->) | (-> & Hjava & ->)].
  - left. split; [done|]. exists version, dll. split; [done|]. split; [done|].
    apply (runtime_record_fields proc exe _ dll).
  - right. split; [done|]. split; [done|]. split; [done|].
    apply (runtime_record_fields proc exe _ (Some exe)).
Qed.

Lemma java_vm_process_record :
  runtime_record java_vm_process "C:\Java\bin\java.exe" "Java Runtime Unknown"
    (Some "C:\Java\bin\java.exe")
    ∈ records_of (scan_running_processes host_one_jar init).2 "java_runtime".
Proof. apply (bool_decide_unpack _). vm_compute. exact I. Defined.

Lemma scan_running_processes_sound_witness :
  let r := runtime_record java_vm_process "C:\Java\bin\java.exe" "Java Runtime Unknown"
             (Some "C:\Java\bin\java.exe") in
  r ∈ records_of init "java_runtime"
  \/ exists proc exe,
       proc ∈ process_iter host_one_jar /\ proc_exe proc = Some exe /\ exe <> EmptyString
       /\ (("java_runtime" = "dotnet_runtime"
            /\ exists version dll,
                 get_dotnet_core_version_from_process proc = Ok (Some version, dll)
                 /\ r = runtime_record proc exe (".NET Core Runtime " +:+ version) dll
                 /\ r !! "framework" = Some (PStr (".NET Core Runtime " +:+ version)))
           \/ ("java_runtime" = "java_runtime"
               /\ is_java_process proc = true
               /\ r = runtime_record proc exe "Java Runtime Unknown" (Some exe)
               /\ r !! "framework" = Some (PStr "Java Runtime Unknown"))).
Proof.
  exact (scan_running_processes_sound host_one_jar init "java_runtime" _
           java_vm_process_record).
Defined.

(** ** The lines of the runtime list *)

Lemma stops_after (f g : ascii -> bool) (a r : string) :
  (forall c, f c = true -> g c = false) ->
  a <> EmptyString -> all_chars f a -> stops g (a +:+ r).
Proof.
  intros Hfg Hne Ha. destruct a as [|c a]; [done|].
  rewrite append_cons. simpl. apply Hfg. apply Ha.
Qed.

Lemma up_to_last_closing (c : ascii) (p : string) :
  Re.up_to_last c (p +:+ String c EmptyString) = Some p.
Proof.
  induction p as [|a p IH].
  - rewrite append_nil. simpl. by rewrite Ascii.eqb_refl.
  - rewrite append_cons. simpl. by rewrite IH.
Qed.

Lemma span_all (f : ascii -> bool) (a : string) :
  all_chars f a -> Re.span f a = (a, EmptyString).
Proof.
  intros Ha. induction a as [|c a IH]; [done|].
  destruct Ha as [Hc Ha]. simpl. by rewrite Hc, (IH Ha).
Qed.

(** X5 -- the pattern of [detect_dotnet_core] reads a line of the
    runtime list back into its parts.  A line made of a name and a
    version, both non-empty and free of white space, and a path in
    square brackets, with white space between the three, matches, and
    the three groups are the name, the version and the path; the path
    may hold spaces and brackets, anything but a newline. *)
Theorem runtime_line_round_trip (runtime gap1 version gap2 path : string) :
  runtime <> EmptyString -> all_chars Re.not_space runtime ->
  gap1 <> EmptyString -> all_chars Py.isspace gap1 ->
  version <> EmptyString -> all_chars Re.not_space version ->
  gap2 <> EmptyString -> all_chars Py.isspace gap2 ->
  all_chars Re.not_newline path ->
  Re.runtime_line (runtime +:+ gap1 +:+ version +:+ gap2 +:+ "[" +:+ path +:+ "]")
  = Some (runtime, version, path).
Proof.
  intros Hr1 Hr2 Hg1 Hg2 Hv1 Hv2 Hh1 Hh2 Hp.
  assert (Hns : forall c, Re.not_space c = true -> Py.isspace c = false).
  { intros c. unfold Re.not_space. by rewrite negb_true_iff. }
  assert (Hsn : forall c, Py.isspace c = true -> Re.not_space c = false).
  { intros c Hc. unfold Re.not_space. by rewrite Hc. }
  unfold Re.runtime_line.
  rewrite (plus_app Re.not_space runtime) by (try done; by eapply stops_after).
  simpl.
  rewrite (plus_app Py.isspace gap1) by (try done; by eapply stops_after).
  simpl.
  rewrite (plus_app Re.not_space version) by (try done; by eapply stops_after).
  simpl.
  rewrite (plus_app Py.isspace gap2) by done.
  simpl. rewrite ?literal_app, ?append_nil. simpl.
  rewrite span_all.
  - simpl. by rewrite up_to_last_closing.
  - apply all_chars_app; [done|]. by repeat split.
Qed.

Lemma runtime_line_round_trip_witness :
  Re.runtime_line
    ("Microsoft.NETCore.App" +:+ " " +:+ "6.0.25" +:+ " " +:+ "["
     +:+ "C:\Program Files\dotnet\shared\Microsoft.NETCore.App" +:+ "]")
  = Some ("Microsoft.NETCore.App", "6.0.25",
          "C:\Program Files\dotnet\shared\Microsoft.NETCore.App").
Proof.
  apply (runtime_line_round_trip "Microsoft.NETCore.App" " " "6.0.25" " "
           "C:\Program Files\dotnet\shared\Microsoft.NETCore.App");
    try discriminate; vm_compute; repeat split.
Defined.

(** ** The end-of-life checks of the databases *)

(** The text before the first dot. *)
Lemma split_first (sep : ascii) (v : string) :
  exists c rest, Py.split sep v = c :: rest.
Proof.
  pose proof (split_nonempty sep v). destruct (Py.split sep v) as [|c rest]; [done|].
  by exists c, rest.
Qed.

(** X6 -- [check_mssql_eol] and [check_postgresql_eol] go by the text
    before the first dot, which every version text has, so that the
    index is never out of range.  The answer is EOL exactly when that
    text is an integer literal with a value below 13 (SQL Server) or
    below 12 (PostgreSQL), Supported exactly when it is one with a value
    of at least that, and Unknown exactly when it is no integer literal:
    digits, single underscores allowed between them, one optional sign,
    white space allowed around, at most 4300 digits. *)
Theorem database_eol_by_major_version (v : string) :
  (exists major, first_component v major
    /\ (check_mssql_eol v = "EOL" <-> exists n, int_reads major n /\ n < 13)
    /\ (check_mssql_eol v = "Supported" <-> exists n, int_reads major n /\ 13 <= n)
    /\ (check_mssql_eol v = "Unknown" <-> forall n, ~ int_reads major n)
    /\ (check_postgresql_eol v = "EOL" <-> exists n, int_reads major n /\ n < 12)
    /\ (check_postgresql_eol v = "Supported" <-> exists n, int_reads major n /\ 12 <= n)
    /\ (check_postgresql_eol v = "Unknown" <-> forall n, ~ int_reads major n))
  /\ check_mssql_eol "12.0.2000.8" = "EOL"
  /\ check_mssql_eol "13.0.1601.5" = "Supported"
  /\ check_mssql_eol "16.0.1000.6" = "Supported"
  /\ check_mssql_eol "Unknown" = "Unknown"
  /\ check_mssql_eol "" = "Unknown"
  /\ check_mssql_eol " 12.1" = "EOL"
  /\ check_mssql_eol "1_2.0" = "EOL"
  /\ check_mssql_eol "-1" = "EOL"
  /\ check_mssql_eol (String "028" "12.0") = "Unknown"
  /\ check_mssql_eol (zeros 4300) = "EOL"
  /\ check_mssql_eol (zeros 4301 +:+ ".1") = "Unknown"
  /\ check_postgresql_eol "9.6.24" = "EOL"
  /\ check_postgresql_eol "11.5" = "EOL"
  /\ check_postgresql_eol "12" = "Supported"
  /\ check_postgresql_eol "64" = "Supported"
  /\ check_postgresql_eol "Unknown" = "Unknown"
  /\ check_postgresql_eol (String "028" "12") = "Unknown".
Proof.
  split; [|repeat split; by vm_compute].
  destruct (split_first "." v) as (major & rest & Hsplit).
  exists major. split; [apply split_first_spec; by rewrite Hsplit|].
  setoid_rewrite <- int_refuses. setoid_rewrite <- int_spec.
  unfold check_mssql_eol, check_postgresql_eol, Py.getitem.
  rewrite Hsplit. simpl.
  destruct (Py.int major) as [n|e]; simpl.
  - destruct (Z.ltb_spec n 13), (Z.ltb_spec n 12);
      repeat split; try done; try (intros; eexists; split; [reflexivity | lia]);
      try (intros (n' & [= <-] & ?); lia); try (intros (e & ?); discriminate).
  - repeat split; try done; try (intros (n' & ? & ?); discriminate); eauto.
Qed.

(** X7 -- [check_mysql_eol] answers EOL exactly for the versions that
    start with 5 and a dot, and Supported for every other text: it
    never answers Unknown, its [except] clause being out of reach.  So
    the version Unknown, which [detect_mysql_instances] gives a service
    in which it finds no version, is classed Supported. *)
Theorem check_mysql_eol_prefix (v : string) :
  (check_mysql_eol v = "EOL" <-> exists rest, v = "5." +:+ rest)
  /\ (check_mysql_eol v = "Supported" <-> ~ exists rest, v = "5." +:+ rest)
  /\ check_mysql_eol v <> "Unknown"
  /\ check_mysql_eol "Unknown" = "Supported".
Proof.
  unfold check_mysql_eol.
  destruct (Py.startswith v "5.") eqn:E.
  - apply startswith_spec in E. repeat split; try done; try discriminate.
    all: intros H; by destruct H.
  - apply startswith_false in E. repeat split; try done; try discriminate.
    all: intros H; by destruct E.
Qed.

(** ** The version of a PostgreSQL service *)

(** X8 -- [detect_postgresql_instances] takes the first run of digits
    in the service's name followed by its display name.  For a service
    named postgresql-x64- and a version, as the installer names it,
    that run is the 64 of x64: whatever the version in the name and
    whatever the display name, the record is stored under PostgreSQL 64
    with version 64, which the end-of-life check classes Supported. *)
Theorem postgresql_x64_service_version (h : host) (n display binpath : string) :
  win_service_iter h
  = Ok [Ok {| svc_name := "postgresql-x64-" +:+ n;
              svc_display_name := Ok display;
              svc_binpath := Ok binpath |}] ->
  yields (detect_postgresql_instances h)
    (<["PostgreSQL 64" :=
         dict_literal [("version", PStr "64"); ("path", PStr (parent_parent h binpath));
                       ("type", PStr "postgresql"); ("eol_status", PStr "Supported")]]> ∅).
Proof.
  intros Hservices.
  assert (Hname : Py.startswith (Py.lower ("postgresql-x64-" +:+ n)) "postgresql" = true)
    by reflexivity.
  assert (Hversion : Re.search Re.postgresql_version_at
                       (("postgresql-x64-" +:+ n) +:+ display) = Some "64")
    by reflexivity.
  intros s. unfold detect_postgresql_instances. rewrite try_filling_spec.
  rewrite run_bind. unfold lift at 1. rewrite Hservices.
  unfold for_each_yield, for_each. rewrite !run_bind. unfold lift at 1.
  cbn [svc_name svc_display_name svc_binpath].
  rewrite Hname. unfold try_except. rewrite !run_bind. unfold lift at 1.
  rewrite Hversion. rewrite !run_bind. unfold lift at 1.
  simpl. by eexists.
Qed.

Lemma postgresql_x64_service_version_witness :
  yields (detect_postgresql_instances host_postgresql_14)
    (<["PostgreSQL 64" :=
         dict_literal [("version", PStr "64");
                       ("path", PStr (parent_parent host_postgresql_14
                                        "C:\Program Files\PostgreSQL\14\bin\pg_ctl.exe"));
                       ("type", PStr "postgresql"); ("eol_status", PStr "Supported")]]> ∅).
Proof.
  exact (postgresql_x64_service_version host_postgresql_14 "14"
           "postgresql-x64-14 - PostgreSQL Server 14"
           "C:\Program Files\PostgreSQL\14\bin\pg_ctl.exe" eq_refl).
Defined.

(** ** The name of the application *)

Lemma contains_spec (sub s : string) : Py.contains sub s = true <-> holds sub s.
Proof.
  unfold holds. induction s as [|c r IH]; cbn [Py.contains].
  - rewrite orb_false_r. change (String.prefix sub "") with (Py.startswith "" sub).
    rewrite startswith_spec. split.
    + intros [rest E]. by exists EmptyString, rest.
    + intros (a & b & E). destruct a; [by exists b | discriminate E].
  - rewrite orb_true_iff, IH.
    change (String.prefix sub (String c r)) with (Py.startswith (String c r) sub).
    rewrite startswith_spec. split.
    + intros [[rest E] | (a & b & ->)].
      * by exists EmptyString, rest.
      * by exists (String c a), b.
    + intros (a & b & E). destruct a as [|x a].
      * left. by exists b.
      * right. rewrite append_cons in E. injection E as -> ->. by exists a, b.
Qed.

Lemma split_head_spec (sep : ascii) (v c : string) :
  Py.split sep v !! 0%nat = Some c <-> before_first sep v c.
Proof.
  unfold before_first. split.
  - intros H. pose proof (split_concat sep v) as Hv.
    pose proof (split_components_free sep v) as Hf.
    destruct (Py.split sep v) as [|a t]; [discriminate|].
    injection H as ->. apply Forall_cons in Hf as [Hc _]. split; [done|].
    rewrite concat_cons in Hv. destruct t; [by left|]. right. by eauto.
  - intros [Hc [-> | [rest ->]]].
    + by rewrite split_free.
    + by rewrite split_app_sep.
Qed.

(** X9 -- [get_application_name] never raises, and its name is one of
    three.  When the second part of the path holds program files, in
    any case of letters, the name is the third part.  Else, when the
    second part holds windowsapps, in any case of letters, the name is
    the text of the third part before its first underscore.  Else, and
    also when one of these two holds but the path has no third part
    (the [IndexError] is caught), or no second part, the name is the
    file's stem.  So a jar the scan finds under C:\Program Files or
    C:\Program Files (x86) is named after the first entry below that
    directory, which is the jar's own file name, suffix included, when
    it lies directly in it, and one under C:\ProgramData by its
    stem. *)
Theorem get_application_name_cases :
  (forall file_path, exists app, get_application_name file_path = Ok app)
  /\ (forall anchor top entry rest,
        holds "program files" (Py.lower top) ->
        get_application_name (anchor :: top :: entry :: rest) = Ok entry)
  /\ (forall anchor top entry rest,
        ~ holds "program files" (Py.lower top) ->
        holds "windowsapps" (Py.lower top) ->
        exists first,
          before_first "_" entry first
          /\ get_application_name (anchor :: top :: entry :: rest) = Ok first)
  /\ (forall anchor top rest,
        ~ holds "program files" (Py.lower top) ->
        ~ holds "windowsapps" (Py.lower top) ->
        get_application_name (anchor :: top :: rest) = Ok (Path.stem (anchor :: top :: rest)))
  /\ (forall file_path, (length file_path < 3)%nat ->
        get_application_name file_path = Ok (Path.stem file_path))
  /\ (forall entry rest,
        get_application_name (["C:\"; "Program Files"] ++ entry :: rest) = Ok entry
        /\ get_application_name (["C:\"; "Program Files (x86)"] ++ entry :: rest) = Ok entry
        /\ get_application_name (["C:\"; "ProgramData"] ++ entry :: rest)
           = Ok (Path.stem (["C:\"; "ProgramData"] ++ entry :: rest)))
  /\ get_application_name ["C:\"; "Program Files"; "App"; "lib"; "a.jar"] = Ok "App"
  /\ get_application_name ["C:\"; "Program Files"; "lib.jar"] = Ok "lib.jar"
  /\ get_application_name ["D:\"; "My PROGRAM FILES backup"; "x"; "a.jar"] = Ok "x"
  /\ get_application_name ["C:\"; "Program Files"; "WindowsApps"; "Pkg_1.0_x64"; "a.jar"]
     = Ok "WindowsApps"
  /\ get_application_name ["C:\"; "WindowsApps"; "Pkg_1.0_x64"; "a.jar"] = Ok "Pkg"
  /\ get_application_name ["C:\"; "WindowsApps"; "plain"; "a.jar"] = Ok "plain"
  /\ get_application_name ["C:\"; "windowsapps"; "_x"; "a.jar"] = Ok ""
  /\ get_application_name ["C:\"; "ProgramData"; "Vendor"; "tool.jar"] = Ok "tool"
  /\ get_application_name ["C:\"; "ProgramData"; ".hidden"] = Ok ".hidden"
  /\ get_application_name ["C:\"; "Program Files"] = Ok "Program Files"
  /\ get_application_name ["C:\"; "WindowsApps"] = Ok "WindowsApps"
  /\ get_application_name ["C:\"] = Ok "".
Proof.
  split; [apply get_application_name_total|].
  split; [|split; [|split; [|split; [|split; [|repeat split; reflexivity]]]]].
  - intros anchor top entry rest H%contains_spec.
    unfold get_application_name, Py.getitem. simpl. by rewrite H.
  - intros anchor top entry rest H1 H2%contains_spec.
    assert (Py.contains "program files" (Py.lower top) = false) as H1'.
    { destruct (Py.contains "program files" (Py.lower top)) eqn:E; [|done].
      by apply contains_spec in E. }
    destruct (split_first "_" entry) as (first & others & Hsplit).
    exists first. split; [apply split_head_spec; by rewrite Hsplit|].
    unfold get_application_name, Py.getitem. simpl. rewrite H1', H2. simpl.
    by rewrite Hsplit.
  - intros anchor top rest H1 H2.
    assert (Py.contains "program files" (Py.lower top) = false) as H1'.
    { destruct (Py.contains "program files" (Py.lower top)) eqn:E; [|done].
      by apply contains_spec in E. }
    assert (Py.contains "windowsapps" (Py.lower top) = false) as H2'.
    { destruct (Py.contains "windowsapps" (Py.lower top)) eqn:E; [|done].
      by apply contains_spec in E. }
    unfold get_application_name, Py.getitem. simpl. by rewrite H1', H2'.
  - intros file_path Hlen. unfold get_application_name, Py.getitem.
    destruct file_path as [|a [|b [|c rest]]]; simpl in *; try done; [|lia].
    destruct (Py.contains "program files" (Py.lower b)); [done|].
    by destruct (Py.contains "windowsapps" (Py.lower b)).
  - intros entry rest. repeat split; reflexivity.
Qed.

(** ** The count of dependencies *)

Lemma sum_of_lengths_insert (deps : gmap string (list record)) (c : string)
    (records : list record) :
  (sum_of_lengths (<[c := records]> deps) + length (default [] (deps !! c))
   = sum_of_lengths deps + length records)%nat.
Proof.
  assert (Hfresh : forall (m : gmap string (list record)) l,
            m !! c = None ->
            sum_of_lengths (<[c := l]> m) = (sum_of_lengths m + length l)%nat).
  { intros m l Hm. unfold sum_of_lengths.
    rewrite map_fold_insert_L; [done | | done].
    intros j1 j2 z1 z2 y _ _ _. lia. }
  destruct (deps !! c) as [old|] eqn:E; simpl.
  - assert (E1 : sum_of_lengths (<[c := records]> deps)
                 = (sum_of_lengths (delete c deps) + length records)%nat).
    { rewrite <- insert_delete_eq. apply Hfresh, lookup_delete_eq. }
    assert (E2 : sum_of_lengths deps
                 = (sum_of_lengths (delete c deps) + length old)%nat).
    { transitivity (sum_of_lengths (<[c := old]> (delete c deps))).
      - by rewrite insert_delete_id.
      - apply Hfresh, lookup_delete_eq. }
    lia.
  - rewrite Hfresh by done. simpl. lia.
Qed.

(** X10 -- every record appended is counted once.  After
    [self.dependencies[category].append(r)], whether the category was
    there or the [defaultdict] has just made it, the report's
    dependencies_found is one more than before and its
    frameworks_found is as before. *)
Theorem appended_record_is_counted (h : host) (category : string) (r : record) (s : scanner) :
  exists before after,
    (generate_report h s).1 = Ok before
    /\ (_ ← append_dependency category r ; generate_report h) s
       = (Ok after, appended category r s)
    /\ dependencies_found (report_scan_summary after)
       = S (dependencies_found (report_scan_summary before))
    /\ frameworks_found (report_scan_summary after)
       = frameworks_found (report_scan_summary before).
Proof.
  eexists _, _. split; [reflexivity|]. split; [reflexivity|]. simpl. split; [|done].
  pose proof (sum_of_lengths_insert (dependencies s) category
                (default [] (dependencies s !! category) ++ [r])) as H.
  rewrite length_app in H. simpl in H. lia.
Qed.

(** ** The runtimes the command line lists *)

#[local] Instance keeps_keys_preorder : PreOrder keeps_keys.
Proof. split; [by intros d k | intros d1 d2 d3 H12 H23 k Hk; auto]. Qed.

Lemma rstrip_nonempty (c : ascii) (r : string) :
  Py.isspace c = false -> Py.rstrip (String c r) <> EmptyString.
Proof. intros Hc. simpl. destruct (Py.rstrip r); [by rewrite Hc | done]. Qed.

(** The test [if line.strip()] never decides: a blank line does not
    match the pattern either. *)
Lemma runtime_line_not_blank (line : string) :
  is_Some (Re.runtime_line line) -> Py.truthy (Py.strip line) = true.
Proof.
  intros [x Hx]. unfold Re.runtime_line in Hx.
  destruct (Re.plus Re.not_space line) as [[runtime r]|] eqn:E; [|discriminate].
  apply plus_spec in E as (-> & Hne & Hall & _).
  destruct runtime as [|c runtime]; [done|]. destruct Hall as [Hc _].
  unfold Re.not_space in Hc. apply negb_true_iff in Hc.
  apply truthy_spec. unfold Py.strip. rewrite append_cons. simpl. rewrite Hc.
  by apply rstrip_nonempty.
Qed.

Lemma detect_dotnet_core_listing (h : host) (out : string) (s : scanner) :
  run_dotnet_list_runtimes h = Ok (0, out) ->
  detect_dotnet_core h s
  = (Ok (for_each (Py.splitlines out) dotnet_line_step ∅).2, s)
  /\ (for_each (Py.splitlines out) dotnet_line_step ∅).1 = Ok tt.
Proof.
  intros Hrun.
  assert (Hret : returns (for_each (Py.splitlines out) dotnet_line_step)).
  { apply returns_for_each. intros line _. unfold dotnet_line_step. returns_tac. }
  split; [|by apply returns_unit].
  unfold detect_dotnet_core. rewrite try_filling_spec.
  unfold subprocess_run. simpl. rewrite run_bind. unfold lift. rewrite Hrun. simpl.
  change (for_each (Py.splitlines out) _ ∅)
    with (for_each (Py.splitlines out) dotnet_line_step ∅).
  by rewrite (returns_unit _ ∅ Hret).
Qed.

(** X11 -- what [detect_dotnet_core] makes of the command's answer.  A
    return code other than zero gives the empty map and prints
    nothing; a command that is not found gives the empty map and the
    message.  With return code zero the map holds, under the key
    NAME VERSION, a record for every line of the output that matches
    the pattern, built from the groups of a matching line, and nothing
    else: lines that do not match are passed over. *)
Theorem detect_dotnet_core_entries (h : host) (s : scanner) :
  (forall rc out, run_dotnet_list_runtimes h = Ok (rc, out) -> rc <> 0 ->
     detect_dotnet_core h s = (Ok ∅, s))
  /\ (run_dotnet_list_runtimes h = Raise FileNotFoundError ->
      detect_dotnet_core h s = (Ok ∅, printed Info_dotnet_cli_not_found s))
  /\ (forall out, run_dotnet_list_runtimes h = Ok (0, out) ->
      exists d,
        detect_dotnet_core h s = (Ok d, s)
        /\ (forall k r, d !! k = Some r ->
              exists line runtime version path,
                line ∈ Py.splitlines out
                /\ Re.runtime_line line = Some (runtime, version, path)
                /\ k = runtime +:+ " " +:+ version
                /\ r = dict_literal
                         [("version", PStr version); ("runtime", PStr runtime);
                          ("path", PStr path); ("type", PStr "dotnet_core");
                          ("eol_status", PStr (check_dotnet_core_eol version))])
        /\ (forall line runtime version path,
              line ∈ Py.splitlines out ->
              Re.runtime_line line = Some (runtime, version, path) ->
              is_Some (d !! (runtime +:+ " " +:+ version)))).
Proof.
  split; [|split].
  - intros rc out Hrun Hrc. unfold detect_dotnet_core. rewrite try_filling_spec.
    unfold subprocess_run. simpl. rewrite !run_bind. unfold lift. rewrite Hrun. simpl.
    apply Z.eqb_neq in Hrc. by rewrite Hrc.
  - intros Hrun. unfold detect_dotnet_core. rewrite try_filling_spec.
    unfold subprocess_run. simpl. rewrite !run_bind. unfold lift. by rewrite Hrun.
  - intros out Hrun. destruct (detect_dotnet_core_listing h out s Hrun) as [-> Hok].
    eexists. split; [reflexivity|]. split.
    + set (Q := fun (k : string) (r : record) =>
                  exists line runtime version path,
                    line ∈ Py.splitlines out
                    /\ Re.runtime_line line = Some (runtime, version, path)
                    /\ k = runtime +:+ " " +:+ version
                    /\ r = dotnet_record runtime version path).
      assert (Hall : always (keeps (map_Forall Q))
                       (for_each (Py.splitlines out) dotnet_line_step)).
      { apply always_for_each; [apply _|]. intros line Hline. unfold dotnet_line_step.
        destruct (Py.truthy _); [|apply always_ret; apply _].
        destruct (Re.runtime_line line) as [[[runtime version] path]|] eqn:E;
          [|apply always_ret; apply _].
        apply always_modify. intros d Hd. apply map_Forall_insert_2; [|done].
        by exists line, runtime, version, path. }
      intros k r Hk. apply (Hall ∅ (map_Forall_empty _) k r Hk).
    + intros line runtime version path Hline Hmatch.
      destruct (for_each_covers keeps_keys (Py.splitlines out) dotnet_line_step line ∅)
        as (d1 & _ & Hend); [| |exact Hline|].
      * intros y _. unfold dotnet_line_step. returns_tac.
      * intros y _. unfold dotnet_line_step.
        destruct (Py.truthy _); [|apply always_ret; apply _].
        destruct (Re.runtime_line y) as [[[rt ver] pth]|]; [|apply always_ret; apply _].
        apply always_modify. intros d k [x Hx].
        destruct (decide (rt +:+ " " +:+ ver = k)) as [->|Hne].
        -- rewrite lookup_insert_eq. by eexists.
        -- rewrite lookup_insert_ne by done. by eexists.
      * apply Hend. unfold dotnet_line_step.
        rewrite runtime_line_not_blank by (by rewrite Hmatch).
        rewrite Hmatch. simpl. rewrite lookup_insert_eq. by eexists.
Qed.

(** ** Failures inside the Java registry scan *)

Lemma for_each_app {S X} (l1 l2 : list X) (body : X -> ST S unit) (s : S) :
  for_each (l1 ++ l2) body s = (_ ← for_each l1 body ; for_each l2 body) s.
Proof.
  revert s. induction l1 as [|x l1 IH]; intros s; simpl; [done|].
  rewrite !run_bind. destruct (body x s) as [[[]|e] s1]; [|done].
  rewrite IH. by rewrite run_bind.
Qed.

Lemma detect_java_installations_key (h : host) (key : list (outcome java_subkey))
    (s : scanner) :
  reg_java_runtime_environment h = Ok key ->
  detect_java_installations h s =
  match (for_each_yield key java_subkey_step ∅).1 with
  | Ok _ => (Ok (for_each_yield key java_subkey_step ∅).2, s)
  | Raise e => (Ok (for_each_yield key java_subkey_step ∅).2, printed (Info_java e) s)
  end.
Proof.
  intros Hkey. unfold detect_java_installations. rewrite try_filling_spec.
  rewrite Hkey.
  set (body := lift (Ok key) ≫= _).
  assert (body ∅ = for_each_yield key java_subkey_step ∅) as -> by reflexivity.
  destruct (for_each_yield key java_subkey_step ∅) as [[[]|e] d]; simpl; [done|].
  by destruct e.
Qed.

Lemma detect_java_installations_registry (h : host)
    (key : list (outcome java_subkey)) (s : scanner) :
  detect_java_installations (with_java_registry (Ok key) h) s =
  match (for_each_yield key java_subkey_step ∅).1 with
  | Ok _ => (Ok (for_each_yield key java_subkey_step ∅).2, s)
  | Raise e => (Ok (for_each_yield key java_subkey_step ∅).2, printed (Info_java e) s)
  end.
Proof. by apply detect_java_installations_key. Qed.

(** X12 -- how [detect_java_installations] takes failures.  When the
    key itself cannot be opened, the result is the empty map and the
    message is printed.  A subkey whose JavaHome value is missing
    ([FileNotFoundError]) is passed over as if it were not there: the
    subkeys after it are still read.  Any other failure on a subkey, or
    a failure of the enumeration itself, ends the scan of the key: the
    installations found before it are returned and those after it are
    never read. *)
Theorem detect_java_installations_failures (h : host)
    (before after : list (outcome java_subkey)) (version : string) (e : exn) (s : scanner) :
  let failing := Ok {| jk_version := version; jk_JavaHome := Raise e |} in
  let scan key := detect_java_installations (with_java_registry key h) s in
  scan (Raise e) = (Ok ∅, printed (Info_java e) s)
  /\ (e = FileNotFoundError ->
      scan (Ok (before ++ failing :: after)) = scan (Ok (before ++ after)))
  /\ (e <> FileNotFoundError ->
      (scan (Ok (before ++ failing :: after))).1 = (scan (Ok before)).1)
  /\ (scan (Ok (before ++ Raise e :: after))).1 = (scan (Ok before)).1.
Proof.
  intros failing scan. subst scan. cbv beta.
  split; [reflexivity|].
  assert (Hstop : forall x,
            (forall d, (y ← lift x ; java_subkey_step y) d = (Raise e, d)) ->
            (detect_java_installations
               (with_java_registry (Ok (before ++ x :: after)) h) s).1
            = (detect_java_installations (with_java_registry (Ok before) h) s).1).
  { intros x Hx.
    rewrite !detect_java_installations_registry.
    unfold for_each_yield. rewrite for_each_app, run_bind.
    destruct (for_each before _ ∅) as [[[]|e0] d]; simpl; [|done].
    rewrite run_bind. by rewrite Hx. }
  split; [|split].
  - intros ->. rewrite !detect_java_installations_registry.
    unfold for_each_yield. rewrite !for_each_app, !run_bind.
    by destruct (for_each before _ ∅) as [[[]|e0] d].
  - intros Hne. apply Hstop. intros d. subst failing.
    unfold java_subkey_step, try_except. simpl. by destruct e.
  - apply Hstop. intros d. reflexivity.
Qed.

(** ** The three kinds of database never share a key *)

Lemma always_insert_keyed (prefix ty rest : string) (r : record) :
  r !! "type" = Some (PStr ty) ->
  always (keeps (keyed prefix ty))
         (modify (insert (prefix +:+ rest) r) : ST (gmap string record) unit).
Proof.
  intros Hr. apply always_modify. intros d Hd.
  apply map_Forall_insert_2; [|exact Hd].
  split; [|exact Hr]. apply startswith_spec. by exists rest.
Qed.

Lemma keyed_apart (p1 p2 t1 t2 : string) (d1 d2 : gmap string record) :
  (forall k, Py.startswith k p1 = true -> Py.startswith k p2 = true -> False) ->
  keyed p1 t1 d1 -> keyed p2 t2 d2 -> d1 ##ₘ d2.
Proof.
  intros Hp H1 H2. apply map_disjoint_spec. intros k r1 r2 E1 E2.
  apply (Hp k); [apply (H1 k r1 E1) | apply (H2 k r2 E2)].
Qed.

(** X13 -- the three database detectors never write under the same
    key.  Every key of the SQL Server map begins with
    [Microsoft SQL Server ] and its record has the type [mssql]; every
    key of the MySQL map begins with [MySQL Server ], type [mysql];
    every key of the PostgreSQL map begins with [PostgreSQL ], type
    [postgresql].  So the maps are pairwise disjoint, the three
    [update] calls of [detect_sql_databases] overwrite nothing, and the
    merged map has as many entries as the three maps together. *)
Theorem sql_kinds_never_collide (h : host) :
  exists mssql mysql postgres sql,
    yields (detect_sql_server_instances h) mssql
    /\ yields (detect_mysql_instances h) mysql
    /\ yields (detect_postgresql_instances h) postgres
    /\ yields (detect_sql_databases h) sql
    /\ keyed "Microsoft SQL Server " "mssql" mssql
    /\ keyed "MySQL Server " "mysql" mysql
    /\ keyed "PostgreSQL " "postgresql" postgres
    /\ mssql ##ₘ mysql /\ mssql ##ₘ postgres /\ mysql ##ₘ postgres
    /\ sql = mssql ∪ mysql ∪ postgres
    /\ size sql = (size mssql + size mysql + size postgres)%nat.
Proof.
  destruct (detect_sql_databases_yields h)
    as (mssql & mysql & postgres & sql & Hms & Hmy & Hpg & Hsql & ->).
  assert (Kms : keyed "Microsoft SQL Server " "mssql" mssql).
  { destruct (Hms init) as [s' H].
    eapply (try_filling_result (keeps (keyed "Microsoft SQL Server " "mssql"))) in H.
    - apply H, map_Forall_empty.
    - always_tac.
      apply (always_insert_keyed "Microsoft SQL Server " "mssql"
               (_ +:+ " (Instance: " +:+ _ +:+ ")")).
      unfold dict_literal. simpl. by simplify_map_eq. }
  assert (Kmy : keyed "MySQL Server " "mysql" mysql).
  { destruct (Hmy init) as [s' H].
    eapply (try_filling_result (keeps (keyed "MySQL Server " "mysql"))) in H.
    - apply H, map_Forall_empty.
    - always_tac. apply (always_insert_keyed "MySQL Server " "mysql").
      unfold dict_literal. simpl. by simplify_map_eq. }
  assert (Kpg : keyed "PostgreSQL " "postgresql" postgres).
  { destruct (Hpg init) as [s' H].
    eapply (try_filling_result (keeps (keyed "PostgreSQL " "postgresql"))) in H.
    - apply H, map_Forall_empty.
    - always_tac. apply (always_insert_keyed "PostgreSQL " "postgresql").
      unfold dict_literal. simpl. by simplify_map_eq. }
  assert (D1 : mssql ##ₘ mysql).
  { eapply keyed_apart; [|exact Kms|exact Kmy].
    intros k [r1 ->]%startswith_spec [r2 E]%startswith_spec.
    str_simpl. congruence. }
  assert (D2 : mssql ##ₘ postgres).
  { eapply keyed_apart; [|exact Kms|exact Kpg].
    intros k [r1 ->]%startswith_spec [r2 E]%startswith_spec.
    str_simpl. congruence. }
  assert (D3 : mysql ##ₘ postgres).
  { eapply keyed_apart; [|exact Kmy|exact Kpg].
    intros k [r1 ->]%startswith_spec [r2 E]%startswith_spec.
    str_simpl. congruence. }
  assert (E : dict_update (dict_update (dict_update ∅ mssql) mysql) postgres
              = mssql ∪ mysql ∪ postgres).
  { apply map_eq. intros k.
    rewrite !lookup_dict_update, lookup_empty, !lookup_union.
    pose proof (proj1 (map_disjoint_spec _ _) D1 k) as N1.
    pose proof (proj1 (map_disjoint_spec _ _) D2 k) as N2.
    pose proof (proj1 (map_disjoint_spec _ _) D3 k) as N3.
    destruct (mssql !! k) as [r1|], (mysql !! k) as [r2|], (postgres !! k) as [r3|];
      simpl; try done;
      solve [ exfalso; eauto ]. }
  exists mssql, mysql, postgres, (mssql ∪ mysql ∪ postgres).
  rewrite E in Hsql.
  do 11 (split; [assumption || reflexivity|]).
  rewrite !map_size_disj_union; [done|done|].
  by apply map_disjoint_union_l.
Qed.
